(** * Dashboard bucketing: the date planner and the two aggregators

    A shallow embedding of [server/controllers/dashboard_controller.js].

    The controller manipulates JavaScript [Date] objects through the UTC
    getters and setters and through [Date.UTC].  Those built-ins are
    embedded here from ECMA-262 (section "Date Objects"): a time value is
    either NaN or an integral number of milliseconds since the epoch, never
    more than 8.64e15 in absolute value; every abstract operation
    ([Day], [YearFromTime], [MakeDay], [TimeClip], ...) keeps the name
    it has in the standard.

    - [Calendar]: the arithmetic of the standard on day numbers.
    - [JS]: Numbers, Date objects, [Date.UTC], the getters and setters.
    - [Controller]: the helpers, [buildBuckets] and the two handlers, and
      the notions the properties are stated with.
    - [CalendarFacts], [JSFacts], [HelperFacts]: lemmas on each layer.
    - The properties of the aggregators and of the planner, then the
      controller run on concrete requests.
    - Further properties: the helpers one by one, the handlers'
      responses, and the reading of dates against the writing of labels.

    The [while] loop of [buildBuckets] is embedded with fuel; that it
    returns on every input is proved with the planner's properties. *)

From Stdlib Require Import ZArith List Bool Lia String Ascii QArith DecimalString Sorted
  Permutation.
From Stdlib Require Decimal DecimalZ DecimalPos.
Import ListNotations.
Open Scope Z_scope.

(** ** ECMA-262 calendar arithmetic on day numbers *)

Module Calendar.

Definition msPerDay : Z := 86400000.
Definition msPerHour : Z := 3600000.
Definition msPerMinute : Z := 60000.
Definition msPerSecond : Z := 1000.

(** The largest magnitude of a time value (100,000,000 days). *)
Definition maxTime : Z := 8640000000000000.

Definition Day (t : Z) : Z := t / msPerDay.
Definition TimeWithinDay (t : Z) : Z := t mod msPerDay.

Definition InLeapYear_of_year (y : Z) : Z :=
  if ((y mod 4 =? 0) && negb (y mod 100 =? 0)) || (y mod 400 =? 0)
  then 1 else 0.

Definition DaysInYear (y : Z) : Z := 365 + InLeapYear_of_year y.

Definition DayFromYear (y : Z) : Z :=
  365 * (y - 1970) + (y - 1969) / 4 - (y - 1901) / 100 + (y - 1601) / 400.

(** [YearFromDay n] is the year that contains day [n]: the standard
    defines it as the largest [y] with [DayFromYear y <= n].  It is
    computed from the mean length of a Gregorian year and corrected by at
    most one; [YearFromDay_spec] below shows that this is that year. *)
Definition YearFromDay (n : Z) : Z :=
  let y0 := 1970 + (400 * n) / 146097 in
  if DayFromYear (y0 + 1) <=? n then y0 + 1
  else if n <? DayFromYear y0 then y0 - 1
  else y0.

Definition DayWithinYear (n : Z) : Z := n - DayFromYear (YearFromDay n).

(** Number of days of the year that precede month [m] (0 = January); [L]
    is 1 in a leap year and 0 otherwise.  [monthStart L 12] is the
    length of the year. *)
Definition monthStart (L m : Z) : Z :=
  match m with
  | 0 => 0
  | 1 => 31
  | 2 => 59 + L
  | 3 => 90 + L
  | 4 => 120 + L
  | 5 => 151 + L
  | 6 => 181 + L
  | 7 => 212 + L
  | 8 => 243 + L
  | 9 => 273 + L
  | 10 => 304 + L
  | 11 => 334 + L
  | _ => 365 + L
  end.

(** The month whose table entry contains day-within-year [d]. *)
Definition monthOfDayWithinYear (L d : Z) : Z :=
  if d <? 31 then 0
  else if d <? 59 + L then 1
  else if d <? 90 + L then 2
  else if d <? 120 + L then 3
  else if d <? 151 + L then 4
  else if d <? 181 + L then 5
  else if d <? 212 + L then 6
  else if d <? 243 + L then 7
  else if d <? 273 + L then 8
  else if d <? 304 + L then 9
  else if d <? 334 + L then 10
  else 11.

Definition MonthFromDay (n : Z) : Z :=
  monthOfDayWithinYear (InLeapYear_of_year (YearFromDay n)) (DayWithinYear n).

Definition DateFromDay (n : Z) : Z :=
  DayWithinYear n
  - monthStart (InLeapYear_of_year (YearFromDay n)) (MonthFromDay n) + 1.

(** 0 = Sunday ... 6 = Saturday; day 0 (1 January 1970) was a Thursday. *)
Definition WeekDayOfDay (n : Z) : Z := (n + 4) mod 7.

Definition YearFromTime (t : Z) : Z := YearFromDay (Day t).
Definition MonthFromTime (t : Z) : Z := MonthFromDay (Day t).
Definition DateFromTime (t : Z) : Z := DateFromDay (Day t).
Definition WeekDay (t : Z) : Z := WeekDayOfDay (Day t).

(** [MakeDay] on integral arguments: the day number of the first day of
    month [m mod 12] of year [y + floor (m / 12)], moved by [dt - 1]. *)
Definition MakeDayZ (y m dt : Z) : Z :=
  let ym := y + m / 12 in
  let mn := m mod 12 in
  DayFromYear ym + monthStart (InLeapYear_of_year ym) mn + dt - 1.

(** The day number of the first day of a month, and of the Monday that
    starts the ISO week of a day. *)
Definition firstOfMonth (y m : Z) : Z := MakeDayZ y m 1.
Definition isoMonday (n : Z) : Z := n - (n + 3) mod 7.

Definition TimeFromYear (y : Z) : Z := msPerDay * DayFromYear y.

Definition MakeTimeZ (h mi s ms : Z) : Z :=
  h * msPerHour + mi * msPerMinute + s * msPerSecond + ms.

Definition MakeDateZ (day time : Z) : Z := day * msPerDay + time.

End Calendar.

(** ** JavaScript numbers and Date objects *)

Module JS.
Import Calendar.

(** A Number: NaN, an infinity, or a finite value.  A finite binary64
    value is a rational, so [Fin] carries one. *)
Inductive num : Type :=
| NaN
| PosInf
| NegInf
| Fin (q : Q).

Definition ofZ (z : Z) : num := Fin (inject_Z z).

(** ToBoolean on a Number: 0 and NaN are falsy. *)
Definition truthy (x : num) : bool :=
  match x with
  | NaN => false
  | Fin q => negb (Qnum q =? 0)
  | _ => true
  end.

(** ToIntegerOrInfinity of a finite Number (truncation towards zero);
    [None] for NaN and the infinities, which every Date operation turns
    into NaN. *)
Definition finiteInt (x : num) : option Z :=
  match x with
  | Fin q => Some (Z.quot (Qnum q) (Zpos (Qden q)))
  | _ => None
  end.

(** [x + y] and [x - y].  On finite operands the result is the exact one:
    binary64 arithmetic is exact on the integers and on the fractions the
    controller adds and subtracts, with one exception, which [num_sub]
    follows: a positive [x] of at most 2^-54 minus 1 rounds to -1
    (round to nearest, ties to even).  Operands of magnitude 2^53 or more
    only occur as month or day counts that [TimeClip] turns into NaN. *)
Definition num_add (x y : num) : num :=
  match x, y with
  | NaN, _ | _, NaN => NaN
  | PosInf, NegInf | NegInf, PosInf => NaN
  | PosInf, _ | _, PosInf => PosInf
  | NegInf, _ | _, NegInf => NegInf
  | Fin a, Fin b => Fin (a + b)
  end.

Definition tiny (a : Q) : bool :=
  (0 <? Qnum a) && Qle_bool a (1 # 18014398509481984).

Definition num_sub (x y : num) : num :=
  match x, y with
  | NaN, _ | _, NaN => NaN
  | PosInf, PosInf | NegInf, NegInf => NaN
  | PosInf, _ | _, NegInf => PosInf
  | NegInf, _ | _, PosInf => NegInf
  | Fin a, Fin b =>
      if tiny a && Qeq_bool b 1 then Fin (- (1)) else Fin (a - b)
  end.

(** [x || y] on Numbers. *)
Definition num_or (x y : num) : num := if truthy x then x else y.

(** The [[DateValue]] of a Date object: NaN ([Invalid]) or a time value. *)
Inductive Date : Type :=
| Invalid
| At (t : Z).

Definition TimeClip (time : option Z) : Date :=
  match time with
  | None => Invalid
  | Some t => if maxTime <? Z.abs t then Invalid else At t
  end.

Definition MakeDay (year month date : num) : option Z :=
  match finiteInt year, finiteInt month, finiteInt date with
  | Some y, Some m, Some dt => Some (MakeDayZ y m dt)
  | _, _, _ => None
  end.

Definition MakeTime (hour min sec ms : num) : option Z :=
  match finiteInt hour, finiteInt min, finiteInt sec, finiteInt ms with
  | Some h, Some m, Some s, Some milli => Some (MakeTimeZ h m s milli)
  | _, _, _, _ => None
  end.

Definition MakeDate (day time : option Z) : option Z :=
  match day, time with
  | Some d, Some t => Some (MakeDateZ d t)
  | _, _ => None
  end.

(** Years 0 to 99 denote 1900 to 1999 in [Date.UTC]. *)
Definition MakeFullYear (year : num) : num :=
  match finiteInt year with
  | Some y => if (0 <=? y) && (y <=? 99) then ofZ (1900 + y) else ofZ y
  | None => year
  end.

(** [new Date(Date.UTC(year, month, date, hours, minutes, seconds, ms))]. *)
Definition Date_UTC7 (year month date hours minutes seconds ms : num) : Date :=
  TimeClip (MakeDate (MakeDay (MakeFullYear year) month date)
                     (MakeTime hours minutes seconds ms)).

(** [new Date(Date.UTC(year, month, date))]: the absent fields are +0. *)
Definition Date_UTC (year month date : num) : Date :=
  Date_UTC7 year month date (ofZ 0) (ofZ 0) (ofZ 0) (ofZ 0).

Definition getUTCFullYear (d : Date) : num :=
  match d with Invalid => NaN | At t => ofZ (YearFromTime t) end.
Definition getUTCMonth (d : Date) : num :=
  match d with Invalid => NaN | At t => ofZ (MonthFromTime t) end.
Definition getUTCDate (d : Date) : num :=
  match d with Invalid => NaN | At t => ofZ (DateFromTime t) end.
Definition getUTCDay (d : Date) : num :=
  match d with Invalid => NaN | At t => ofZ (WeekDay t) end.

(** [d.setUTCDate(dt)] and [d.setUTCMonth(m)], as the new value of [d]. *)
Definition setUTCDate (d : Date) (dt : num) : Date :=
  match d with
  | Invalid => Invalid
  | At t =>
      TimeClip (MakeDate (MakeDay (ofZ (YearFromTime t)) (ofZ (MonthFromTime t)) dt)
                         (Some (TimeWithinDay t)))
  end.

Definition setUTCMonth (d : Date) (m : num) : Date :=
  match d with
  | Invalid => Invalid
  | At t =>
      TimeClip (MakeDate (MakeDay (ofZ (YearFromTime t)) m (ofZ (DateFromTime t)))
                         (Some (TimeWithinDay t)))
  end.

(** [a <= b] and [a >= b] on Date objects compare the time values; a
    comparison with NaN is false. *)
Definition Date_leb (a b : Date) : bool :=
  match a, b with
  | At x, At y => x <=? y
  | _, _ => false
  end.

Definition Date_geb (a b : Date) : bool := Date_leb b a.

(** [s.split(sep)] for a one-character separator. *)
Fixpoint split (sep : ascii) (s : string) : list string :=
  match s with
  | EmptyString => [EmptyString]
  | String c rest =>
      if Ascii.eqb c sep then EmptyString :: split sep rest
      else match split sep rest with
           | [] => [String c EmptyString]
           | part :: parts => String c part :: parts
           end
  end.

(** ToString of an integral Number, and of NaN. *)
Definition num_toString (x : num) : string :=
  match x with
  | NaN => "NaN"
  | PosInf => "Infinity"
  | NegInf => "-Infinity"
  | Fin q => DecimalString.NilZero.string_of_int (Z.to_int (Z.quot (Qnum q) (Zpos (Qden q))))
  end.

(** [s.padStart(2, '0')]. *)
Definition padStart2 (s : string) : string :=
  match s with
  | EmptyString => "00"
  | String c EmptyString => String "0" s
  | _ => s
  end.

(** The year that [Date.UTC] takes for an integral year. *)
Definition fullYear (y : Z) : Z := if (0 <=? y) && (y <=? 99) then 1900 + y else y.

(** Years outside 0..99 are the ones [Date.UTC] takes as they are, and
    the time values a Date object can hold. *)
Definition plainYear (y : Z) : Prop := y < 0 \/ 99 < y.
Definition inRange (t : Z) : Prop := - maxTime <= t <= maxTime.

(** The days from 1 January 100 on whose last millisecond is still a
    time value. *)
Definition okDay (n : Z) : Prop := DayFromYear 100 <= n < 100000000.

End JS.

(** ** The controller *)

Module Controller.
Import Calendar JS.

Definition fmt (d : Date) : string :=
  let y := num_toString (getUTCFullYear d) in
  let m := padStart2 (num_toString (num_add (getUTCMonth d) (ofZ 1))) in
  let dd := padStart2 (num_toString (getUTCDate d)) in
  (y ++ "-" ++ m ++ "-" ++ dd)%string.

Definition startOfDayUTC (d : Date) : Date :=
  Date_UTC (getUTCFullYear d) (getUTCMonth d) (getUTCDate d).

Definition endOfDayUTC (d : Date) : Date :=
  Date_UTC7 (getUTCFullYear d) (getUTCMonth d) (getUTCDate d)
            (ofZ 23) (ofZ 59) (ofZ 59) (ofZ 999).

Definition startOfISOWeekUTC (d : Date) : Date :=
  let day := num_or (getUTCDay d) (ofZ 7) in
  let start := Date_UTC (getUTCFullYear d) (getUTCMonth d) (getUTCDate d) in
  let start := setUTCDate start (num_sub (getUTCDate start) (num_sub day (ofZ 1))) in
  startOfDayUTC start.

Definition endOfISOWeekUTC (d : Date) : Date :=
  let start := startOfISOWeekUTC d in
  let end_ := start in
  let end_ := setUTCDate end_ (num_add (getUTCDate end_) (ofZ 6)) in
  endOfDayUTC end_.

Definition startOfMonthUTC (d : Date) : Date :=
  Date_UTC (getUTCFullYear d) (getUTCMonth d) (ofZ 1).

Definition endOfMonthUTC (d : Date) : Date :=
  endOfDayUTC (Date_UTC (getUTCFullYear d) (num_add (getUTCMonth d) (ofZ 1)) (ofZ 0)).

Definition addDaysUTC (d : Date) (days : Z) : Date :=
  let res := d in
  setUTCDate res (num_add (getUTCDate res) (ofZ days)).

Definition addMonthsUTC (d : Date) (months : Z) : Date :=
  let res := Date_UTC (getUTCFullYear d) (getUTCMonth d) (getUTCDate d) in
  setUTCMonth res (num_add (getUTCMonth res) (ofZ months)).

Record Bucket : Type := { start : Date; end_ : Date }.

Record Plan : Type := {
  rangeStart : Date;
  rangeEnd : Date;
  buckets : list Bucket
}.

(** The [while (cursor <= rangeEnd)] loop.  [fuel] bounds the number of
    times the condition is evaluated; [None] means the bound was reached
    before the condition became false. *)
Fixpoint enumerate (fuel : nat) (makeBucket : Date -> Bucket)
    (advance : Date -> Date) (rangeEnd cursor : Date) (buckets : list Bucket)
  : option (list Bucket) :=
  match fuel with
  | O => None
  | S fuel' =>
      if Date_leb cursor rangeEnd
      then enumerate fuel' makeBucket advance rangeEnd (advance cursor)
                     (buckets ++ [makeBucket cursor])
      else Some buckets
  end.

(** The rows of [product_trends] and of [visitor_logs] that the
    aggregation reads.  Every column is NOT NULL in the schema: a date is
    a time value and a counter is an integer. *)
Record ProductTrend : Type := {
  date : Z;
  totalProducts : Z;
  productsAdded : Z;
  productsRemoved : Z
}.

Record VisitorLog : Type := { visitedAt : Z }.

(** One element of [trend]; [tb_totalProducts] is [None] while it is
    [null]. *)
Record TrendBucket : Type := {
  tb_startDate : string;
  tb_endDate : string;
  tb_totalProducts : option Z;
  tb_productsAdded : Z;
  tb_productsRemoved : Z
}.

Record VisitorBucket : Type := {
  vb_startDate : string;
  vb_endDate : string;
  vb_visitors : Z
}.

(** [x || 0] on an integer column. *)
Definition or0 (x : Z) : Z := if x =? 0 then 0 else x.

(** [trends.filter(t => t.date >= start && t.date <= end)]. *)
Definition itemsOf (b : Bucket) (trends : list ProductTrend) : list ProductTrend :=
  filter (fun t => Date_geb (At (date t)) (start b) && Date_leb (At (date t)) (end_ b))
         trends.

(** [items.reduce((sum, it) => sum + (f(it) || 0), 0)]. *)
Definition reduceSum (f : ProductTrend -> Z) (items : list ProductTrend) : Z :=
  fold_left (fun sum it => sum + or0 (f it)) items 0.

(** [items.length ? items[items.length - 1] : null]. *)
Definition lastItem (items : list ProductTrend) : option ProductTrend :=
  match items with
  | [] => None
  | _ => nth_error items (List.length items - 1)
  end.

(** [buckets.map(({ start, end }) => { ... })] of the products handler. *)
Definition trendByBucket (buckets : list Bucket) (trends : list ProductTrend)
  : list TrendBucket :=
  map (fun b =>
         let items := itemsOf b trends in
         let productsAdded := reduceSum productsAdded items in
         let productsRemoved := reduceSum productsRemoved items in
         let last := lastItem items in
         {| tb_startDate := fmt (start b);
            tb_endDate := fmt (end_ b);
            tb_totalProducts :=
              match last with
              | Some l => Some (totalProducts l)
              | None => None
              end;
            tb_productsAdded := productsAdded;
            tb_productsRemoved := productsRemoved |})
      buckets.

(** The [for] loop that fills the [null] totals, from index [i] on;
    [lastTotal] is the loop variable of that name. *)
Fixpoint forwardFill (lastTotal : option Z) (trendByBucket : list TrendBucket)
  : list TrendBucket :=
  match trendByBucket with
  | [] => []
  | b :: rest =>
      match tb_totalProducts b with
      | None =>
          {| tb_startDate := tb_startDate b;
             tb_endDate := tb_endDate b;
             tb_totalProducts :=
               Some (match lastTotal with Some v => v | None => 0 end);
             tb_productsAdded := tb_productsAdded b;
             tb_productsRemoved := tb_productsRemoved b |}
          :: forwardFill lastTotal rest
      | Some v => b :: forwardFill (Some v) rest
      end
  end.

(** [buckets.map(({ start, end }) => { ... })] of the visitors handler. *)
Definition visitorsByBucket (buckets : list Bucket) (logs : list VisitorLog)
  : list VisitorBucket :=
  map (fun b =>
         let count :=
           fold_left
             (fun acc l =>
                acc + (if Date_geb (At (visitedAt l)) (start b)
                          && Date_leb (At (visitedAt l)) (end_ b)
                       then 1 else 0))
             logs 0 in
         {| vb_startDate := fmt (start b);
            vb_endDate := fmt (end_ b);
            vb_visitors := count |})
      buckets.

(** The query parameters the handlers read, each a string or absent. *)
Record Query : Type := {
  q_startDate : option string;
  q_endDate : option string;
  q_bucket : option string
}.

(** [const { startDate, endDate, bucket = 'day' } = req.query]. *)
Definition bucketOf (q : Query) : string :=
  match q_bucket q with
  | Some b => b
  | None => "day"%string
  end.

(** What a handler sends: [res.json(body)], or status 500 from the
    [catch] block. *)
Inductive Response (A : Type) : Type :=
| Json (body : A)
| InternalServerError.
Arguments Json {A} body.
Arguments InternalServerError {A}.

Record ProductsBody : Type := {
  currentTotal : Z;
  trend : list TrendBucket
}.

Record VisitorsBody : Type := {
  totalVisitors : Z;
  visitorsByBucket_ : list VisitorBucket
}.

(** [Number(s)] on a string is the host's StringToNumber.  The controller
    is embedded over an arbitrary such function; [NumberOfDigits] below is
    the instance used to run it on concrete requests. *)
Section WithNumber.

Variable Number : string -> num.

(** The elements bound by [const [y, m, d] = parts]: [None] is
    [undefined], which is falsy. *)
Definition truthy_elem (x : option num) : bool :=
  match x with
  | Some v => truthy v
  | None => false
  end.

(** [toUTCDateOnly(dateStr)]; [None] is [null], and an absent query
    parameter ([undefined]) is [None] on the input side. *)
Definition toUTCDateOnly (dateStr : option string) : option Date :=
  match dateStr with
  | None => None
  | Some EmptyString => None
  | Some s =>
      let parts := map Number (split "-" s) in
      let y := nth_error parts 0 in
      let m := nth_error parts 1 in
      let d := nth_error parts 2 in
      if negb (truthy_elem y) || negb (truthy_elem m) || negb (truthy_elem d)
      then None
      else
        match y, m, d with
        | Some y, Some m, Some d => Some (Date_UTC y (num_sub m (ofZ 1)) d)
        | _, _, _ => None
        end
  end.

(** [buildBuckets({ startDate, endDate, bucket })]; [now] is the value
    of [new Date()], a time value.  [boundaries] is the body of the
    function up to the loop: the defaults, then the normalisation to
    bucket edges, which also chooses [makeBucket] and [advance]. *)
Definition boundaries (now : Z) (startDate endDate : option string)
    (bucket : string) : Date * Date * (Date -> Bucket) * (Date -> Date) :=
  let rangeStart := toUTCDateOnly startDate in
  let rangeEnd := toUTCDateOnly endDate in
  let rangeEnd :=
    match rangeEnd with
    | None => startOfDayUTC (At now)
    | Some e => e
    end in
  let rangeStart :=
    match rangeStart with
    | Some s => s
    | None =>
        if String.eqb bucket "month" then
          let tmp := rangeEnd in
          let tmp := setUTCMonth tmp (num_sub (getUTCMonth tmp) (ofZ 5)) in
          startOfMonthUTC tmp
        else if String.eqb bucket "week" then
          let tmp := rangeEnd in
          let tmp := setUTCDate tmp (num_sub (getUTCDate tmp) (ofZ (7 * 11))) in
          startOfISOWeekUTC tmp
        else
          let tmp := rangeEnd in
          let tmp := setUTCDate tmp (num_sub (getUTCDate tmp) (ofZ 6)) in
          startOfDayUTC tmp
    end in
  if String.eqb bucket "month" then
    (startOfMonthUTC rangeStart, endOfMonthUTC rangeEnd,
     (fun d => {| start := startOfMonthUTC d; end_ := endOfMonthUTC d |}),
     (fun d => addMonthsUTC d 1))
  else if String.eqb bucket "week" then
    (startOfISOWeekUTC rangeStart, endOfISOWeekUTC rangeEnd,
     (fun d => {| start := startOfISOWeekUTC d; end_ := endOfISOWeekUTC d |}),
     (fun d => addDaysUTC d 7))
  else
    (startOfDayUTC rangeStart, endOfDayUTC rangeEnd,
     (fun d => {| start := startOfDayUTC d; end_ := endOfDayUTC d |}),
     (fun d => addDaysUTC d 1)).

Definition buildBuckets (fuel : nat) (now : Z)
    (startDate endDate : option string) (bucket : string) : option Plan :=
  let '(rangeStart, rangeEnd, makeBucket, advance) :=
    boundaries now startDate endDate bucket in
  let cursor := rangeStart in
  match enumerate fuel makeBucket advance rangeEnd cursor [] with
  | Some buckets =>
      Some {| rangeStart := rangeStart; rangeEnd := rangeEnd; buckets := buckets |}
  | None => None
  end.

(** The handlers.  The two awaited queries are the storage's answers to
    the request: [findMany gte lte] is the result of [findMany] with that
    [where] clause and [count] the result of [prisma.product.count()];
    [None] is a rejected promise, which the [catch] block turns into
    status 500.  The outer [option] is [None] only when [fuel] runs
    out. *)
Definition getDashboardProductsHandler (fuel : nat) (now : Z) (query : Query)
    (findMany : Date -> Date -> option (list ProductTrend)) (count : option Z)
  : option (Response ProductsBody) :=
  match buildBuckets fuel now (q_startDate query) (q_endDate query) (bucketOf query) with
  | None => None
  | Some plan =>
      match findMany (rangeStart plan) (rangeEnd plan) with
      | None => Some InternalServerError
      | Some trends =>
          let trendByBucket := trendByBucket (buckets plan) trends in
          let trendByBucket := forwardFill None trendByBucket in
          match count with
          | None => Some InternalServerError
          | Some currentTotal =>
              Some (Json {| currentTotal := currentTotal; trend := trendByBucket |})
          end
      end
  end.

Definition getDashboardVisitorsHandler (fuel : nat) (now : Z) (query : Query)
    (findMany : Date -> Date -> option (list VisitorLog))
  : option (Response VisitorsBody) :=
  match buildBuckets fuel now (q_startDate query) (q_endDate query) (bucketOf query) with
  | None => None
  | Some plan =>
      match findMany (rangeStart plan) (rangeEnd plan) with
      | None => Some InternalServerError
      | Some logs =>
          let visitorsByBucket := visitorsByBucket (buckets plan) logs in
          let totalVisitors := Z.of_nat (List.length logs) in
          Some (Json {| totalVisitors := totalVisitors;
                        visitorsByBucket_ := visitorsByBucket |})
      end
  end.

End WithNumber.

(** The bucket of day number [n], and the day numbers from [n] on. *)
Definition dayBucket (n : Z) : Bucket :=
  {| start := At (n * msPerDay); end_ := At (n * msPerDay + 86399999) |}.

Fixpoint daysFrom (n : Z) (len : nat) : list Z :=
  match len with
  | O => []
  | S len' => n :: daysFrom (n + 1) len'
  end.

(** Buckets given by their edges: [E i] is the day number on which
    bucket [i] starts, and bucket [i] ends with the millisecond before
    the start of bucket [i + 1].  Weeks start on the Mondays [7 i - 3];
    month [i] counts months from January of year 0. *)
Definition edgeBucket (E : Z -> Z) (i : Z) : Bucket :=
  {| start := At (E i * msPerDay); end_ := At (E (i + 1) * msPerDay - 1) |}.

Definition dayEdge (i : Z) : Z := i.
Definition weekEdge (i : Z) : Z := 7 * i - 3.
Definition monthEdge (i : Z) : Z := firstOfMonth 0 i.

(** [tiles from bs to]: the buckets [bs], in order, cut the interval of
    instants from [from] to [to] into consecutive non-empty pieces: the
    first starts at [from], each next one starts one millisecond after
    the previous one ends, and the last ends at [to]. *)
Fixpoint tiles (from : Z) (bs : list Bucket) (to : Z) : Prop :=
  match bs with
  | [] => from = to + 1
  | b :: rest =>
      exists e, start b = At from /\ end_ b = At e /\ from <= e
                /\ tiles (e + 1) rest to
  end.

(** The sum of a list of integers, and the test both aggregators apply
    to a timestamp and a bucket. *)
Definition sumZ (l : list Z) : Z := fold_right Z.add 0 l.

Definition inBucket (b : Bucket) (t : Z) : bool :=
  Date_geb (At t) (start b) && Date_leb (At t) (end_ b).

(** The value of [lastTotal ?? 0]. *)
Definition default0 (lastTotal : option Z) : Z :=
  match lastTotal with
  | Some v => v
  | None => 0
  end.

(** The notions the forward fill is judged by, stated on the records'
    timestamps and not through the handler's own selection.  A record
    lies in a bucket when its [date] is between the bucket's two
    instants.  The last record of a bucket is the last one of the list,
    in the order the query returned it, that lies in the bucket. *)
Definition recordIn (b : Bucket) (t : ProductTrend) : Prop :=
  exists s e, start b = At s /\ end_ b = At e /\ s <= date t <= e.

Definition noRecordIn (b : Bucket) (trends : list ProductTrend) : Prop :=
  forall t, In t trends -> ~ recordIn b t.

Definition lastRecordIn (b : Bucket) (trends : list ProductTrend) (l : ProductTrend)
  : Prop :=
  exists earlier later,
    trends = earlier ++ l :: later /\ recordIn b l /\ noRecordIn b later.

(** The instants from 1 January 101 to the end of the year 275759: every
    helper of the controller stays among the time values there, and no
    day it visits has a year from 0 to 99. *)
Definition modern (t : Z) : Prop := TimeFromYear 101 <= t < TimeFromYear 275760.

(** The values [new Date()] is taken to return: the clock is at or after
    the epoch and before the last time value. *)
Definition clockValue (now : Z) : Prop := 0 <= now < maxTime.

(** StringToNumber on the strings made of decimal digits only (the empty
    string is 0).  Signs, fractions, exponents, radix prefixes and white
    space are not read: such a string is sent to NaN here.  The requests
    evaluated below only have digits between the dashes. *)
Definition digitOf (c : ascii) : option Z :=
  let n := Z.of_nat (nat_of_ascii c) in
  if (48 <=? n) && (n <=? 57) then Some (n - 48) else None.

Fixpoint digitsValue (acc : Z) (s : string) : option Z :=
  match s with
  | EmptyString => Some acc
  | String c rest =>
      match digitOf c with
      | Some v => digitsValue (10 * acc + v) rest
      | None => None
      end
  end.

Definition NumberOfDigits (s : string) : num :=
  match digitsValue 0 s with
  | Some n => ofZ n
  | None => NaN
  end.

(** A literal YYYY-MM-DD calendar date, as the specification words it:
    four digits, two digits and two digits between dashes, nothing after
    them, a month from 1 to 12 and a day that this month has. *)
Definition daysInMonth (y m : Z) : Z :=
  monthStart (InLeapYear_of_year y) m - monthStart (InLeapYear_of_year y) (m - 1).

Definition isCalendarDate (s : string) : bool :=
  match split "-" s with
  | [y; m; d] =>
      (String.length y =? 4)%nat && (String.length m =? 2)%nat
      && (String.length d =? 2)%nat
      && match digitsValue 0 y, digitsValue 0 m, digitsValue 0 d with
         | Some yv, Some mv, Some dv =>
             (1 <=? mv) && (mv <=? 12) && (1 <=? dv) && (dv <=? daysInMonth yv mv)
         | _, _, _ => false
         end
  | _ => false
  end.

(** The edges of the buckets of a granularity, as [boundaries] chooses
    them, and the index of the bucket that contains an instant: days are
    numbered from the epoch, weeks by their Mondays [7 i - 3], months from
    January of year 0. *)
Definition edgesOf (bucket : string) : Z -> Z :=
  if String.eqb bucket "month" then monthEdge
  else if String.eqb bucket "week" then weekEdge
  else dayEdge.

Definition edgeIndex (bucket : string) (t : Z) : Z :=
  if String.eqb bucket "month" then 12 * YearFromTime t + MonthFromTime t
  else if String.eqb bucket "week" then (Day t + 3) / 7
  else Day t.

(** The value of a decimal numeral, read from its first digit on as
    [digitsValue] reads a string. *)
Fixpoint uintValue (acc : Z) (u : Decimal.uint) : Z :=
  match u with
  | Decimal.Nil => acc
  | Decimal.D0 l => uintValue (10 * acc) l
  | Decimal.D1 l => uintValue (10 * acc + 1) l
  | Decimal.D2 l => uintValue (10 * acc + 2) l
  | Decimal.D3 l => uintValue (10 * acc + 3) l
  | Decimal.D4 l => uintValue (10 * acc + 4) l
  | Decimal.D5 l => uintValue (10 * acc + 5) l
  | Decimal.D6 l => uintValue (10 * acc + 6) l
  | Decimal.D7 l => uintValue (10 * acc + 7) l
  | Decimal.D8 l => uintValue (10 * acc + 8) l
  | Decimal.D9 l => uintValue (10 * acc + 9) l
  end.

End Controller.

(** * Properties *)

(** ** The calendar *)

Module CalendarFacts.
Import Calendar.

Ltac bool_to_prop :=
  repeat match goal with
  | H : (_ <=? _) = true |- _ => apply Z.leb_le in H
  | H : (_ <=? _) = false |- _ => apply Z.leb_gt in H
  | H : (_ <? _) = true |- _ => apply Z.ltb_lt in H
  | H : (_ <? _) = false |- _ => apply Z.ltb_ge in H
  | H : (_ =? _) = true |- _ => apply Z.eqb_eq in H
  | H : (_ =? _) = false |- _ => apply Z.eqb_neq in H
  end.

Ltac divlia := Z.div_mod_to_equations; lia.

Lemma div_succ (a d : Z) :
  0 < d -> (a + 1) / d = a / d + (if (a + 1) mod d =? 0 then 1 else 0).
Proof.
  intros Hd. destruct ((a + 1) mod d =? 0) eqn:E; bool_to_prop.
  - pose proof (Z.div_mod (a + 1) d). pose proof (Z.div_mod a d).
    pose proof (Z.mod_pos_bound a d Hd).
    assert (a / d = (a + 1) / d - 1); [|lia].
    symmetry. apply Z.div_unique_pos with (r := d - 1); lia.
  - pose proof (Z.div_mod (a + 1) d). pose proof (Z.mod_pos_bound (a + 1) d Hd).
    rewrite Z.add_0_r. pose proof (Z.div_mod a d).
    apply Z.div_unique_pos with (r := (a + 1) mod d - 1); lia.
Qed.

Lemma InLeapYear_01 (y : Z) : InLeapYear_of_year y = 0 \/ InLeapYear_of_year y = 1.
Proof. unfold InLeapYear_of_year. destruct (_ || _); auto. Qed.

Lemma DayFromYear_succ (y : Z) : DayFromYear (y + 1) = DayFromYear y + DaysInYear y.
Proof.
  unfold DayFromYear, DaysInYear, InLeapYear_of_year.
  replace (y + 1 - 1969) with (y - 1969 + 1) by lia.
  replace (y + 1 - 1901) with (y - 1901 + 1) by lia.
  replace (y + 1 - 1601) with (y - 1601 + 1) by lia.
  rewrite !div_succ by lia.
  replace ((y - 1969 + 1) mod 4) with (y mod 4) by divlia.
  replace ((y - 1901 + 1) mod 100) with (y mod 100) by divlia.
  replace ((y - 1601 + 1) mod 400) with (y mod 400) by divlia.
  destruct (y mod 4 =? 0) eqn:E4; destruct (y mod 100 =? 0) eqn:E100;
    destruct (y mod 400 =? 0) eqn:E400; cbn [andb orb negb];
    bool_to_prop; try lia; exfalso; clear - E4 E100 E400; divlia.
Qed.

Lemma DayFromYear_lt (y y' : Z) : y < y' -> DayFromYear y + 365 * (y' - y) <= DayFromYear y'.
Proof. intros H. unfold DayFromYear. divlia. Qed.

Lemma YearFromDay_spec (n : Z) :
  DayFromYear (YearFromDay n) <= n < DayFromYear (YearFromDay n + 1).
Proof.
  unfold YearFromDay.
  set (y0 := 1970 + 400 * n / 146097).
  destruct (DayFromYear (y0 + 1) <=? n) eqn:E1;
    [|destruct (n <? DayFromYear y0) eqn:E2];
    bool_to_prop; unfold DayFromYear in *; subst y0; divlia.
Qed.

Lemma YearFromDay_unique (n y : Z) :
  DayFromYear y <= n < DayFromYear (y + 1) -> YearFromDay n = y.
Proof.
  intros H. pose proof (YearFromDay_spec n) as S.
  destruct (Z.lt_trichotomy (YearFromDay n) y) as [L | [E | G]]; auto; exfalso.
  - pose proof (DayFromYear_lt (YearFromDay n + 1) y).
    destruct (Z.eq_dec (YearFromDay n + 1) y); [subst; lia | lia].
  - pose proof (DayFromYear_lt (y + 1) (YearFromDay n)).
    destruct (Z.eq_dec (y + 1) (YearFromDay n)) as [e | ne]; [rewrite <- e in S; lia | lia].
Qed.

(** The year of a day, from the bounds of the year. *)
Lemma YearFromDay_ge (n y : Z) : DayFromYear y <= n -> y <= YearFromDay n.
Proof.
  intros H. pose proof (YearFromDay_spec n) as S.
  destruct (Z.le_gt_cases y (YearFromDay n)); auto.
  pose proof (DayFromYear_lt (YearFromDay n + 1) y).
  destruct (Z.eq_dec (YearFromDay n + 1) y); [subst; lia | lia].
Qed.

Lemma YearFromDay_lt (n y : Z) : n < DayFromYear y -> YearFromDay n < y.
Proof.
  intros H. pose proof (YearFromDay_spec n) as S.
  destruct (Z.le_gt_cases y (YearFromDay n)); auto.
  pose proof (DayFromYear_lt y (YearFromDay n)).
  destruct (Z.eq_dec y (YearFromDay n)); [subst; lia | lia].
Qed.

Lemma DayWithinYear_range (n : Z) :
  0 <= DayWithinYear n < 365 + InLeapYear_of_year (YearFromDay n).
Proof.
  unfold DayWithinYear. pose proof (YearFromDay_spec n).
  rewrite DayFromYear_succ in H. unfold DaysInYear in H. lia.
Qed.

Ltac norm_month :=
  change (0 + 1) with 1 in *; change (1 + 1) with 2 in *;
  change (2 + 1) with 3 in *; change (3 + 1) with 4 in *;
  change (4 + 1) with 5 in *; change (5 + 1) with 6 in *;
  change (6 + 1) with 7 in *; change (7 + 1) with 8 in *;
  change (8 + 1) with 9 in *; change (9 + 1) with 10 in *;
  change (10 + 1) with 11 in *; change (11 + 1) with 12 in *;
  cbn [monthStart] in *.

Ltac month_cases m :=
  let H := fresh in
  assert (H : m = 0 \/ m = 1 \/ m = 2 \/ m = 3 \/ m = 4 \/ m = 5 \/ m = 6
              \/ m = 7 \/ m = 8 \/ m = 9 \/ m = 10 \/ m = 11) by lia;
  repeat (destruct H as [H | H]); subst m.

Lemma monthOfDayWithinYear_range (L d : Z) : 0 <= monthOfDayWithinYear L d <= 11.
Proof.
  unfold monthOfDayWithinYear.
  repeat match goal with |- context [if ?c then _ else _] => destruct c end; lia.
Qed.

Lemma monthOfDayWithinYear_bounds (L d : Z) :
  0 <= L <= 1 -> 0 <= d < 365 + L ->
  monthStart L (monthOfDayWithinYear L d) <= d
    < monthStart L (monthOfDayWithinYear L d + 1).
Proof.
  intros HL Hd. unfold monthOfDayWithinYear.
  repeat match goal with
         | |- context [if ?a <? ?b then _ else _] =>
             destruct (Z.ltb_spec a b)
         end; norm_month; lia.
Qed.

Lemma monthOfDayWithinYear_unique (L d m : Z) :
  0 <= L <= 1 -> 0 <= m <= 11 ->
  monthStart L m <= d < monthStart L (m + 1) ->
  monthOfDayWithinYear L d = m.
Proof.
  intros HL Hm H. month_cases m; norm_month;
    unfold monthOfDayWithinYear;
    repeat match goal with
           | |- context [if ?a <? ?b then _ else _] =>
               destruct (Z.ltb_spec a b)
           end; lia.
Qed.

Lemma monthStart_step (L m : Z) :
  0 <= L <= 1 -> 0 <= m <= 11 ->
  28 <= monthStart L (m + 1) - monthStart L m <= 31.
Proof.
  intros HL Hm. month_cases m; norm_month; lia.
Qed.

Lemma monthStart_range (L m : Z) :
  0 <= L <= 1 -> 0 <= m <= 11 -> 0 <= monthStart L m <= 335.
Proof. intros HL Hm. month_cases m; cbn [monthStart]; lia. Qed.

Lemma MonthFromDay_range (n : Z) : 0 <= MonthFromDay n <= 11.
Proof. apply monthOfDayWithinYear_range. Qed.

Lemma DateFromDay_range (n : Z) : 1 <= DateFromDay n <= 31.
Proof.
  unfold DateFromDay, MonthFromDay.
  pose proof (InLeapYear_01 (YearFromDay n)) as HL.
  pose proof (DayWithinYear_range n) as Hd.
  pose proof (monthOfDayWithinYear_bounds (InLeapYear_of_year (YearFromDay n))
                (DayWithinYear n) ltac:(lia) Hd) as Hb.
  pose proof (monthOfDayWithinYear_range (InLeapYear_of_year (YearFromDay n))
                (DayWithinYear n)) as Hr.
  pose proof (monthStart_step (InLeapYear_of_year (YearFromDay n)) _ ltac:(lia) Hr).
  lia.
Qed.

(** [MakeDay] inverts the three UTC getters, whatever the offset on the
    day of the month. *)
Lemma MakeDayZ_getters (n k : Z) :
  MakeDayZ (YearFromDay n) (MonthFromDay n) (DateFromDay n + k) = n + k.
Proof.
  pose proof (MonthFromDay_range n) as Hm.
  unfold MakeDayZ. cbv zeta.
  rewrite (Z.div_small (MonthFromDay n) 12), (Z.mod_small (MonthFromDay n) 12) by lia.
  rewrite Z.add_0_r. unfold DateFromDay, DayWithinYear. lia.
Qed.

Lemma firstOfMonth_norm (y m : Z) :
  0 <= m <= 11 ->
  firstOfMonth y m = DayFromYear y + monthStart (InLeapYear_of_year y) m.
Proof.
  intros Hm. unfold firstOfMonth, MakeDayZ. cbv zeta.
  rewrite (Z.div_small m 12), (Z.mod_small m 12) by lia.
  rewrite Z.add_0_r. lia.
Qed.

Lemma firstOfMonth_next (y m : Z) :
  0 <= m <= 11 ->
  firstOfMonth y (m + 1)
  = DayFromYear y + monthStart (InLeapYear_of_year y) (m + 1).
Proof.
  intros Hm. destruct (Z.eq_dec m 11) as [-> | Hne].
  - unfold firstOfMonth, MakeDayZ. cbv zeta.
    change ((11 + 1) / 12) with 1. change ((11 + 1) mod 12) with 0.
    rewrite DayFromYear_succ. unfold DaysInYear.
    norm_month. lia.
  - apply firstOfMonth_norm. lia.
Qed.

(** A day lies in month [m] of year [y] exactly when it is between the
    first day of that month and the first day of the next. *)
Lemma in_month (n y m : Z) :
  0 <= m <= 11 ->
  firstOfMonth y m <= n < firstOfMonth y (m + 1) ->
  YearFromDay n = y /\ MonthFromDay n = m /\ DateFromDay n = n - firstOfMonth y m + 1.
Proof.
  intros Hm H. rewrite firstOfMonth_next in H by lia.
  rewrite firstOfMonth_norm in * by lia.
  pose proof (InLeapYear_01 y) as HL.
  pose proof (monthStart_range (InLeapYear_of_year y) m ltac:(lia) Hm).
  pose proof (monthStart_step (InLeapYear_of_year y) m ltac:(lia) Hm).
  assert (Hy : YearFromDay n = y).
  { apply YearFromDay_unique. rewrite DayFromYear_succ. unfold DaysInYear.
    assert (monthStart (InLeapYear_of_year y) (m + 1) <= 365 + InLeapYear_of_year y).
    { month_cases m; norm_month; lia. }
    lia. }
  assert (Hmo : MonthFromDay n = m).
  { unfold MonthFromDay, DayWithinYear. rewrite Hy.
    apply monthOfDayWithinYear_unique; lia. }
  repeat split; auto.
  unfold DateFromDay. rewrite Hmo. unfold DayWithinYear. rewrite Hy. lia.
Qed.

Lemma month_of_day (n : Z) :
  firstOfMonth (YearFromDay n) (MonthFromDay n) <= n
    < firstOfMonth (YearFromDay n) (MonthFromDay n + 1).
Proof.
  pose proof (MonthFromDay_range n) as Hm.
  rewrite firstOfMonth_next, firstOfMonth_norm by lia.
  pose proof (InLeapYear_01 (YearFromDay n)) as HL.
  pose proof (DayWithinYear_range n) as Hd.
  pose proof (monthOfDayWithinYear_bounds (InLeapYear_of_year (YearFromDay n))
                (DayWithinYear n) ltac:(lia) Hd) as Hb.
  fold (MonthFromDay n) in Hb. unfold DayWithinYear in Hb. lia.
Qed.

Lemma firstOfMonth_split (y m : Z) :
  firstOfMonth y m = firstOfMonth (y + m / 12) (m mod 12).
Proof.
  unfold firstOfMonth, MakeDayZ. cbv zeta.
  rewrite Z.mod_mod by lia.
  rewrite (Z.div_small (m mod 12) 12) by (apply Z.mod_pos_bound; lia).
  now rewrite Z.add_0_r.
Qed.

Lemma firstOfMonth_succ_split (y m : Z) :
  firstOfMonth y (m + 1) = firstOfMonth (y + m / 12) (m mod 12 + 1).
Proof.
  unfold firstOfMonth, MakeDayZ. cbv zeta.
  assert (E1 : (m + 1) / 12 = m / 12 + (m mod 12 + 1) / 12) by divlia.
  assert (E2 : (m + 1) mod 12 = (m mod 12 + 1) mod 12) by divlia.
  rewrite E1, E2. now rewrite Z.add_assoc.
Qed.

(** A month has from 28 to 31 days, whatever the month index. *)
Lemma firstOfMonth_step (y m : Z) :
  28 <= firstOfMonth y (m + 1) - firstOfMonth y m <= 31.
Proof.
  rewrite firstOfMonth_succ_split, (firstOfMonth_split y m).
  pose proof (Z.mod_pos_bound m 12 ltac:(lia)) as Hr.
  rewrite firstOfMonth_next, firstOfMonth_norm by lia.
  pose proof (InLeapYear_01 (y + m / 12)).
  pose proof (monthStart_step (InLeapYear_of_year (y + m / 12)) (m mod 12)
                ltac:(lia) ltac:(lia)).
  lia.
Qed.

(** The month that contains a day, for any month index. *)
Lemma in_month_any (n y m : Z) :
  firstOfMonth y m <= n < firstOfMonth y (m + 1) ->
  YearFromDay n = y + m / 12 /\ MonthFromDay n = m mod 12
  /\ DateFromDay n = n - firstOfMonth y m + 1.
Proof.
  rewrite firstOfMonth_succ_split, (firstOfMonth_split y m). intros H.
  apply in_month; auto. pose proof (Z.mod_pos_bound m 12 ltac:(lia)). lia.
Qed.

End CalendarFacts.

(** ** Numbers and Date objects *)

Module JSFacts.
Import Calendar JS CalendarFacts.

Lemma finiteInt_ofZ (z : Z) : finiteInt (ofZ z) = Some z.
Proof. unfold finiteInt, ofZ, inject_Z. cbn [Qnum Qden]. now rewrite Z.quot_1_r. Qed.

Lemma num_add_ofZ (a b : Z) : num_add (ofZ a) (ofZ b) = ofZ (a + b).
Proof.
  unfold num_add, ofZ, inject_Z, Qplus. cbn [Qnum Qden Pos.mul].
  now rewrite !Z.mul_1_r.
Qed.

Lemma tiny_inject_Z (a : Z) : tiny (inject_Z a) = false.
Proof.
  unfold tiny, inject_Z, Qle_bool. cbn [Qnum Qden].
  destruct (Z.ltb_spec 0 a); cbn [andb]; auto.
  apply Z.leb_gt. lia.
Qed.

Lemma num_sub_ofZ (a b : Z) : num_sub (ofZ a) (ofZ b) = ofZ (a - b).
Proof.
  unfold num_sub, ofZ. rewrite tiny_inject_Z. cbn [andb].
  unfold inject_Z, Qminus, Qplus, Qopp. cbn [Qnum Qden Pos.mul].
  rewrite !Z.mul_1_r. f_equal.
Qed.

Lemma truthy_ofZ (z : Z) : truthy (ofZ z) = negb (z =? 0).
Proof. reflexivity. Qed.

Lemma num_or_ofZ (a b : Z) : num_or (ofZ a) (ofZ b) = ofZ (if a =? 0 then b else a).
Proof. unfold num_or. rewrite truthy_ofZ. now destruct (a =? 0). Qed.

Lemma MakeFullYear_plain (y : Z) : plainYear y -> MakeFullYear (ofZ y) = ofZ y.
Proof.
  intros H. unfold MakeFullYear. rewrite finiteInt_ofZ.
  destruct (Z.leb_spec 0 y), (Z.leb_spec y 99); cbn [andb]; auto.
  unfold plainYear in H. lia.
Qed.

Lemma MakeFullYear_century (y : Z) :
  0 <= y <= 99 -> MakeFullYear (ofZ y) = ofZ (1900 + y).
Proof.
  intros H. unfold MakeFullYear. rewrite finiteInt_ofZ.
  destruct (Z.leb_spec 0 y), (Z.leb_spec y 99); cbn [andb]; auto; lia.
Qed.

Lemma TimeClip_inRange (t : Z) : inRange t -> TimeClip (Some t) = At t.
Proof.
  intros H. unfold TimeClip. destruct (Z.ltb_spec maxTime (Z.abs t)); auto.
  unfold inRange in H. lia.
Qed.

Lemma TimeClip_cases (t : Z) :
  TimeClip (Some t) = At t \/ TimeClip (Some t) = Invalid.
Proof. unfold TimeClip. destruct (_ <? _); auto. Qed.

Lemma Day_mul (n : Z) : Day (n * msPerDay) = n.
Proof. unfold Day, msPerDay. now rewrite Z.div_mul. Qed.

Lemma Day_mul_add (n r : Z) : 0 <= r < msPerDay -> Day (n * msPerDay + r) = n.
Proof.
  intros H. unfold Day. unfold msPerDay in *.
  symmetry. apply Z.div_unique_pos with (r := r); lia.
Qed.

Lemma TimeWithinDay_mul (n : Z) : TimeWithinDay (n * msPerDay) = 0.
Proof. unfold TimeWithinDay, msPerDay. now rewrite Z.mod_mul. Qed.

Lemma Day_decompose (t : Z) : t = Day t * msPerDay + TimeWithinDay t.
Proof. unfold Day, TimeWithinDay, msPerDay. divlia. Qed.

Lemma TimeWithinDay_range (t : Z) : 0 <= TimeWithinDay t < msPerDay.
Proof. unfold TimeWithinDay, msPerDay. divlia. Qed.

(** [Date.UTC] on integral fields. *)
Lemma Date_UTC7_ofZ (y m d h mi s ms : Z) :
  plainYear y ->
  Date_UTC7 (ofZ y) (ofZ m) (ofZ d) (ofZ h) (ofZ mi) (ofZ s) (ofZ ms)
  = TimeClip (Some (MakeDateZ (MakeDayZ y m d) (MakeTimeZ h mi s ms))).
Proof.
  intros H. unfold Date_UTC7, MakeDay, MakeTime, MakeDate.
  rewrite MakeFullYear_plain by auto. now rewrite !finiteInt_ofZ.
Qed.

Lemma Date_UTC_ofZ (y m d : Z) :
  plainYear y ->
  Date_UTC (ofZ y) (ofZ m) (ofZ d) = TimeClip (Some (MakeDayZ y m d * msPerDay)).
Proof.
  intros H. unfold Date_UTC. rewrite Date_UTC7_ofZ by auto.
  unfold MakeDateZ, MakeTimeZ. do 2 f_equal. lia.
Qed.

Lemma Date_UTC_century (y m d : Z) :
  0 <= y <= 99 ->
  Date_UTC (ofZ y) (ofZ m) (ofZ d)
  = TimeClip (Some (MakeDayZ (1900 + y) m d * msPerDay)).
Proof.
  intros H. unfold Date_UTC, Date_UTC7, MakeDay, MakeTime, MakeDate.
  rewrite MakeFullYear_century by auto. rewrite !finiteInt_ofZ.
  unfold MakeDateZ, MakeTimeZ. do 2 f_equal. lia.
Qed.

Lemma setUTCDate_offset (t k : Z) :
  setUTCDate (At t) (ofZ (DateFromTime t + k)) = TimeClip (Some (t + k * msPerDay)).
Proof.
  unfold setUTCDate, MakeDay, MakeDate. rewrite !finiteInt_ofZ.
  unfold YearFromTime, MonthFromTime, DateFromTime. rewrite MakeDayZ_getters.
  unfold MakeDateZ. do 2 f_equal. rewrite (Day_decompose t) at 3. lia.
Qed.

End JSFacts.

(** ** The date helpers of the controller *)

Module HelperFacts.
Import Calendar JS Controller CalendarFacts JSFacts.

Lemma okDay_plainYear (n : Z) : okDay n -> plainYear (YearFromDay n).
Proof.
  intros [H _]. right. pose proof (YearFromDay_ge n 100 H). lia.
Qed.

Lemma okDay_inRange (n r : Z) :
  okDay n -> 0 <= r < msPerDay -> inRange (n * msPerDay + r).
Proof.
  unfold okDay, inRange, maxTime, msPerDay.
  change (DayFromYear 100) with (-683003). lia.
Qed.

Lemma okDay_inRange0 (n : Z) : okDay n -> inRange (n * msPerDay).
Proof.
  intros H. replace (n * msPerDay) with (n * msPerDay + 0) by lia.
  apply okDay_inRange; auto. unfold msPerDay; lia.
Qed.

(** On an invalid date every helper returns an invalid date. *)
Lemma helpers_Invalid :
  startOfDayUTC Invalid = Invalid /\ endOfDayUTC Invalid = Invalid
  /\ startOfISOWeekUTC Invalid = Invalid /\ endOfISOWeekUTC Invalid = Invalid
  /\ startOfMonthUTC Invalid = Invalid /\ endOfMonthUTC Invalid = Invalid
  /\ (forall k, addDaysUTC Invalid k = Invalid)
  /\ (forall k, addMonthsUTC Invalid k = Invalid).
Proof. repeat split; reflexivity. Qed.

Lemma startOfDayUTC_plain (t : Z) :
  plainYear (YearFromTime t) ->
  startOfDayUTC (At t) = TimeClip (Some (Day t * msPerDay)).
Proof.
  intros H. unfold startOfDayUTC, getUTCFullYear, getUTCMonth, getUTCDate.
  rewrite Date_UTC_ofZ by auto.
  unfold YearFromTime, MonthFromTime, DateFromTime.
  replace (DateFromDay (Day t)) with (DateFromDay (Day t) + 0) by lia.
  now rewrite MakeDayZ_getters, Z.add_0_r.
Qed.

Lemma startOfDayUTC_ok (t : Z) :
  okDay (Day t) -> startOfDayUTC (At t) = At (Day t * msPerDay).
Proof.
  intros H. rewrite startOfDayUTC_plain by (apply okDay_plainYear; auto).
  apply TimeClip_inRange, okDay_inRange0; auto.
Qed.

Lemma endOfDayUTC_plain (t : Z) :
  plainYear (YearFromTime t) ->
  endOfDayUTC (At t) = TimeClip (Some (Day t * msPerDay + 86399999)).
Proof.
  intros H. unfold endOfDayUTC, getUTCFullYear, getUTCMonth, getUTCDate.
  rewrite Date_UTC7_ofZ by auto.
  unfold YearFromTime, MonthFromTime, DateFromTime.
  replace (DateFromDay (Day t)) with (DateFromDay (Day t) + 0) by lia.
  rewrite MakeDayZ_getters, Z.add_0_r. reflexivity.
Qed.

Lemma endOfDayUTC_ok (t : Z) :
  okDay (Day t) -> endOfDayUTC (At t) = At (Day t * msPerDay + 86399999).
Proof.
  intros H. rewrite endOfDayUTC_plain by (apply okDay_plainYear; auto).
  apply TimeClip_inRange, okDay_inRange; auto. unfold msPerDay; lia.
Qed.

Lemma addDaysUTC_At (t k : Z) :
  addDaysUTC (At t) k = TimeClip (Some (t + k * msPerDay)).
Proof.
  unfold addDaysUTC. cbv zeta. unfold getUTCDate.
  rewrite num_add_ofZ. apply setUTCDate_offset.
Qed.

Lemma setUTCDate_minus (t k : Z) :
  setUTCDate (At t) (num_sub (getUTCDate (At t)) (ofZ k))
  = TimeClip (Some (t - k * msPerDay)).
Proof.
  unfold getUTCDate. rewrite num_sub_ofZ.
  replace (DateFromTime t - k) with (DateFromTime t + - k) by lia.
  rewrite setUTCDate_offset. do 2 f_equal. lia.
Qed.

Lemma isoMonday_le (n : Z) : n - 6 <= isoMonday n <= n.
Proof. unfold isoMonday. divlia. Qed.

Lemma isoMonday_idem (n : Z) : isoMonday (isoMonday n) = isoMonday n.
Proof. unfold isoMonday. divlia. Qed.

Lemma isoMonday_week (n k : Z) : 0 <= k <= 6 -> isoMonday (isoMonday n + k) = isoMonday n.
Proof. unfold isoMonday. intros H. divlia. Qed.

(** The number that [startOfISOWeekUTC] subtracts from the day of the
    month: the days since Monday. *)
Lemma isoDay_offset (n : Z) :
  (if WeekDayOfDay n =? 0 then 7 else WeekDayOfDay n) - 1 = (n + 3) mod 7.
Proof.
  unfold WeekDayOfDay. destruct (Z.eqb_spec ((n + 4) mod 7) 0); divlia.
Qed.

Lemma startOfISOWeekUTC_ok (t : Z) :
  okDay (isoMonday (Day t)) -> Day t < 100000000 ->
  startOfISOWeekUTC (At t) = At (isoMonday (Day t) * msPerDay).
Proof.
  intros Hm Hn.
  assert (Hd : okDay (Day t)).
  { pose proof (isoMonday_le (Day t)). unfold okDay in *. lia. }
  unfold startOfISOWeekUTC. cbv zeta.
  fold (startOfDayUTC (At t)). rewrite startOfDayUTC_ok by auto.
  unfold getUTCDay at 1. rewrite num_or_ofZ, num_sub_ofZ.
  unfold WeekDay. rewrite isoDay_offset, setUTCDate_minus.
  replace (Day t * msPerDay - (Day t + 3) mod 7 * msPerDay)
    with (isoMonday (Day t) * msPerDay) by (unfold isoMonday; lia).
  rewrite TimeClip_inRange by (apply okDay_inRange0; auto).
  rewrite startOfDayUTC_ok; now rewrite Day_mul.
Qed.

Lemma endOfISOWeekUTC_ok (t : Z) :
  okDay (isoMonday (Day t)) -> isoMonday (Day t) + 6 < 100000000 ->
  endOfISOWeekUTC (At t) = At ((isoMonday (Day t) + 7) * msPerDay - 1).
Proof.
  intros Hm Hn. pose proof (isoMonday_le (Day t)).
  unfold endOfISOWeekUTC. cbv zeta.
  rewrite startOfISOWeekUTC_ok by (auto; lia).
  unfold getUTCDate. rewrite num_add_ofZ, setUTCDate_offset.
  replace (isoMonday (Day t) * msPerDay + 6 * msPerDay)
    with ((isoMonday (Day t) + 6) * msPerDay) by lia.
  assert (okDay (isoMonday (Day t) + 6)) by (unfold okDay in *; lia).
  rewrite TimeClip_inRange by (apply okDay_inRange0; auto).
  rewrite endOfDayUTC_ok; rewrite Day_mul; auto.
  f_equal. unfold msPerDay. lia.
Qed.

Lemma firstOfMonth_okDay (n : Z) :
  okDay n -> okDay (firstOfMonth (YearFromDay n) (MonthFromDay n)).
Proof.
  intros [Hlo Hhi]. pose proof (month_of_day n) as Hm.
  pose proof (MonthFromDay_range n) as Hr.
  rewrite firstOfMonth_norm in * by lia.
  pose proof (InLeapYear_01 (YearFromDay n)).
  pose proof (monthStart_range (InLeapYear_of_year (YearFromDay n)) _ ltac:(lia) Hr).
  pose proof (YearFromDay_ge n 100 Hlo) as Hy.
  assert (DayFromYear 100 <= DayFromYear (YearFromDay n)).
  { destruct (Z.eq_dec (YearFromDay n) 100) as [-> | Hne]; [lia|].
    pose proof (DayFromYear_lt 100 (YearFromDay n)). lia. }
  unfold okDay. lia.
Qed.

Lemma startOfMonthUTC_ok (t : Z) :
  okDay (Day t) ->
  startOfMonthUTC (At t)
  = At (firstOfMonth (YearFromTime t) (MonthFromTime t) * msPerDay).
Proof.
  intros H. unfold startOfMonthUTC, getUTCFullYear, getUTCMonth.
  rewrite Date_UTC_ofZ by (apply okDay_plainYear; auto).
  apply TimeClip_inRange, okDay_inRange0, firstOfMonth_okDay; auto.
Qed.

Lemma endOfMonthUTC_ok (t : Z) :
  okDay (Day t) ->
  firstOfMonth (YearFromTime t) (MonthFromTime t + 1) <= 100000000 ->
  endOfMonthUTC (At t)
  = At (firstOfMonth (YearFromTime t) (MonthFromTime t + 1) * msPerDay - 1).
Proof.
  intros H Hhi. unfold endOfMonthUTC, getUTCFullYear, getUTCMonth.
  rewrite num_add_ofZ, Date_UTC_ofZ by (apply okDay_plainYear; auto).
  pose proof (month_of_day (Day t)) as Hm.
  fold (YearFromTime t) (MonthFromTime t) in Hm.
  assert (E : MakeDayZ (YearFromTime t) (MonthFromTime t + 1) 0
              = firstOfMonth (YearFromTime t) (MonthFromTime t + 1) - 1).
  { unfold firstOfMonth, MakeDayZ. lia. }
  rewrite E.
  assert (Hok : okDay (firstOfMonth (YearFromTime t) (MonthFromTime t + 1) - 1)).
  { unfold okDay in *. lia. }
  rewrite TimeClip_inRange by (apply okDay_inRange0; auto).
  rewrite endOfDayUTC_ok; rewrite Day_mul; auto.
  f_equal. unfold msPerDay. lia.
Qed.

Lemma addMonthsUTC_ok (t k : Z) :
  okDay (Day t) ->
  addMonthsUTC (At t) k
  = TimeClip (Some (MakeDayZ (YearFromTime t) (MonthFromTime t + k) (DateFromTime t)
                    * msPerDay)).
Proof.
  intros H. unfold addMonthsUTC. cbv zeta.
  fold (startOfDayUTC (At t)). rewrite startOfDayUTC_ok by auto.
  unfold getUTCMonth, setUTCMonth, MakeDay, MakeDate.
  rewrite num_add_ofZ, !finiteInt_ofZ.
  unfold YearFromTime, MonthFromTime, DateFromTime.
  rewrite Day_mul, TimeWithinDay_mul. unfold MakeDateZ. now rewrite Z.add_0_r.
Qed.

(** The loop over days: from the midnight of day [n], with the range
    ending at the last millisecond of day [n + len - 1]. *)
Lemma enumerate_days (len : nat) :
  forall (n : Z) (acc : list Bucket) (fuel : nat),
    DayFromYear 100 <= n -> n + Z.of_nat len <= 100000000 ->
    (len < fuel)%nat ->
    enumerate fuel
      (fun d => {| start := startOfDayUTC d; end_ := endOfDayUTC d |})
      (fun d => addDaysUTC d 1)
      (At ((n + Z.of_nat len) * msPerDay - 1)) (At (n * msPerDay)) acc
    = Some (acc ++ map dayBucket (daysFrom n len)).
Proof.
  induction len as [|len IH]; intros n acc fuel Hn Hhi Hfuel;
    (destruct fuel as [|fuel]; [lia|]); cbn [enumerate Date_leb].
  - destruct (Z.leb_spec (n * msPerDay) ((n + Z.of_nat 0) * msPerDay - 1)) as [L|L].
    + unfold msPerDay in L. lia.
    + cbn [daysFrom map]. now rewrite app_nil_r.
  - assert (Hok : okDay n) by (unfold okDay in *; lia).
    destruct (Z.leb_spec (n * msPerDay) ((n + Z.of_nat (S len)) * msPerDay - 1)) as [L|L].
    2:{ unfold msPerDay in L. lia. }
    rewrite addDaysUTC_At.
    replace (n * msPerDay + 1 * msPerDay) with ((n + 1) * msPerDay) by lia.
    rewrite TimeClip_inRange
      by (unfold inRange, okDay, maxTime, msPerDay in *;
          change (DayFromYear 100) with (-683003) in *; lia).
    rewrite startOfDayUTC_ok, endOfDayUTC_ok by (rewrite Day_mul; auto).
    rewrite Day_mul. fold (dayBucket n).
    replace (n + Z.of_nat (S len)) with (n + 1 + Z.of_nat len) by lia.
    rewrite IH by lia.
    cbn [daysFrom map]. now rewrite <- app_assoc.
Qed.

(** *** Normalisation to bucket edges, away from the years 0 to 99 *)

Lemma modern_Day (t : Z) :
  modern t -> DayFromYear 101 <= Day t < DayFromYear 275760.
Proof.
  unfold modern, TimeFromYear, Day, msPerDay.
  change (DayFromYear 101) with (-682638).
  change (DayFromYear 275760) with 99999744. intros H. divlia.
Qed.

Lemma snapDay_bounds (t : Z) :
  okDay (Day t) ->
  exists r r',
    startOfDayUTC (At t) = At r /\ endOfDayUTC (At t) = At r'
    /\ r <= t <= r' /\ startOfDayUTC (At r) = At r.
Proof.
  intros H. exists (Day t * msPerDay), (Day t * msPerDay + 86399999).
  rewrite startOfDayUTC_ok, endOfDayUTC_ok by auto.
  rewrite startOfDayUTC_ok; rewrite Day_mul; auto.
  repeat split; auto;
    pose proof (Day_decompose t); pose proof (TimeWithinDay_range t);
    unfold msPerDay in *; lia.
Qed.

Lemma snapWeek_bounds (t : Z) :
  okDay (Day t - 6) -> Day t + 7 < 100000000 ->
  exists r r',
    startOfISOWeekUTC (At t) = At r /\ endOfISOWeekUTC (At t) = At r'
    /\ r <= t <= r' /\ startOfISOWeekUTC (At r) = At r.
Proof.
  intros H Hhi. pose proof (isoMonday_le (Day t)) as Hm.
  assert (Hok : okDay (isoMonday (Day t))) by (unfold okDay in *; lia).
  exists (isoMonday (Day t) * msPerDay), ((isoMonday (Day t) + 7) * msPerDay - 1).
  rewrite startOfISOWeekUTC_ok, endOfISOWeekUTC_ok by (auto; lia).
  rewrite startOfISOWeekUTC_ok; rewrite Day_mul, ?isoMonday_idem; auto; try lia.
  repeat split; auto;
    pose proof (Day_decompose t); pose proof (TimeWithinDay_range t);
    unfold msPerDay in *; lia.
Qed.

Lemma endOfMonth_in_range (n : Z) :
  n < DayFromYear 275760 ->
  firstOfMonth (YearFromDay n) (MonthFromDay n + 1) <= 100000000.
Proof.
  intros H. pose proof (MonthFromDay_range n) as Hr.
  pose proof (YearFromDay_lt n 275760 H) as Hy.
  pose proof (firstOfMonth_step (YearFromDay n) (MonthFromDay n)).
  pose proof (InLeapYear_01 (YearFromDay n)).
  rewrite firstOfMonth_next by lia.
  assert (monthStart (InLeapYear_of_year (YearFromDay n)) (MonthFromDay n + 1)
          <= 365 + InLeapYear_of_year (YearFromDay n)).
  { generalize dependent (MonthFromDay n). intros m; intros.
    month_cases m; norm_month; lia. }
  pose proof (DayFromYear_succ (YearFromDay n)) as Hs. unfold DaysInYear in Hs.
  assert (DayFromYear (YearFromDay n + 1) <= DayFromYear 275760).
  { destruct (Z.eq_dec (YearFromDay n + 1) 275760) as [-> | Hne]; [lia|].
    pose proof (DayFromYear_lt (YearFromDay n + 1) 275760). lia. }
  change (DayFromYear 275760) with 99999744 in *. lia.
Qed.

Lemma snapMonth_bounds (t : Z) :
  okDay (Day t) -> Day t < DayFromYear 275760 ->
  exists r r',
    startOfMonthUTC (At t) = At r /\ endOfMonthUTC (At t) = At r'
    /\ r <= t <= r' /\ startOfMonthUTC (At r) = At r.
Proof.
  intros H Hhi.
  pose proof (endOfMonth_in_range (Day t) Hhi) as Hend.
  pose proof (month_of_day (Day t)) as Hm.
  pose proof (MonthFromDay_range (Day t)) as Hr.
  pose proof (firstOfMonth_step (YearFromDay (Day t)) (MonthFromDay (Day t))) as Hstep.
  exists (firstOfMonth (YearFromTime t) (MonthFromTime t) * msPerDay),
    (firstOfMonth (YearFromTime t) (MonthFromTime t + 1) * msPerDay - 1).
  rewrite startOfMonthUTC_ok, endOfMonthUTC_ok by auto.
  unfold YearFromTime, MonthFromTime in *.
  assert (Hfirst : startOfMonthUTC
                     (At (firstOfMonth (YearFromDay (Day t)) (MonthFromDay (Day t))
                          * msPerDay))
                   = At (firstOfMonth (YearFromDay (Day t)) (MonthFromDay (Day t))
                         * msPerDay)).
  { rewrite startOfMonthUTC_ok by (rewrite Day_mul; apply firstOfMonth_okDay; auto).
    unfold YearFromTime, MonthFromTime. rewrite Day_mul.
    destruct (in_month (firstOfMonth (YearFromDay (Day t)) (MonthFromDay (Day t)))
                (YearFromDay (Day t)) (MonthFromDay (Day t)) Hr ltac:(lia))
      as (-> & -> & _).
    reflexivity. }
  repeat split; auto;
    pose proof (Day_decompose t); pose proof (TimeWithinDay_range t);
    unfold msPerDay in *; lia.
Qed.

(** Five months before a date of the same day of the month, as
    [setUTCMonth] computes it: from 140 to 186 days earlier. *)
Lemma five_months_back (n : Z) :
  n - 186 <= MakeDayZ (YearFromDay n) (MonthFromDay n - 5) (DateFromDay n) <= n - 140.
Proof.
  pose proof (MakeDayZ_getters n 0) as G. rewrite !Z.add_0_r in G.
  set (y := YearFromDay n) in *. set (m := MonthFromDay n) in *.
  set (d := DateFromDay n) in *.
  assert (E : forall k, MakeDayZ y k d = firstOfMonth y k + d - 1).
  { intros k. unfold firstOfMonth, MakeDayZ. lia. }
  rewrite E in *.
  pose proof (firstOfMonth_step y (m - 5)) as S1.
  pose proof (firstOfMonth_step y (m - 4)) as S2.
  pose proof (firstOfMonth_step y (m - 3)) as S3.
  pose proof (firstOfMonth_step y (m - 2)) as S4.
  pose proof (firstOfMonth_step y (m - 1)) as S5.
  replace (m - 5 + 1) with (m - 4) in S1 by lia.
  replace (m - 4 + 1) with (m - 3) in S2 by lia.
  replace (m - 3 + 1) with (m - 2) in S3 by lia.
  replace (m - 2 + 1) with (m - 1) in S4 by lia.
  replace (m - 1 + 1) with m in S5 by lia.
  lia.
Qed.

Lemma setUTCMonth_back5 (t : Z) :
  setUTCMonth (At t) (num_sub (getUTCMonth (At t)) (ofZ 5))
  = TimeClip (Some (MakeDayZ (YearFromTime t) (MonthFromTime t - 5) (DateFromTime t)
                    * msPerDay + TimeWithinDay t)).
Proof.
  unfold getUTCMonth, setUTCMonth, MakeDay, MakeDate.
  now rewrite num_sub_ofZ, !finiteInt_ofZ.
Qed.

(** Every step of the loop moves the cursor forward: by one or seven
    days, or to a later month, whatever the cursor. *)
Lemma addDaysUTC_increases (c d k : Z) :
  0 < k -> addDaysUTC (At c) k = At d -> c < d.
Proof.
  intros Hk H. rewrite addDaysUTC_At in H.
  destruct (TimeClip_cases (c + k * msPerDay)) as [E | E]; rewrite E in H;
    [|discriminate].
  injection H as <-. unfold msPerDay. lia.
Qed.

Lemma setUTCMonth_next (r : Z) :
  exists x, r < x
    /\ setUTCMonth (At (r * msPerDay)) (num_add (getUTCMonth (At (r * msPerDay))) (ofZ 1))
       = TimeClip (Some (x * msPerDay)).
Proof.
  exists (MakeDayZ (YearFromDay r) (MonthFromDay r + 1) (DateFromDay r)). split.
  - pose proof (month_of_day r) as Hm. pose proof (DateFromDay_range r).
    unfold firstOfMonth in Hm. unfold MakeDayZ in *. lia.
  - unfold getUTCMonth, setUTCMonth, MakeDay, MakeDate.
    rewrite num_add_ofZ, !finiteInt_ofZ.
    unfold YearFromTime, MonthFromTime, DateFromTime.
    rewrite Day_mul, TimeWithinDay_mul. unfold MakeDateZ. now rewrite Z.add_0_r.
Qed.

Lemma addMonthsUTC_increases (c d : Z) : addMonthsUTC (At c) 1 = At d -> c < d.
Proof.
  unfold addMonthsUTC. cbv zeta. intros H.
  assert (Hres : exists r, Day c <= r
            /\ Date_UTC (getUTCFullYear (At c)) (getUTCMonth (At c)) (getUTCDate (At c))
               = TimeClip (Some (r * msPerDay))).
  { unfold getUTCFullYear, getUTCMonth, getUTCDate,
      YearFromTime, MonthFromTime, DateFromTime.
    pose proof (MakeDayZ_getters (Day c) 0) as G. rewrite !Z.add_0_r in G.
    destruct (Z.leb_spec 0 (YearFromDay (Day c)));
      [destruct (Z.leb_spec (YearFromDay (Day c)) 99)|].
    - eexists. split; [|apply Date_UTC_century; lia].
      pose proof (MonthFromDay_range (Day c)) as Hm.
      pose proof (DayFromYear_lt (YearFromDay (Day c)) (1900 + YearFromDay (Day c))
                    ltac:(lia)).
      pose proof (InLeapYear_01 (YearFromDay (Day c))).
      pose proof (InLeapYear_01 (1900 + YearFromDay (Day c))).
      unfold MakeDayZ in *. cbv zeta in *.
      rewrite (Z.div_small (MonthFromDay (Day c)) 12),
        (Z.mod_small (MonthFromDay (Day c)) 12) in * by lia.
      rewrite !Z.add_0_r in *.
      pose proof (monthStart_range (InLeapYear_of_year (YearFromDay (Day c))) _
                    ltac:(lia) Hm).
      pose proof (monthStart_range (InLeapYear_of_year (1900 + YearFromDay (Day c))) _
                    ltac:(lia) Hm).
      lia.
    - exists (Day c). split; [lia|]. rewrite Date_UTC_ofZ by (right; lia). now rewrite G.
    - exists (Day c). split; [lia|]. rewrite Date_UTC_ofZ by (left; lia). now rewrite G. }
  destruct Hres as (r & Hr & E). rewrite E in H.
  destruct (TimeClip_cases (r * msPerDay)) as [E' | E']; rewrite E' in H;
    [|discriminate].
  destruct (setUTCMonth_next r) as (x & Hx & E2). rewrite E2 in H.
  destruct (TimeClip_cases (x * msPerDay)) as [E3 | E3]; rewrite E3 in H;
    [|discriminate].
  injection H as <-.
  pose proof (Day_decompose c). pose proof (TimeWithinDay_range c).
  unfold msPerDay in *. lia.
Qed.

Lemma enumerate_terminates (mk : Date -> Bucket) (adv : Date -> Date) (re : Date) :
  (forall c d, adv (At c) = At d -> c < d) ->
  forall (m : nat) (cursor : Date) (acc : list Bucket),
    match cursor, re with
    | At c, At e => e - c < Z.of_nat m
    | _, _ => True
    end ->
    exists bs, enumerate (S m) mk adv re cursor acc = Some bs.
Proof.
  intros Hadv. induction m as [|m IH]; intros cursor acc H; cbn [enumerate].
  - destruct cursor as [|c], re as [|e]; cbn [Date_leb]; eauto.
    destruct (Z.leb_spec c e); eauto. lia.
  - destruct (Date_leb cursor re) eqn:E; eauto.
    apply IH. destruct cursor as [|c], re as [|e]; try discriminate.
    cbn [Date_leb] in E. apply Z.leb_le in E.
    destruct (adv (At c)) as [|d] eqn:Ed; auto.
    apply Hadv in Ed. lia.
Qed.

Lemma enumerate_returns (mk : Date -> Bucket) (adv : Date -> Date)
    (re cursor : Date) (acc : list Bucket) :
  (forall c d, adv (At c) = At d -> c < d) ->
  exists fuel bs, enumerate fuel mk adv re cursor acc = Some bs.
Proof.
  intros Hadv.
  set (m := match cursor, re with
            | At c, At e => Z.to_nat (e - c + 1)
            | _, _ => O
            end).
  destruct (enumerate_terminates mk adv re Hadv m cursor acc) as [bs Hbs].
  - subst m. destruct cursor, re; auto. lia.
  - eauto.
Qed.

Lemma enumerate_more_fuel (mk : Date -> Bucket) (adv : Date -> Date) (re : Date) :
  forall (fuel fuel' : nat) (cursor : Date) (acc bs : list Bucket),
    enumerate fuel mk adv re cursor acc = Some bs ->
    (fuel <= fuel')%nat ->
    enumerate fuel' mk adv re cursor acc = Some bs.
Proof.
  induction fuel as [|fuel IH]; intros fuel' cursor acc bs H Hle; [discriminate|].
  destruct fuel' as [|fuel']; [lia|].
  cbn [enumerate] in *. destruct (Date_leb cursor re); auto.
  apply IH with (fuel' := fuel') in H; auto. lia.
Qed.

(** *** The day and month helpers on every date *)

(** What [Date.UTC] makes of the year, month and day of a date: the
    midnight of a day whose year is outside 0..99, the same day unless
    the year of the date is one of 0..99. *)
Lemma Date_UTC_of_getters (t h mi s ms : Z) :
  exists r,
    plainYear (YearFromDay r)
    /\ Date_UTC7 (getUTCFullYear (At t)) (getUTCMonth (At t)) (getUTCDate (At t))
         (ofZ h) (ofZ mi) (ofZ s) (ofZ ms)
       = TimeClip (Some (MakeDateZ r (MakeTimeZ h mi s ms))).
Proof.
  unfold getUTCFullYear, getUTCMonth, getUTCDate,
    YearFromTime, MonthFromTime, DateFromTime.
  set (n := Day t).
  pose proof (MakeDayZ_getters n 0) as G. rewrite !Z.add_0_r in G.
  destruct (Z.leb_spec 0 (YearFromDay n)); [destruct (Z.leb_spec (YearFromDay n) 99)|].
  - exists (MakeDayZ (1900 + YearFromDay n) (MonthFromDay n) (DateFromDay n)). split.
    + right.
      pose proof (MonthFromDay_range n) as Hm. pose proof (DateFromDay_range n) as Hd.
      pose proof (InLeapYear_01 (1900 + YearFromDay n)).
      pose proof (monthStart_range (InLeapYear_of_year (1900 + YearFromDay n)) _
                    ltac:(lia) Hm).
      assert (Hlow : DayFromYear 1900
              <= MakeDayZ (1900 + YearFromDay n) (MonthFromDay n) (DateFromDay n)).
      { unfold MakeDayZ. cbv zeta.
        rewrite (Z.div_small (MonthFromDay n) 12), (Z.mod_small (MonthFromDay n) 12)
          by lia.
        rewrite Z.add_0_r.
        assert (DayFromYear 1900 <= DayFromYear (1900 + YearFromDay n)).
        { destruct (Z.eq_dec (YearFromDay n) 0) as [e | Hne].
          - rewrite e. apply Z.le_refl.
          - pose proof (DayFromYear_lt 1900 (1900 + YearFromDay n)). lia. }
        lia. }
      pose proof (YearFromDay_ge _ 1900 Hlow). lia.
    + unfold Date_UTC7, MakeDay, MakeTime, MakeDate.
      rewrite MakeFullYear_century by lia. now rewrite !finiteInt_ofZ.
  - exists n. split; [right; lia|]. rewrite Date_UTC7_ofZ by (right; lia). now rewrite G.
  - exists n. split; [left; lia|]. rewrite Date_UTC7_ofZ by (left; lia). now rewrite G.
Qed.

Lemma startOfDayUTC_idempotent (d : Date) :
  startOfDayUTC (startOfDayUTC d) = startOfDayUTC d.
Proof.
  destruct d as [|t]; [reflexivity|].
  destruct (Date_UTC_of_getters t 0 0 0 0) as (r & Hp & E0).
  fold (Date_UTC (getUTCFullYear (At t)) (getUTCMonth (At t)) (getUTCDate (At t)))
    in E0.
  fold (startOfDayUTC (At t)) in E0. rewrite E0.
  replace (MakeDateZ r (MakeTimeZ 0 0 0 0)) with (r * msPerDay)
    by (unfold MakeDateZ, MakeTimeZ; lia).
  destruct (TimeClip_cases (r * msPerDay)) as [E | E]; rewrite E; [|reflexivity].
  rewrite startOfDayUTC_plain by (unfold YearFromTime; now rewrite Day_mul).
  now rewrite Day_mul.
Qed.

Lemma endOfDayUTC_idempotent (d : Date) :
  endOfDayUTC (endOfDayUTC d) = endOfDayUTC d.
Proof.
  destruct d as [|t]; [reflexivity|].
  destruct (Date_UTC_of_getters t 23 59 59 999) as (r & Hp & E0).
  fold (endOfDayUTC (At t)) in E0. rewrite E0.
  replace (MakeDateZ r (MakeTimeZ 23 59 59 999)) with (r * msPerDay + 86399999)
    by reflexivity.
  destruct (TimeClip_cases (r * msPerDay + 86399999)) as [E | E]; rewrite E;
    [|reflexivity].
  assert (HD : Day (r * msPerDay + 86399999) = r)
    by (apply Day_mul_add; unfold msPerDay; lia).
  rewrite endOfDayUTC_plain by (unfold YearFromTime; now rewrite HD).
  now rewrite HD.
Qed.

Lemma fullYear_plain (y : Z) : plainYear (fullYear y).
Proof.
  unfold fullYear, plainYear.
  destruct (Z.leb_spec 0 y), (Z.leb_spec y 99); cbn [andb]; lia.
Qed.

Lemma Date_UTC_fullYear (y m d : Z) :
  Date_UTC (ofZ y) (ofZ m) (ofZ d)
  = TimeClip (Some (MakeDayZ (fullYear y) m d * msPerDay)).
Proof.
  unfold fullYear.
  destruct (Z.leb_spec 0 y), (Z.leb_spec y 99); cbn [andb];
    try (apply Date_UTC_ofZ; unfold plainYear; lia).
  apply Date_UTC_century. lia.
Qed.

Lemma firstOfMonth_date (y m : Z) :
  0 <= m <= 11 ->
  YearFromDay (firstOfMonth y m) = y /\ MonthFromDay (firstOfMonth y m) = m.
Proof.
  intros Hm. pose proof (firstOfMonth_step y m).
  destruct (in_month (firstOfMonth y m) y m Hm ltac:(lia)) as (Hy & Hmo & _). auto.
Qed.

Lemma lastOfMonth_date (y m : Z) :
  0 <= m <= 11 ->
  YearFromDay (firstOfMonth y (m + 1) - 1) = y
  /\ MonthFromDay (firstOfMonth y (m + 1) - 1) = m.
Proof.
  intros Hm. pose proof (firstOfMonth_step y m).
  destruct (in_month (firstOfMonth y (m + 1) - 1) y m Hm ltac:(lia)) as (Hy & Hmo & _).
  auto.
Qed.

Lemma startOfMonthUTC_idempotent (d : Date) :
  startOfMonthUTC (startOfMonthUTC d) = startOfMonthUTC d.
Proof.
  destruct d as [|t]; [reflexivity|].
  set (y := fullYear (YearFromTime t)). set (m := MonthFromTime t).
  assert (Hm : 0 <= m <= 11) by apply MonthFromDay_range.
  assert (E0 : startOfMonthUTC (At t) = TimeClip (Some (firstOfMonth y m * msPerDay))).
  { unfold startOfMonthUTC, getUTCFullYear, getUTCMonth. apply Date_UTC_fullYear. }
  rewrite E0.
  destruct (TimeClip_cases (firstOfMonth y m * msPerDay)) as [E | E]; rewrite E;
    [|reflexivity].
  unfold startOfMonthUTC, getUTCFullYear, getUTCMonth, YearFromTime, MonthFromTime.
  rewrite Day_mul. destruct (firstOfMonth_date y m Hm) as (-> & ->).
  rewrite Date_UTC_ofZ by apply fullYear_plain. exact E.
Qed.

Lemma endOfMonthUTC_idempotent (d : Date) :
  endOfMonthUTC (endOfMonthUTC d) = endOfMonthUTC d.
Proof.
  destruct d as [|t]; [reflexivity|].
  set (y := fullYear (YearFromTime t)). set (m := MonthFromTime t).
  assert (Hm : 0 <= m <= 11) by apply MonthFromDay_range.
  assert (EL : MakeDayZ y (m + 1) 0 = firstOfMonth y (m + 1) - 1)
    by (unfold firstOfMonth, MakeDayZ; lia).
  set (L := firstOfMonth y (m + 1) - 1) in *.
  assert (E0 : endOfMonthUTC (At t) = endOfDayUTC (TimeClip (Some (L * msPerDay)))).
  { unfold endOfMonthUTC, getUTCFullYear, getUTCMonth.
    rewrite num_add_ofZ, Date_UTC_fullYear. fold y m. now rewrite EL. }
  rewrite E0.
  destruct (lastOfMonth_date y m Hm) as (Hy & Hmo). fold L in Hy, Hmo.
  assert (Hend : forall u, Day u = L ->
            endOfMonthUTC (At u) = endOfDayUTC (TimeClip (Some (L * msPerDay)))).
  { intros u Hu. unfold endOfMonthUTC, getUTCFullYear, getUTCMonth,
      YearFromTime, MonthFromTime.
    rewrite Hu, Hy, Hmo, num_add_ofZ.
    rewrite Date_UTC_ofZ by apply fullYear_plain. now rewrite EL. }
  destruct (TimeClip_cases (L * msPerDay)) as [E | E]; rewrite E; [|reflexivity].
  rewrite endOfDayUTC_plain
    by (unfold YearFromTime; rewrite Day_mul, Hy; apply fullYear_plain).
  rewrite Day_mul.
  destruct (TimeClip_cases (L * msPerDay + 86399999)) as [E' | E']; rewrite E';
    [|reflexivity].
  rewrite Hend by (apply Day_mul_add; unfold msPerDay; lia).
  rewrite E.
  rewrite endOfDayUTC_plain
    by (unfold YearFromTime; rewrite Day_mul, Hy; apply fullYear_plain).
  now rewrite Day_mul.
Qed.

(** *** The loop over buckets given by their edges *)

Lemma edges_lt (E : Z -> Z) (n : nat) :
  forall a, (forall i, a <= i < a + Z.of_nat n -> E i < E (i + 1)) ->
            (0 < n)%nat -> E a < E (a + Z.of_nat n).
Proof.
  induction n as [|n IH]; intros a H Hn; [lia|].
  destruct n as [|n].
  - replace (a + Z.of_nat 1) with (a + 1) by lia. apply H. lia.
  - specialize (IH (a + 1)).
    replace (a + Z.of_nat (S (S n))) with (a + 1 + Z.of_nat (S n)) by lia.
    transitivity (E (a + 1)); [apply H; lia|].
    apply IH; [|lia]. intros i Hi. apply H. lia.
Qed.

Lemma enumerate_edges (E : Z -> Z) (mk : Date -> Bucket) (adv : Date -> Date)
    (len : nat) :
  forall (a : Z) (acc : list Bucket) (fuel : nat),
    (forall i, a <= i < a + Z.of_nat len ->
       mk (At (E i * msPerDay)) = edgeBucket E i
       /\ adv (At (E i * msPerDay)) = TimeClip (Some (E (i + 1) * msPerDay))
       /\ E i < E (i + 1) /\ inRange (E i * msPerDay)) ->
    (len < fuel)%nat ->
    enumerate fuel mk adv (At (E (a + Z.of_nat len) * msPerDay - 1))
      (TimeClip (Some (E a * msPerDay))) acc
    = Some (acc ++ map (edgeBucket E) (daysFrom a len)).
Proof.
  induction len as [|len IH]; intros a acc fuel H Hfuel;
    (destruct fuel as [|fuel]; [lia|]); cbn [enumerate].
  - rewrite Z.add_0_r. cbn [daysFrom map]. rewrite app_nil_r.
    destruct (TimeClip_cases (E a * msPerDay)) as [-> | ->]; cbn [Date_leb]; auto.
    destruct (Z.leb_spec (E a * msPerDay) (E a * msPerDay - 1)); auto. lia.
  - destruct (H a ltac:(lia)) as (Hmk & Hadv & Hlt & Hin).
    rewrite (TimeClip_inRange _ Hin). cbn [Date_leb].
    assert (Hend : E a < E (a + Z.of_nat (S len))).
    { apply edges_lt; [|lia]. intros i Hi. apply H. lia. }
    destruct (Z.leb_spec (E a * msPerDay) (E (a + Z.of_nat (S len)) * msPerDay - 1)).
    2:{ unfold msPerDay in *. lia. }
    rewrite Hmk, Hadv.
    replace (a + Z.of_nat (S len)) with (a + 1 + Z.of_nat len) by lia.
    rewrite IH; [|intros i Hi; apply H; lia|lia].
    cbn [daysFrom map]. now rewrite <- app_assoc.
Qed.

Lemma tiles_edges (E : Z -> Z) (len : nat) :
  forall a, (forall i, a <= i < a + Z.of_nat len -> E i < E (i + 1)) ->
    tiles (E a * msPerDay) (map (edgeBucket E) (daysFrom a len))
          (E (a + Z.of_nat len) * msPerDay - 1).
Proof.
  induction len as [|len IH]; intros a H; cbn [daysFrom map tiles].
  - rewrite Z.add_0_r. lia.
  - exists (E (a + 1) * msPerDay - 1). cbn [edgeBucket start end_].
    repeat split; auto.
    + pose proof (H a ltac:(lia)). unfold msPerDay. lia.
    + replace (E (a + 1) * msPerDay - 1 + 1) with (E (a + 1) * msPerDay) by lia.
      replace (a + Z.of_nat (S len)) with (a + 1 + Z.of_nat len) by lia.
      apply IH. intros i Hi. apply H. lia.
Qed.

(** The three kinds of bucket, on the edges they start from. *)
Lemma day_edges (i : Z) :
  okDay i ->
  {| start := startOfDayUTC (At (dayEdge i * msPerDay));
     end_ := endOfDayUTC (At (dayEdge i * msPerDay)) |} = edgeBucket dayEdge i
  /\ addDaysUTC (At (dayEdge i * msPerDay)) 1
     = TimeClip (Some (dayEdge (i + 1) * msPerDay))
  /\ dayEdge i < dayEdge (i + 1) /\ inRange (dayEdge i * msPerDay).
Proof.
  intros H. unfold dayEdge, edgeBucket.
  rewrite startOfDayUTC_ok, endOfDayUTC_ok, addDaysUTC_At by (rewrite Day_mul; auto).
  rewrite Day_mul. split; [|split; [|split]].
  - do 2 f_equal. unfold msPerDay. lia.
  - do 2 f_equal. lia.
  - lia.
  - now apply okDay_inRange0.
Qed.

Lemma isoMonday_weekEdge (i : Z) : isoMonday (weekEdge i) = weekEdge i.
Proof. unfold isoMonday, weekEdge. divlia. Qed.

Lemma isoMonday_is_edge (n : Z) : isoMonday n = weekEdge ((n + 3) / 7).
Proof. unfold isoMonday, weekEdge. divlia. Qed.

Lemma week_edges (i : Z) :
  okDay (weekEdge i) -> weekEdge i + 6 < 100000000 ->
  {| start := startOfISOWeekUTC (At (weekEdge i * msPerDay));
     end_ := endOfISOWeekUTC (At (weekEdge i * msPerDay)) |} = edgeBucket weekEdge i
  /\ addDaysUTC (At (weekEdge i * msPerDay)) 7
     = TimeClip (Some (weekEdge (i + 1) * msPerDay))
  /\ weekEdge i < weekEdge (i + 1) /\ inRange (weekEdge i * msPerDay).
Proof.
  intros H Hhi. unfold edgeBucket.
  rewrite startOfISOWeekUTC_ok, endOfISOWeekUTC_ok, addDaysUTC_At
    by (rewrite Day_mul, ?isoMonday_weekEdge; auto; lia).
  rewrite Day_mul, isoMonday_weekEdge. split; [|split; [|split]].
  - do 3 f_equal. unfold weekEdge. lia.
  - do 2 f_equal. unfold weekEdge. lia.
  - unfold weekEdge. lia.
  - now apply okDay_inRange0.
Qed.

Lemma firstOfMonth_is_edge (y m : Z) : firstOfMonth y m = monthEdge (12 * y + m).
Proof.
  unfold monthEdge. rewrite (firstOfMonth_split 0 (12 * y + m)), (firstOfMonth_split y m).
  f_equal; divlia.
Qed.

Lemma monthEdge_step (i : Z) : 28 <= monthEdge (i + 1) - monthEdge i <= 31.
Proof. apply firstOfMonth_step. Qed.

Lemma monthEdge_lt (i j : Z) : i < j -> monthEdge i < monthEdge j.
Proof.
  intros H. replace j with (i + Z.of_nat (Z.to_nat (j - i))) by lia.
  apply edges_lt; [|lia]. intros k _. pose proof (monthEdge_step k). lia.
Qed.

Lemma monthEdge_date (i : Z) :
  YearFromDay (monthEdge i) = i / 12 /\ MonthFromDay (monthEdge i) = i mod 12
  /\ DateFromDay (monthEdge i) = 1.
Proof.
  pose proof (monthEdge_step i) as Hs. unfold monthEdge in *.
  destruct (in_month_any (firstOfMonth 0 i) 0 i ltac:(lia)) as (Hy & Hm & Hd).
  rewrite Hy, Hm, Hd. repeat split; lia.
Qed.

Lemma month_edges (i : Z) :
  okDay (monthEdge i) -> monthEdge (i + 1) <= 100000000 ->
  {| start := startOfMonthUTC (At (monthEdge i * msPerDay));
     end_ := endOfMonthUTC (At (monthEdge i * msPerDay)) |} = edgeBucket monthEdge i
  /\ addMonthsUTC (At (monthEdge i * msPerDay)) 1
     = TimeClip (Some (monthEdge (i + 1) * msPerDay))
  /\ monthEdge i < monthEdge (i + 1) /\ inRange (monthEdge i * msPerDay).
Proof.
  intros H Hhi. unfold edgeBucket.
  destruct (monthEdge_date i) as (Hy & Hm & Hd).
  assert (E0 : firstOfMonth (i / 12) (i mod 12) = monthEdge i).
  { rewrite firstOfMonth_is_edge. f_equal. divlia. }
  assert (E1 : firstOfMonth (i / 12) (i mod 12 + 1) = monthEdge (i + 1)).
  { rewrite firstOfMonth_is_edge. f_equal. divlia. }
  rewrite startOfMonthUTC_ok, addMonthsUTC_ok by (rewrite Day_mul; auto).
  unfold YearFromTime, MonthFromTime, DateFromTime.
  rewrite Day_mul, Hy, Hm, Hd.
  rewrite endOfMonthUTC_ok;
    unfold YearFromTime, MonthFromTime; rewrite Day_mul, ?Hy, ?Hm, ?E1; auto.
  fold (firstOfMonth (i / 12) (i mod 12 + 1)). rewrite E0, E1.
  split; [|split; [|split]]; auto.
  - pose proof (monthEdge_step i). lia.
  - now apply okDay_inRange0.
Qed.

Lemma daysFrom_nonempty (a : Z) (len : nat) : (0 < len)%nat -> daysFrom a len <> [].
Proof. destruct len; [lia | discriminate]. Qed.

Lemma enumerate_tiled (E : Z -> Z) (mk : Date -> Bucket) (adv : Date -> Date)
    (a b : Z) (fuel : nat) :
  a <= b ->
  (forall i, a <= i <= b ->
     mk (At (E i * msPerDay)) = edgeBucket E i
     /\ adv (At (E i * msPerDay)) = TimeClip (Some (E (i + 1) * msPerDay))
     /\ E i < E (i + 1) /\ inRange (E i * msPerDay)) ->
  (Z.to_nat (b + 1 - a) < fuel)%nat ->
  exists bs,
    enumerate fuel mk adv (At (E (b + 1) * msPerDay - 1)) (At (E a * msPerDay)) []
    = Some bs
    /\ bs <> [] /\ tiles (E a * msPerDay) bs (E (b + 1) * msPerDay - 1).
Proof.
  intros Hab H Hfuel. set (len := Z.to_nat (b + 1 - a)) in *.
  assert (Eb : b + 1 = a + Z.of_nat len) by lia.
  exists (map (edgeBucket E) (daysFrom a len)). rewrite Eb. split; [|split].
  - destruct (H a ltac:(lia)) as (_ & _ & _ & Hin).
    rewrite <- (TimeClip_inRange _ Hin).
    rewrite enumerate_edges; auto. intros i Hi. apply H. lia.
  - intros Hnil. apply map_eq_nil in Hnil.
    apply (daysFrom_nonempty a len); [lia | auto].
  - apply tiles_edges. intros i Hi. apply H. lia.
Qed.

End HelperFacts.

(** X7.  The four helpers that normalise to a day or to a month are
    idempotent on every Date object, valid or not, whatever its year:
    applied to its own result, each returns that result. *)
Theorem day_and_month_helpers_idempotent (d : JS.Date) :
  Controller.startOfDayUTC (Controller.startOfDayUTC d) = Controller.startOfDayUTC d
  /\ Controller.endOfDayUTC (Controller.endOfDayUTC d) = Controller.endOfDayUTC d
  /\ Controller.startOfMonthUTC (Controller.startOfMonthUTC d)
     = Controller.startOfMonthUTC d
  /\ Controller.endOfMonthUTC (Controller.endOfMonthUTC d)
     = Controller.endOfMonthUTC d.
Proof.
  repeat split.
  - apply HelperFacts.startOfDayUTC_idempotent.
  - apply HelperFacts.endOfDayUTC_idempotent.
  - apply HelperFacts.startOfMonthUTC_idempotent.
  - apply HelperFacts.endOfMonthUTC_idempotent.
Qed.

(** ** The aggregators *)

Section ForwardFill.
Import Calendar JS Controller.

Variable trends : list ProductTrend.

Lemma forwardFill_length (l : list TrendBucket) :
  forall lastTotal, List.length (forwardFill lastTotal l) = List.length l.
Proof.
  induction l as [|b l IH]; intros lastTotal; cbn [forwardFill]; auto.
  destruct (tb_totalProducts b); cbn [List.length]; now rewrite IH.
Qed.

Lemma forwardFill_known (l : list TrendBucket) :
  forall lastTotal,
    Forall (fun o => exists v, tb_totalProducts o = Some v) (forwardFill lastTotal l).
Proof.
  induction l as [|b l IH]; intros lastTotal; cbn [forwardFill]; auto.
  destruct (tb_totalProducts b) as [v|] eqn:E; constructor; eauto.
  cbn [tb_totalProducts]. eauto.
Qed.

Lemma recordIn_test (b : Bucket) (t : ProductTrend) :
  Date_geb (At (date t)) (start b) && Date_leb (At (date t)) (end_ b) = true
  <-> recordIn b t.
Proof.
  unfold recordIn, Date_geb, Date_leb.
  destruct (start b) as [|s], (end_ b) as [|e]; cbn [andb].
  - split; [discriminate | intros (s & e & H & _); discriminate].
  - split; [discriminate | intros (s & e' & H & _); discriminate].
  - rewrite andb_false_r. split; [discriminate | intros (s' & e & _ & H & _); discriminate].
  - rewrite andb_true_iff, !Z.leb_le. split.
    + intros H. exists s, e. auto.
    + intros (s' & e' & Hs & He & H). injection Hs as <-. injection He as <-. exact H.
Qed.

Lemma itemsOf_none (b : Bucket) (rows : list ProductTrend) :
  noRecordIn b rows -> itemsOf b rows = [].
Proof.
  unfold itemsOf. induction rows as [|x rows IH]; intros H; [reflexivity|].
  cbn [filter].
  destruct (Date_geb (At (date x)) (start b) && Date_leb (At (date x)) (end_ b)) eqn:E.
  - exfalso. apply (H x); [now left | now apply recordIn_test].
  - apply IH. intros t Ht. apply H. now right.
Qed.

Lemma lastItem_snoc (xs : list ProductTrend) (l : ProductTrend) :
  lastItem (xs ++ [l]) = Some l.
Proof.
  unfold lastItem. destruct (xs ++ [l]) as [|y ys] eqn:E.
  - destruct xs; discriminate.
  - rewrite <- E, length_app. cbn [List.length].
    replace (List.length xs + 1 - 1)%nat with (List.length xs) by lia.
    rewrite nth_error_app2 by lia. now rewrite Nat.sub_diag.
Qed.

Lemma lastItem_last (b : Bucket) (rows : list ProductTrend) (l : ProductTrend) :
  lastRecordIn b rows l -> lastItem (itemsOf b rows) = Some l.
Proof.
  intros (earlier & later & -> & Hin & Hno).
  unfold itemsOf. rewrite filter_app. cbn [filter].
  rewrite (proj2 (recordIn_test b l) Hin).
  fold (itemsOf b later). rewrite (itemsOf_none b later Hno).
  apply lastItem_snoc.
Qed.

Lemma record_or_none (b : Bucket) (rows : list ProductTrend) :
  noRecordIn b rows \/ exists l, lastRecordIn b rows l.
Proof.
  induction rows as [|x rows IH].
  - left. intros t [].
  - destruct IH as [Hno | (l & earlier & later & -> & Hin & Hno)].
    + destruct (Date_geb (At (date x)) (start b) && Date_leb (At (date x)) (end_ b))
        eqn:E.
      * right. exists x, [], rows. repeat split; auto. now apply recordIn_test.
      * left. intros t [<- | Ht]; [|now apply Hno].
        intros H. apply recordIn_test in H. congruence.
    + right. exists l, (x :: earlier), later. repeat split; auto.
Qed.

(** The loop on any list of entries: an entry with a total keeps it; an
    entry without one takes the total of the nearest earlier entry that
    has one, and the starting total when there is none. *)
Lemma forwardFill_entry (l : list TrendBucket) :
  forall (lastTotal : option Z) (i : nat) (o : TrendBucket),
    nth_error l i = Some o ->
    exists o',
      nth_error (forwardFill lastTotal l) i = Some o'
      /\ (forall v, tb_totalProducts o = Some v -> tb_totalProducts o' = Some v)
      /\ (tb_totalProducts o = None ->
          (forall j oj v,
              (j < i)%nat -> nth_error l j = Some oj -> tb_totalProducts oj = Some v ->
              (forall k ok, (j < k < i)%nat -> nth_error l k = Some ok ->
                            tb_totalProducts ok = None) ->
              tb_totalProducts o' = Some v)
          /\ ((forall k ok, (k < i)%nat -> nth_error l k = Some ok ->
                            tb_totalProducts ok = None) ->
              tb_totalProducts o' = Some (default0 lastTotal))).
Proof.
  induction l as [|h l IH]; intros lastTotal i o Hn.
  - destruct i; discriminate.
  - destruct i as [|i].
    + cbn [nth_error] in Hn. injection Hn as ->. cbn [forwardFill].
      destruct (tb_totalProducts o) as [w|] eqn:Eo.
      * exists o. cbn [nth_error]. rewrite Eo. repeat split; auto; discriminate.
      * eexists. cbn [nth_error]. split; [reflexivity|]. cbn [tb_totalProducts].
        split; [discriminate|]. intros _. split.
        -- intros j oj v Hj. lia.
        -- intros _. reflexivity.
    + cbn [nth_error] in Hn. cbn [forwardFill].
      destruct (tb_totalProducts h) as [w|] eqn:Eh.
      * destruct (IH (Some w) i o Hn) as (o' & Ho' & Hkeep & Hfill).
        exists o'. cbn [nth_error]. split; [exact Ho'|]. split; [exact Hkeep|].
        intros Hnone. destruct (Hfill Hnone) as (Hnear & Hnone').
        split.
        -- intros j oj v Hj Hoj Hv Hbetween. destruct j as [|j].
           ++ cbn [nth_error] in Hoj. injection Hoj as <-.
              rewrite Eh in Hv. injection Hv as <-.
              apply Hnone'. intros k ok Hk Hok.
              apply (Hbetween (S k) ok); [lia | exact Hok].
           ++ apply (Hnear j oj v); auto; [lia|].
              intros k ok Hk Hok. apply (Hbetween (S k) ok); [lia | exact Hok].
        -- intros Hall. specialize (Hall 0%nat h ltac:(lia) eq_refl). congruence.
      * destruct (IH lastTotal i o Hn) as (o' & Ho' & Hkeep & Hfill).
        exists o'. cbn [nth_error]. split; [exact Ho'|]. split; [exact Hkeep|].
        intros Hnone. destruct (Hfill Hnone) as (Hnear & Hnone').
        split.
        -- intros j oj v Hj Hoj Hv Hbetween. destruct j as [|j].
           ++ cbn [nth_error] in Hoj. injection Hoj as <-. congruence.
           ++ apply (Hnear j oj v); auto; [lia|].
              intros k ok Hk Hok. apply (Hbetween (S k) ok); [lia | exact Hok].
        -- intros Hall. apply Hnone'. intros k ok Hk Hok.
           apply (Hall (S k) ok); [lia | exact Hok].
Qed.

Lemma trendByBucket_entry (bs : list Bucket) (i : nat) :
  nth_error (trendByBucket bs trends) i
  = option_map
      (fun b => {| tb_startDate := fmt (start b);
                   tb_endDate := fmt (end_ b);
                   tb_totalProducts :=
                     match lastItem (itemsOf b trends) with
                     | Some l => Some (totalProducts l)
                     | None => None
                     end;
                   tb_productsAdded := reduceSum productsAdded (itemsOf b trends);
                   tb_productsRemoved := reduceSum productsRemoved (itemsOf b trends) |})
      (nth_error bs i).
Proof. unfold trendByBucket. apply nth_error_map. Qed.

Lemma sorted_before (R : ProductTrend -> ProductTrend -> Prop)
    (earlier later : list ProductTrend) (l : ProductTrend) :
  StronglySorted R (earlier ++ l :: later) -> Forall (fun x => R x l) earlier.
Proof.
  induction earlier as [|x earlier IH]; intros H; [constructor|].
  cbn [app] in H. inversion H as [|? ? Hs Hx]; subst.
  constructor; [|now apply IH].
  rewrite Forall_forall in Hx. apply Hx, in_or_app. right. now left.
Qed.

(** C2.  After the forward fill the output has one element per bucket
    and none with a [null] total.  Every bucket either holds no record
    or has a last record.  The element of a bucket that holds records
    carries the total of the last of them.  The element of a bucket that
    holds none carries the total of the last record of the nearest
    earlier bucket that holds one, and 0 when no earlier bucket holds
    one.  When the records are in ascending order of date, as the query
    asks, the last record of a bucket is its latest: no record of the
    bucket has a later date. *)
Theorem forward_fill_totals (buckets : list Bucket) :
  let out := forwardFill None (trendByBucket buckets trends) in
  List.length out = List.length buckets
  /\ Forall (fun o => exists v, tb_totalProducts o = Some v) out
  /\ (forall b, noRecordIn b trends \/ exists l, lastRecordIn b trends l)
  /\ (forall i b, nth_error buckets i = Some b ->
        exists o,
          nth_error out i = Some o
          /\ (forall l, lastRecordIn b trends l ->
                tb_totalProducts o = Some (totalProducts l))
          /\ (noRecordIn b trends ->
              (forall j b' l,
                  (j < i)%nat -> nth_error buckets j = Some b' ->
                  lastRecordIn b' trends l ->
                  (forall k b'', (j < k < i)%nat -> nth_error buckets k = Some b'' ->
                                 noRecordIn b'' trends) ->
                  tb_totalProducts o = Some (totalProducts l))
              /\ ((forall k b'', (k < i)%nat -> nth_error buckets k = Some b'' ->
                                 noRecordIn b'' trends) ->
                  tb_totalProducts o = Some 0)))
  /\ (StronglySorted (fun x y => date x <= date y) trends ->
      forall b l, lastRecordIn b trends l ->
        forall t, In t trends -> recordIn b t -> date t <= date l).
Proof.
  cbv zeta. split; [|split; [|split; [|split]]].
  - rewrite forwardFill_length. unfold trendByBucket. apply length_map.
  - apply forwardFill_known.
  - intros b. apply record_or_none.
  - intros i b Hnth.
    pose proof (trendByBucket_entry buckets i) as Hentry. rewrite Hnth in Hentry.
    cbn [option_map] in Hentry.
    destruct (forwardFill_entry _ None i _ Hentry) as (o & Ho & Hkeep & Hfill).
    cbn [tb_totalProducts] in Hkeep, Hfill.
    exists o. split; [exact Ho|]. split.
    + intros l Hl. apply Hkeep. now rewrite (lastItem_last b trends l Hl).
    + intros Hno.
      assert (Hnone : match lastItem (itemsOf b trends) with
                      | Some l => Some (totalProducts l)
                      | None => None
                      end = None) by now rewrite (itemsOf_none b trends Hno).
      destruct (Hfill Hnone) as (Hnear & Hzero). split.
      * intros j b' l Hj Hb' Hl Hbetween.
        pose proof (trendByBucket_entry buckets j) as Hj'. rewrite Hb' in Hj'.
        cbn [option_map] in Hj'.
        apply (Hnear j _ (totalProducts l) Hj Hj').
        -- cbn [tb_totalProducts]. now rewrite (lastItem_last b' trends l Hl).
        -- intros k ok Hk Hok. rewrite trendByBucket_entry in Hok.
           destruct (nth_error buckets k) as [b''|] eqn:Ek; [|discriminate].
           cbn [option_map] in Hok. injection Hok as <-. cbn [tb_totalProducts].
           now rewrite (itemsOf_none b'' trends (Hbetween k b'' Hk Ek)).
      * intros Hall. apply Hzero. intros k ok Hk Hok.
        rewrite trendByBucket_entry in Hok.
        destruct (nth_error buckets k) as [b''|] eqn:Ek; [|discriminate].
        cbn [option_map] in Hok. injection Hok as <-. cbn [tb_totalProducts].
        now rewrite (itemsOf_none b'' trends (Hall k b'' Hk Ek)).
  - intros Hs b l (earlier & later & E & Hin & Hno) t Ht Hrec.
    rewrite E in Ht, Hs. apply in_app_or in Ht.
    destruct Ht as [Ht | [<- | Ht]].
    + pose proof (sorted_before _ _ _ _ Hs) as Hb. rewrite Forall_forall in Hb.
      now apply Hb.
    + lia.
    + exfalso. now apply (Hno t).
Qed.

End ForwardFill.

Section Sums.
Import Calendar JS Controller.

Lemma or0_id (x : Z) : or0 x = x.
Proof. unfold or0. destruct (Z.eqb_spec x 0); auto. Qed.

Lemma fold_left_add (A : Type) (g : A -> Z) (l : list A) :
  forall acc, fold_left (fun sum it => sum + g it) l acc = acc + sumZ (map g l).
Proof.
  induction l as [|x l IH]; intros acc; cbn [fold_left map sumZ fold_right]; [lia|].
  rewrite IH. unfold sumZ. lia.
Qed.

Lemma reduceSum_sumZ (f : ProductTrend -> Z) (items : list ProductTrend) :
  reduceSum f items = sumZ (map f items).
Proof.
  unfold reduceSum.
  rewrite (fold_left_add _ (fun it => or0 (f it))). cbn [Z.add].
  f_equal. apply map_ext. intros a. apply or0_id.
Qed.

(** An instant of the tiled interval is in exactly one bucket, and an
    instant before the interval is in none. *)
Lemma tiles_before (bs : list Bucket) :
  forall from to t, tiles from bs to -> t < from ->
    filter (fun b => inBucket b t) bs = [].
Proof.
  induction bs as [|b bs IH]; intros from to t Ht Hlt; cbn [filter]; auto.
  cbn [tiles] in Ht. destruct Ht as (e & Hs & He & Hle & Hrest).
  unfold inBucket, Date_geb. rewrite Hs, He. cbn [Date_leb].
  destruct (Z.leb_spec from t); [lia|]. cbn [andb].
  apply (IH (e + 1) to); auto. lia.
Qed.

Lemma tiles_once (bs : list Bucket) :
  forall from to t, tiles from bs to -> from <= t <= to ->
    List.length (filter (fun b => inBucket b t) bs) = 1%nat.
Proof.
  induction bs as [|b bs IH]; intros from to t Ht Hin; cbn [tiles] in Ht.
  - lia.
  - destruct Ht as (e & Hs & He & Hle & Hrest). cbn [filter].
    unfold inBucket at 1. unfold Date_geb. rewrite Hs, He. cbn [Date_leb].
    destruct (Z.leb_spec from t); [|lia]. cbn [andb].
    destruct (Z.leb_spec t e).
    + cbn [List.length]. now rewrite (tiles_before bs (e + 1) to t Hrest) by lia.
    + apply (IH (e + 1) to); auto. lia.
Qed.

Lemma sumZ_map_add (A : Type) (F G : A -> Z) (l : list A) :
  sumZ (map (fun x => F x + G x) l) = sumZ (map F l) + sumZ (map G l).
Proof.
  induction l as [|x l IH]; cbn [map sumZ fold_right]; [lia|].
  unfold sumZ in *. rewrite IH. lia.
Qed.

Lemma sumZ_indicator (A : Type) (P : A -> bool) (c : Z) (l : list A) :
  sumZ (map (fun x => if P x then c else 0) l)
  = c * Z.of_nat (List.length (filter P l)).
Proof.
  induction l as [|x l IH]; cbn [map sumZ fold_right filter]; [cbn; lia|].
  unfold sumZ in *. rewrite IH. destruct (P x); cbn [List.length]; lia.
Qed.

Lemma sum_over_buckets (A : Type) (when : A -> Z) (g : A -> Z) (bs : list Bucket)
    (rows : list A) (from to : Z) :
  tiles from bs to ->
  Forall (fun r => from <= when r <= to) rows ->
  sumZ (map (fun b => sumZ (map g (filter (fun r => inBucket b (when r)) rows))) bs)
  = sumZ (map g rows).
Proof.
  intros Ht Hall. induction Hall as [|r rows Hr Hall IH].
  - cbn [filter map sumZ fold_right]. clear Ht.
    induction bs as [|b bs IHb]; cbn [map sumZ fold_right]; auto.
  - rewrite (map_ext _
               (fun b => (if inBucket b (when r) then g r else 0)
                         + sumZ (map g (filter (fun r => inBucket b (when r)) rows)))).
    2:{ intros b. cbn [filter]. destruct (inBucket b (when r));
          cbn [map sumZ fold_right]; unfold sumZ; lia. }
    rewrite sumZ_map_add, IH, sumZ_indicator.
    rewrite (tiles_once bs from to (when r) Ht Hr).
    cbn [map sumZ fold_right]. unfold sumZ. lia.
Qed.

(** X6.  With no rows at all, every bucket of the visitors handler counts 0
    and every bucket of the products handler adds and removes 0 and,
    after the forward fill, has total 0. *)
Theorem empty_rows_give_zeros (bs : list Bucket) :
  visitorsByBucket bs []
  = map (fun b => {| vb_startDate := fmt (start b); vb_endDate := fmt (end_ b);
                     vb_visitors := 0 |}) bs
  /\ forwardFill None (trendByBucket bs [])
     = map (fun b => {| tb_startDate := fmt (start b); tb_endDate := fmt (end_ b);
                        tb_totalProducts := Some 0;
                        tb_productsAdded := 0; tb_productsRemoved := 0 |}) bs.
Proof.
  split; [reflexivity|].
  induction bs as [|b bs IH]; [reflexivity|].
  cbn [trendByBucket map forwardFill itemsOf filter lastItem tb_totalProducts].
  unfold trendByBucket in IH. cbn [itemsOf filter lastItem] in IH.
  now rewrite IH.
Qed.

Lemma forwardFill_added (l : list TrendBucket) :
  forall lastTotal,
    map tb_productsAdded (forwardFill lastTotal l) = map tb_productsAdded l
    /\ map tb_productsRemoved (forwardFill lastTotal l) = map tb_productsRemoved l.
Proof.
  induction l as [|b l IH]; intros lastTotal; cbn [forwardFill map]; auto.
  destruct (tb_totalProducts b) as [v|]; cbn [map tb_productsAdded tb_productsRemoved];
    [destruct (IH (Some v)) as [-> ->] | destruct (IH lastTotal) as [-> ->]]; auto.
Qed.

Lemma count_as_sum (A : Type) (P : A -> bool) (l : list A) :
  fold_left (fun acc x => acc + (if P x then 1 else 0)) l 0
  = sumZ (map (fun _ => 1) (filter P l)).
Proof.
  rewrite (fold_left_add _ (fun x => if P x then 1 else 0)). cbn [Z.add].
  induction l as [|x l IH]; cbn [map filter sumZ fold_right]; auto.
  unfold sumZ in *. rewrite IH. destruct (P x); cbn [map fold_right]; lia.
Qed.

Lemma sumZ_ones (A : Type) (l : list A) :
  sumZ (map (fun _ => 1) l) = Z.of_nat (List.length l).
Proof.
  induction l as [|x l IH]; cbn [map sumZ fold_right List.length]; [lia|].
  unfold sumZ in *. rewrite IH. lia.
Qed.

(** Over buckets that tile the range, the per-bucket sums and counts of
    rows that are all in the range add up to the sums and the count
    over the rows. *)
Lemma tiled_sums (bs : list Bucket) (from to : Z) :
  tiles from bs to ->
  (forall trends, Forall (fun t => from <= date t <= to) trends ->
     sumZ (map tb_productsAdded (forwardFill None (trendByBucket bs trends)))
     = sumZ (map productsAdded trends)
     /\ sumZ (map tb_productsRemoved (forwardFill None (trendByBucket bs trends)))
        = sumZ (map productsRemoved trends))
  /\ (forall logs, Forall (fun l => from <= visitedAt l <= to) logs ->
       sumZ (map vb_visitors (visitorsByBucket bs logs))
       = Z.of_nat (List.length logs)).
Proof.
  intros Ht. split.
  - intros trends Hall.
    destruct (forwardFill_added (trendByBucket bs trends) None) as [-> ->].
    unfold trendByBucket. rewrite !map_map.
    cbn [tb_productsAdded tb_productsRemoved].
    split.
    + rewrite (map_ext _ (fun b => sumZ (map productsAdded
                 (filter (fun r => inBucket b (date r)) trends))))
        by (intros b; apply reduceSum_sumZ).
      now apply (sum_over_buckets _ date productsAdded bs trends from to).
    + rewrite (map_ext _ (fun b => sumZ (map productsRemoved
                 (filter (fun r => inBucket b (date r)) trends))))
        by (intros b; apply reduceSum_sumZ).
      now apply (sum_over_buckets _ date productsRemoved bs trends from to).
  - intros logs Hall. unfold visitorsByBucket. rewrite map_map.
    cbn [vb_visitors].
    rewrite (map_ext _ (fun b => sumZ (map (fun _ => 1)
               (filter (fun r => inBucket b (visitedAt r)) logs))))
      by (intros b; apply (count_as_sum _ (fun r => inBucket b (visitedAt r)))).
    rewrite (sum_over_buckets _ visitedAt (fun _ => 1) bs logs from to); auto.
    apply sumZ_ones.
Qed.

End Sums.

(** ** The planner *)

Section Planner.
Import Calendar JS Controller CalendarFacts JSFacts HelperFacts.

Variable Number : string -> num.

Lemma clockValue_okDay (now : Z) (k : Z) :
  clockValue now -> 0 <= k <= 100 -> okDay (Day now - k).
Proof.
  unfold clockValue, okDay, Day, maxTime, msPerDay.
  change (DayFromYear 100) with (-683003). intros H Hk. divlia.
Qed.

(** C8.  With no [startDate], no [endDate] and no [bucket] in the query,
    and the clock anywhere from the epoch to the last time value, the
    planner returns exactly seven buckets, one per UTC day, from six days
    before today to today; the last one contains [now]. *)
Theorem default_day_window (now : Z) (q : Query) (fuel : nat) :
  clockValue now ->
  q_startDate q = None -> q_endDate q = None -> q_bucket q = None ->
  (8 <= fuel)%nat ->
  let today := Day now in
  buildBuckets Number fuel now (q_startDate q) (q_endDate q) (bucketOf q)
  = Some {| rangeStart := At ((today - 6) * msPerDay);
            rangeEnd := At (today * msPerDay + 86399999);
            buckets := map dayBucket
                         [today - 6; today - 5; today - 4; today - 3;
                          today - 2; today - 1; today] |}
  /\ today * msPerDay <= now <= today * msPerDay + 86399999.
Proof.
  intros Hnow Hs He Hb Hfuel today.
  split.
  2:{ subst today. unfold Day, msPerDay. divlia. }
  unfold bucketOf. rewrite Hs, He, Hb.
  unfold buildBuckets, boundaries.
  cbn [toUTCDateOnly String.eqb Ascii.eqb Bool.eqb].
  pose proof (clockValue_okDay now 0 Hnow ltac:(lia)) as H0.
  pose proof (clockValue_okDay now 6 Hnow ltac:(lia)) as H6.
  rewrite Z.sub_0_r in H0. fold today in H0, H6.
  rewrite (startOfDayUTC_ok now) by auto. fold today.
  rewrite setUTCDate_minus.
  replace (today * msPerDay - 6 * msPerDay) with ((today - 6) * msPerDay) by lia.
  rewrite TimeClip_inRange by (apply okDay_inRange0; auto).
  rewrite (startOfDayUTC_ok ((today - 6) * msPerDay)) by (rewrite Day_mul; auto).
  rewrite Day_mul.
  rewrite (startOfDayUTC_ok ((today - 6) * msPerDay)) by (rewrite Day_mul; auto).
  rewrite Day_mul.
  rewrite (endOfDayUTC_ok (today * msPerDay)) by (rewrite Day_mul; auto).
  rewrite Day_mul.
  replace (today * msPerDay + 86399999)
    with ((today - 6 + Z.of_nat 7) * msPerDay - 1) by (unfold msPerDay; lia).
  rewrite enumerate_days; try lia.
  - cbn [app daysFrom]. do 4 f_equal.
    repeat (f_equal; try lia).
  - unfold okDay in H6. lia.
  - unfold okDay in H0. lia.
Qed.

(** The advance step that [boundaries] chooses moves every cursor
    forward. *)
Lemma advance_increases (now : Z) (startDate endDate : option string)
    (bucket : string) (c d : Z) :
  snd (boundaries Number now startDate endDate bucket) (At c) = At d -> c < d.
Proof.
  unfold boundaries.
  destruct (String.eqb bucket "month"); [|destruct (String.eqb bucket "week")];
    cbn [snd]; intros H.
  - now apply addMonthsUTC_increases.
  - apply addDaysUTC_increases with (k := 7); auto. lia.
  - apply addDaysUTC_increases with (k := 1); auto. lia.
Qed.

Lemma buildBuckets_returns (now : Z) (startDate endDate : option string)
    (bucket : string) :
  exists fuel plan,
    forall fuel', (fuel <= fuel')%nat ->
      buildBuckets Number fuel' now startDate endDate bucket = Some plan.
Proof.
  pose proof (advance_increases now startDate endDate bucket) as Hadv.
  unfold buildBuckets.
  destruct (boundaries Number now startDate endDate bucket) as [[[rs re] mk] adv].
  cbn [snd] in Hadv.
  destruct (enumerate_returns mk adv re rs [] Hadv) as (fuel & bs & Hbs).
  exists fuel. eexists. intros fuel' Hle.
  now rewrite (enumerate_more_fuel mk adv re fuel fuel' rs [] bs Hbs Hle).
Qed.

(** C9.  [buildBuckets] returns on every input: whatever the two date
    strings, the bucket string, the clock and the string-to-number
    conversion, each advance step strictly increases the cursor, and
    there is an amount of fuel from which on the loop returns the same
    plan. *)
Theorem buildBuckets_total (now : Z) (startDate endDate : option string)
    (bucket : string) :
  (forall c d,
      snd (boundaries Number now startDate endDate bucket) (At c) = At d -> c < d)
  /\ exists fuel plan,
      forall fuel', (fuel <= fuel')%nat ->
        buildBuckets Number fuel' now startDate endDate bucket = Some plan.
Proof.
  split; [apply advance_increases | apply buildBuckets_returns].
Qed.

(** C10.  When the normalised end is before the normalised start, the
    loop body never runs: with any positive fuel [buildBuckets] returns
    the two boundaries and no bucket, and each handler, once its queries
    are answered, sends a normal body whose sequence is empty. *)
Theorem inverted_range_is_empty (now : Z) (startDate endDate : option string)
    (bucket : string) (rs re : Z) (mk : Date -> Bucket) (adv : Date -> Date)
    (fuel : nat) :
  boundaries Number now startDate endDate bucket = (At rs, At re, mk, adv) ->
  re < rs ->
  buildBuckets Number (S fuel) now startDate endDate bucket
  = Some {| rangeStart := At rs; rangeEnd := At re; buckets := [] |}
  /\ (forall q findMany count trends total,
        q_startDate q = startDate -> q_endDate q = endDate -> bucketOf q = bucket ->
        findMany (At rs) (At re) = Some trends -> count = Some total ->
        getDashboardProductsHandler Number (S fuel) now q findMany count
        = Some (Json {| currentTotal := total; trend := [] |}))
  /\ (forall q findMany logs,
        q_startDate q = startDate -> q_endDate q = endDate -> bucketOf q = bucket ->
        findMany (At rs) (At re) = Some logs ->
        getDashboardVisitorsHandler Number (S fuel) now q findMany
        = Some (Json {| totalVisitors := Z.of_nat (List.length logs);
                        visitorsByBucket_ := [] |})).
Proof.
  intros Hb Hlt.
  assert (Hplan : buildBuckets Number (S fuel) now startDate endDate bucket
                  = Some {| rangeStart := At rs; rangeEnd := At re; buckets := [] |}).
  { unfold buildBuckets. rewrite Hb. cbn [enumerate Date_leb].
    destruct (Z.leb_spec rs re); [lia | reflexivity]. }
  split; [exact Hplan|]. split.
  - intros q findMany count trends total Hs He Hq Hf Hc.
    unfold getDashboardProductsHandler. rewrite Hs, He, Hq, Hplan.
    cbn [rangeStart rangeEnd buckets]. rewrite Hf, Hc. reflexivity.
  - intros q findMany logs Hs He Hq Hf.
    unfold getDashboardVisitorsHandler. rewrite Hs, He, Hq, Hplan.
    cbn [rangeStart rangeEnd buckets]. rewrite Hf. reflexivity.
Qed.

Lemma boundaries_ordered (now : Z) (startDate endDate : option string)
    (bucket : string) (e : Z) :
  match toUTCDateOnly Number endDate with
  | Some d => d
  | None => startOfDayUTC (At now)
  end = At e ->
  modern e ->
  (toUTCDateOnly Number startDate = None
   \/ exists s, toUTCDateOnly Number startDate = Some (At s) /\ modern s /\ s <= e) ->
  exists rs re mk adv,
    boundaries Number now startDate endDate bucket = (At rs, At re, mk, adv)
    /\ rs <= re.
Proof.
  intros He Hme Hs. unfold boundaries. rewrite He.
  pose proof (modern_Day e Hme) as Hde.
  change (DayFromYear 101) with (-682638) in Hde.
  assert (Hoke : okDay (Day e)).
  { unfold okDay. change (DayFromYear 100) with (-683003).
    change (DayFromYear 275760) with 99999744 in Hde. lia. }
  destruct (snapDay_bounds e Hoke) as (dr & dr' & _ & Ed' & Hd & _).
  destruct (snapWeek_bounds e) as (wr & wr' & _ & Ew' & Hw & _).
  { unfold okDay. change (DayFromYear 100) with (-683003).
    change (DayFromYear 275760) with 99999744 in Hde. lia. }
  { change (DayFromYear 275760) with 99999744 in Hde. lia. }
  destruct (snapMonth_bounds e Hoke ltac:(lia)) as (mr & mr' & _ & Em' & Hm & _).
  rewrite Ed', Ew', Em'.
  destruct Hs as [Hn | (s & Hs & Hms & Hle)].
  - rewrite Hn.
    destruct (String.eqb bucket "month"); [|destruct (String.eqb bucket "week")].
    + rewrite setUTCMonth_back5.
      pose proof (five_months_back (Day e)) as H5.
      fold (YearFromTime e) (MonthFromTime e) (DateFromTime e) in H5.
      pose proof (TimeWithinDay_range e) as Hw0.
      set (tmp := MakeDayZ (YearFromTime e) (MonthFromTime e - 5) (DateFromTime e)
                  * msPerDay + TimeWithinDay e) in *.
      assert (Htd : Day tmp
                    = MakeDayZ (YearFromTime e) (MonthFromTime e - 5) (DateFromTime e)).
      { subst tmp. now apply Day_mul_add. }
      assert (Hokt : okDay (Day tmp)).
      { rewrite Htd. unfold okDay in *. change (DayFromYear 100) with (-683003) in *. lia. }
      rewrite TimeClip_inRange
        by (subst tmp; apply okDay_inRange; [rewrite <- Htd|]; auto).
      destruct (snapMonth_bounds tmp Hokt ltac:(rewrite Htd; lia))
        as (r & r' & Er & _ & Hr & Err).
      rewrite Er, Err. do 4 eexists. split; [reflexivity|].
      pose proof (Day_decompose e). pose proof (Day_decompose tmp).
      pose proof (TimeWithinDay_range tmp).
      rewrite Htd in *. unfold msPerDay in *. lia.
    + rewrite setUTCDate_minus.
      assert (Htd : Day (e - 7 * 11 * msPerDay) = Day e - 77).
      { unfold Day, msPerDay. divlia. }
      assert (Hokt : okDay (Day (e - 7 * 11 * msPerDay))).
      { rewrite Htd. unfold okDay in *. change (DayFromYear 100) with (-683003) in *. lia. }
      rewrite TimeClip_inRange.
      2:{ rewrite (Day_decompose (e - 7 * 11 * msPerDay)).
          apply okDay_inRange; auto. apply TimeWithinDay_range. }
      destruct (snapWeek_bounds (e - 7 * 11 * msPerDay))
        as (r & r' & Er & _ & Hr & Err).
      { rewrite Htd. unfold okDay in *. change (DayFromYear 100) with (-683003) in *. lia. }
      { rewrite Htd. change (DayFromYear 275760) with 99999744 in Hde. lia. }
      rewrite Er, Err. do 4 eexists. split; [reflexivity|].
      unfold msPerDay in *. lia.
    + rewrite setUTCDate_minus.
      assert (Htd : Day (e - 6 * msPerDay) = Day e - 6).
      { unfold Day, msPerDay. divlia. }
      assert (Hokt : okDay (Day (e - 6 * msPerDay))).
      { rewrite Htd. unfold okDay in *. change (DayFromYear 100) with (-683003) in *. lia. }
      rewrite TimeClip_inRange.
      2:{ rewrite (Day_decompose (e - 6 * msPerDay)).
          apply okDay_inRange; auto. apply TimeWithinDay_range. }
      destruct (snapDay_bounds (e - 6 * msPerDay) Hokt)
        as (r & r' & Er & _ & Hr & Err).
      rewrite Er, Err. do 4 eexists. split; [reflexivity|].
      unfold msPerDay in *. lia.
  - rewrite Hs.
    pose proof (modern_Day s Hms) as Hds.
    change (DayFromYear 101) with (-682638) in Hds.
    change (DayFromYear 275760) with 99999744 in Hds, Hde.
    assert (Hoks : okDay (Day s)).
    { unfold okDay. change (DayFromYear 100) with (-683003). lia. }
    destruct (String.eqb bucket "month"); [|destruct (String.eqb bucket "week")].
    + destruct (snapMonth_bounds s Hoks) as (r & r' & Er & _ & Hr & _).
      { change (DayFromYear 275760) with 99999744. lia. }
      rewrite Er. do 4 eexists. split; [reflexivity|]. lia.
    + destruct (snapWeek_bounds s) as (r & r' & Er & _ & Hr & _).
      { unfold okDay. change (DayFromYear 100) with (-683003). lia. }
      { lia. }
      rewrite Er. do 4 eexists. split; [reflexivity|]. lia.
    + destruct (snapDay_bounds s Hoks) as (r & r' & Er & _ & Hr & _).
      rewrite Er. do 4 eexists. split; [reflexivity|]. lia.
Qed.

Lemma boundaries_edges (now : Z) (startDate endDate : option string)
    (bucket : string) (s e : Z) :
  toUTCDateOnly Number startDate = Some (At s) ->
  match toUTCDateOnly Number endDate with
  | Some d => d
  | None => startOfDayUTC (At now)
  end = At e ->
  modern s -> modern e ->
  let E := edgesOf bucket in
  let a := edgeIndex bucket s in
  let b := edgeIndex bucket e in
  (forall i j, i < j -> E i < E j)
  /\ exists mk adv,
       boundaries Number now startDate endDate bucket
       = (At (E a * msPerDay), At (E (b + 1) * msPerDay - 1), mk, adv).
Proof.
  intros Hs He Hms Hme.
  pose proof (modern_Day s Hms) as Hds. pose proof (modern_Day e Hme) as Hde.
  change (DayFromYear 101) with (-682638) in Hds, Hde.
  change (DayFromYear 275760) with 99999744 in Hds, Hde.
  assert (Hoks : okDay (Day s))
    by (unfold okDay; change (DayFromYear 100) with (-683003); lia).
  assert (Hoke : okDay (Day e))
    by (unfold okDay; change (DayFromYear 100) with (-683003); lia).
  unfold edgesOf, edgeIndex, boundaries. rewrite Hs, He.
  destruct (String.eqb bucket "month") eqn:Em;
    [|destruct (String.eqb bucket "week") eqn:Ew]; cbv zeta.
  - split; [apply monthEdge_lt|]. do 2 eexists.
    rewrite startOfMonthUTC_ok by auto.
    rewrite endOfMonthUTC_ok
      by (auto; apply endOfMonth_in_range;
          change (DayFromYear 275760) with 99999744; lia).
    rewrite !firstOfMonth_is_edge.
    replace (12 * YearFromTime e + (MonthFromTime e + 1))
      with (12 * YearFromTime e + MonthFromTime e + 1) by lia.
    reflexivity.
  - split; [intros i j Hij; unfold weekEdge; lia|]. do 2 eexists.
    pose proof (isoMonday_le (Day s)). pose proof (isoMonday_le (Day e)).
    rewrite startOfISOWeekUTC_ok
      by (try lia; unfold okDay; change (DayFromYear 100) with (-683003); lia).
    rewrite endOfISOWeekUTC_ok
      by (try lia; unfold okDay; change (DayFromYear 100) with (-683003); lia).
    rewrite !isoMonday_is_edge.
    replace (weekEdge ((Day e + 3) / 7) + 7) with (weekEdge ((Day e + 3) / 7 + 1))
      by (unfold weekEdge; lia).
    reflexivity.
  - split; [intros i j Hij; unfold dayEdge; lia|]. do 2 eexists.
    rewrite startOfDayUTC_ok, endOfDayUTC_ok by auto.
    unfold dayEdge.
    replace (Day e * msPerDay + 86399999) with ((Day e + 1) * msPerDay - 1)
      by (unfold msPerDay; lia).
    reflexivity.
Qed.

Lemma edges_ordered_iff (E : Z -> Z) (a b : Z) :
  (forall i j, i < j -> E i < E j) ->
  (E a * msPerDay <= E (b + 1) * msPerDay - 1 <-> a <= b).
Proof.
  intros Hmono. split.
  - intros H. destruct (Z_le_gt_dec a b) as [|Hgt]; auto. exfalso.
    assert (E (b + 1) <= E a).
    { destruct (Z.eq_dec (b + 1) a) as [-> | Hne]; [lia|].
      pose proof (Hmono (b + 1) a). lia. }
    unfold msPerDay in H. lia.
  - intros H. pose proof (Hmono a (b + 1) ltac:(lia)). unfold msPerDay. lia.
Qed.

(** C5, as amended.  The end date in effect (the parsed [endDate], or
    today) is an instant of the years 101 to 275759.  When [startDate] is
    absent or unreadable, so that the start is derived from that end,
    every plan has its [rangeStart] at most its [rangeEnd].  When
    [startDate] is read as an instant of those years, [rangeStart] is
    at most [rangeEnd] exactly when the bucket that contains the start
    date is not later than the bucket that contains the end date; this
    is so whenever the start date is not after the end date.  The dates
    are neither exchanged nor refused: a start date in a later bucket
    than the end date gives a [rangeStart] after the [rangeEnd].
    [buildBuckets] returns in every case. *)
Theorem range_ordered (now : Z) (startDate endDate : option string)
    (bucket : string) (e : Z) :
  match toUTCDateOnly Number endDate with
  | Some d => d
  | None => startOfDayUTC (At now)
  end = At e ->
  modern e ->
  (toUTCDateOnly Number startDate = None
   \/ exists s, toUTCDateOnly Number startDate = Some (At s) /\ modern s) ->
  (exists fuel plan,
     buildBuckets Number fuel now startDate endDate bucket = Some plan)
  /\ (forall fuel plan,
        buildBuckets Number fuel now startDate endDate bucket = Some plan ->
        exists rs re,
          rangeStart plan = At rs /\ rangeEnd plan = At re
          /\ (toUTCDateOnly Number startDate = None -> rs <= re)
          /\ (forall s, toUTCDateOnly Number startDate = Some (At s) ->
                (rs <= re <-> edgeIndex bucket s <= edgeIndex bucket e)
                /\ (s <= e -> rs <= re)
                /\ (edgeIndex bucket e < edgeIndex bucket s -> re < rs))).
Proof.
  intros He Hme Hs. split.
  - destruct (buildBuckets_returns now startDate endDate bucket)
      as (fuel & plan & Hp).
    exists fuel, plan. apply Hp. apply Nat.le_refl.
  - intros fuel plan Hp.
    assert (Hplan : forall rs re mk adv,
               boundaries Number now startDate endDate bucket = (rs, re, mk, adv) ->
               rangeStart plan = rs /\ rangeEnd plan = re).
    { intros rs re mk adv Hb. unfold buildBuckets in Hp. rewrite Hb in Hp.
      destruct (enumerate fuel mk adv re rs []); [|discriminate].
      injection Hp as <-. auto. }
    destruct Hs as [Hnone | (s & Hsome & Hms)].
    + destruct (boundaries_ordered now startDate endDate bucket e He Hme
                  (or_introl Hnone)) as (rs & re & mk & adv & Hb & Hle).
      destruct (Hplan _ _ _ _ Hb) as (-> & ->).
      exists rs, re. repeat split; auto; rewrite Hnone in *; discriminate.
    + destruct (boundaries_edges now startDate endDate bucket s e Hsome He Hms Hme)
        as (Hmono & mk & adv & Hb).
      destruct (Hplan _ _ _ _ Hb) as (-> & ->).
      do 2 eexists. split; [reflexivity|]. split; [reflexivity|].
      split; [rewrite Hsome; discriminate|].
      intros s' Hs'. rewrite Hsome in Hs'. injection Hs' as <-.
      pose proof (edges_ordered_iff _ (edgeIndex bucket s) (edgeIndex bucket e) Hmono)
        as Hiff.
      split; [exact Hiff|]. split.
      * intros Hse.
        destruct (boundaries_ordered now startDate endDate bucket e He Hme
                    (or_intror (ex_intro _ s (conj Hsome (conj Hms Hse)))))
          as (rs & re & mk' & adv' & Hb' & Hle).
        rewrite Hb in Hb'. injection Hb' as <- <- _ _. exact Hle.
      * intros Hlt.
        destruct (Z_le_gt_dec (edgesOf bucket (edgeIndex bucket s) * msPerDay)
                    (edgesOf bucket (edgeIndex bucket e + 1) * msPerDay - 1))
          as [Hle | Hgt]; [|lia].
        apply Hiff in Hle. lia.
Qed.

(** C4, as amended.  [toUTCDateOnly] returns [null] exactly when the
    parameter is absent or empty, or one of the first three fields
    between dashes is missing or converts to 0 or to NaN.  It checks
    neither the number of digits nor the ranges of the month and the day,
    and it ignores whatever follows the third field.  A [null] date is
    treated as an absent one: [buildBuckets] gives the same result as
    without the parameter, for the start date and for the end date. *)
Theorem toUTCDateOnly_null (dateStr : option string) :
  (toUTCDateOnly Number dateStr = None
   <-> (dateStr = None \/ dateStr = Some EmptyString
        \/ exists s i, dateStr = Some s /\ (i < 3)%nat
             /\ truthy_elem (nth_error (map Number (split "-" s)) i) = false))
  /\ (toUTCDateOnly Number dateStr = None ->
      forall fuel now other bucket,
        buildBuckets Number fuel now dateStr other bucket
        = buildBuckets Number fuel now None other bucket
        /\ buildBuckets Number fuel now other dateStr bucket
          = buildBuckets Number fuel now other None bucket).
Proof.
  split.
  - split.
    + intros H. destruct dateStr as [s|]; auto. destruct s as [|c s]; auto.
      right; right. exists (String c s).
      unfold toUTCDateOnly in H. cbv zeta in H.
      set (parts := map Number (split "-" (String c s))) in *.
      destruct (truthy_elem (nth_error parts 0)) eqn:E0;
        [|exists 0%nat; split; [reflexivity | split; [lia | assumption]]].
      destruct (truthy_elem (nth_error parts 1)) eqn:E1;
        [|exists 1%nat; split; [reflexivity | split; [lia | assumption]]].
      destruct (truthy_elem (nth_error parts 2)) eqn:E2;
        [|exists 2%nat; split; [reflexivity | split; [lia | assumption]]].
      cbn [negb orb] in H.
      destruct (nth_error parts 0), (nth_error parts 1), (nth_error parts 2);
        discriminate.
    + intros [-> | [-> | (s & i & -> & Hi & Hf)]]; auto.
      destruct s as [|c s]; auto.
      unfold toUTCDateOnly. cbv zeta.
      set (parts := map Number (split "-" (String c s))) in *.
      assert (Hor : negb (truthy_elem (nth_error parts 0))
                    || negb (truthy_elem (nth_error parts 1))
                    || negb (truthy_elem (nth_error parts 2)) = true).
      { destruct i as [|[|[|i]]]; [| | |lia]; rewrite Hf;
          repeat match goal with
                 | |- context [truthy_elem ?x] => destruct (truthy_elem x)
                 end; reflexivity. }
      now rewrite Hor.
  - intros H fuel now other bucket.
    unfold buildBuckets, boundaries. rewrite H.
    split; reflexivity.
Qed.

Lemma supplied_plan_tiled (now : Z) (startDate endDate : option string)
    (bucket : string) (s e : Z) :
  toUTCDateOnly Number startDate = Some (At s) ->
  toUTCDateOnly Number endDate = Some (At e) ->
  modern s -> modern e ->
  exists rs re mk adv,
    boundaries Number now startDate endDate bucket = (At rs, At re, mk, adv)
    /\ (rs <= re ->
        exists fuel bs,
          (forall fuel', (fuel <= fuel')%nat ->
             buildBuckets Number fuel' now startDate endDate bucket
             = Some {| rangeStart := At rs; rangeEnd := At re; buckets := bs |})
          /\ bs <> [] /\ tiles rs bs re).
Proof.
  intros Hs He Hms Hme.
  pose proof (modern_Day s Hms) as Hds. pose proof (modern_Day e Hme) as Hde.
  change (DayFromYear 101) with (-682638) in Hds, Hde.
  change (DayFromYear 275760) with 99999744 in Hds, Hde.
  assert (Hoks : okDay (Day s))
    by (unfold okDay; change (DayFromYear 100) with (-683003); lia).
  assert (Hoke : okDay (Day e))
    by (unfold okDay; change (DayFromYear 100) with (-683003); lia).
  assert (Hfinish :
    forall (E : Z -> Z) mk adv a b,
      boundaries Number now startDate endDate bucket
      = (At (E a * msPerDay), At (E (b + 1) * msPerDay - 1), mk, adv) ->
      (forall i j, i < j -> E i < E j) ->
      (forall i, a <= i <= b ->
         mk (At (E i * msPerDay)) = edgeBucket E i
         /\ adv (At (E i * msPerDay)) = TimeClip (Some (E (i + 1) * msPerDay))
         /\ E i < E (i + 1) /\ inRange (E i * msPerDay)) ->
      exists rs re mk adv,
        boundaries Number now startDate endDate bucket = (At rs, At re, mk, adv)
        /\ (rs <= re ->
            exists fuel bs,
              (forall fuel', (fuel <= fuel')%nat ->
                 buildBuckets Number fuel' now startDate endDate bucket
                 = Some {| rangeStart := At rs; rangeEnd := At re; buckets := bs |})
              /\ bs <> [] /\ tiles rs bs re)).
  { intros E mk adv a b Hb Hmono Hedges.
    do 4 eexists. split; [exact Hb|]. intros Hle.
    assert (Hab : a <= b).
    { destruct (Z.le_gt_cases a b) as [|Hgt]; auto. exfalso.
      assert (E (b + 1) <= E a).
      { destruct (Z.eq_dec (b + 1) a) as [-> | Hne]; [lia|].
        pose proof (Hmono (b + 1) a). lia. }
      unfold msPerDay in Hle. lia. }
    exists (S (Z.to_nat (b + 1 - a))).
    destruct (enumerate_tiled E mk adv a b (S (Z.to_nat (b + 1 - a))) Hab Hedges
                ltac:(lia)) as (bs & Hen & Hne & Ht).
    exists bs. split; [|split]; auto.
    intros fuel' Hf. unfold buildBuckets. rewrite Hb.
    now rewrite (enumerate_more_fuel _ _ _ _ fuel' _ _ _ Hen Hf). }
  destruct (String.eqb bucket "month") eqn:Em;
    [|destruct (String.eqb bucket "week") eqn:Ew].
  - eapply Hfinish with (E := monthEdge)
                         (a := 12 * YearFromTime s + MonthFromTime s)
                         (b := 12 * YearFromTime e + MonthFromTime e).
    + unfold boundaries. rewrite Hs, He, Em.
      rewrite startOfMonthUTC_ok by auto.
      rewrite endOfMonthUTC_ok
        by (auto; apply endOfMonth_in_range;
            change (DayFromYear 275760) with 99999744; lia).
      rewrite !firstOfMonth_is_edge.
      replace (12 * YearFromTime e + (MonthFromTime e + 1))
        with (12 * YearFromTime e + MonthFromTime e + 1) by lia.
      reflexivity.
    + apply monthEdge_lt.
    + intros i Hi.
      pose proof (firstOfMonth_okDay (Day s) Hoks) as Hlo.
      pose proof (endOfMonth_in_range (Day e)
                    ltac:(change (DayFromYear 275760) with 99999744; lia)) as Hhi.
      rewrite firstOfMonth_is_edge in Hlo, Hhi.
      fold (YearFromTime s) (MonthFromTime s) in Hlo.
      fold (YearFromTime e) (MonthFromTime e) in Hhi.
      replace (12 * YearFromTime e + (MonthFromTime e + 1))
        with (12 * YearFromTime e + MonthFromTime e + 1) in Hhi by lia.
      assert (monthEdge (12 * YearFromTime s + MonthFromTime s) <= monthEdge i).
      { destruct (Z.eq_dec (12 * YearFromTime s + MonthFromTime s) i) as [-> | Hne];
          [lia|].
        pose proof (monthEdge_lt (12 * YearFromTime s + MonthFromTime s) i). lia. }
      assert (monthEdge (i + 1)
              <= monthEdge (12 * YearFromTime e + MonthFromTime e + 1)).
      { destruct (Z.eq_dec (i + 1) (12 * YearFromTime e + MonthFromTime e + 1))
          as [-> | Hne]; [lia|].
        pose proof (monthEdge_lt (i + 1) (12 * YearFromTime e + MonthFromTime e + 1)).
        lia. }
      pose proof (monthEdge_step i).
      apply month_edges; [|lia]. unfold okDay in *. lia.
  - eapply Hfinish with (E := weekEdge) (a := (Day s + 3) / 7) (b := (Day e + 3) / 7).
    + unfold boundaries. rewrite Hs, He, Em, Ew.
      pose proof (isoMonday_le (Day s)). pose proof (isoMonday_le (Day e)).
      rewrite startOfISOWeekUTC_ok
        by (try lia; unfold okDay; change (DayFromYear 100) with (-683003); lia).
      rewrite endOfISOWeekUTC_ok
        by (try lia; unfold okDay; change (DayFromYear 100) with (-683003); lia).
      rewrite !isoMonday_is_edge.
      replace (weekEdge ((Day e + 3) / 7) + 7) with (weekEdge ((Day e + 3) / 7 + 1))
        by (unfold weekEdge; lia).
      reflexivity.
    + intros i j Hij. unfold weekEdge. lia.
    + intros i Hi.
      pose proof (isoMonday_le (Day s)) as H1. pose proof (isoMonday_le (Day e)) as H2.
      rewrite isoMonday_is_edge in H1, H2.
      apply week_edges.
      * unfold okDay, weekEdge in *. change (DayFromYear 100) with (-683003) in *. lia.
      * unfold weekEdge in *. lia.
  - eapply Hfinish with (E := dayEdge) (a := Day s) (b := Day e).
    + unfold boundaries. rewrite Hs, He, Em, Ew.
      rewrite startOfDayUTC_ok, endOfDayUTC_ok by auto.
      unfold dayEdge.
      replace (Day e * msPerDay + 86399999) with ((Day e + 1) * msPerDay - 1)
        by (unfold msPerDay; lia).
      reflexivity.
    + intros i j Hij. unfold dayEdge. lia.
    + intros i Hi. apply day_edges.
      unfold okDay in *. lia.
Qed.

(** X1.  When both dates are supplied and read as instants of the years
    101 to 275759, the plan cuts the normalised range into buckets: with the
    normalised start not after the normalised end, the list of buckets
    is not empty and tiles the interval from [rangeStart] to [rangeEnd];
    each bucket ends one millisecond before the next one starts. *)
Theorem supplied_range_is_tiled (now : Z) (startDate endDate : option string)
    (bucket : string) (s e : Z) :
  toUTCDateOnly Number startDate = Some (At s) ->
  toUTCDateOnly Number endDate = Some (At e) ->
  modern s -> modern e ->
  exists rs re mk adv,
    boundaries Number now startDate endDate bucket = (At rs, At re, mk, adv)
    /\ (rs <= re ->
        exists fuel bs,
          (forall fuel', (fuel <= fuel')%nat ->
             buildBuckets Number fuel' now startDate endDate bucket
             = Some {| rangeStart := At rs; rangeEnd := At re; buckets := bs |})
          /\ bs <> [] /\ tiles rs bs re).
Proof. apply supplied_plan_tiled. Qed.

Lemma buildBuckets_more_fuel (now : Z) (startDate endDate : option string)
    (bucket : string) (fuel fuel' : nat) (plan : Plan) :
  buildBuckets Number fuel now startDate endDate bucket = Some plan ->
  (fuel <= fuel')%nat ->
  buildBuckets Number fuel' now startDate endDate bucket = Some plan.
Proof.
  unfold buildBuckets.
  destruct (boundaries Number now startDate endDate bucket) as [[[rs re] mk] adv].
  destruct (enumerate fuel mk adv re rs []) as [bs|] eqn:E; [|discriminate].
  intros H Hle. now rewrite (enumerate_more_fuel _ _ _ _ fuel' _ _ _ E Hle).
Qed.

(** X2.  When both dates are supplied and read as instants of the years
    101 to 275759, every plan that [buildBuckets] returns makes the
    per-bucket figures add up: for rows that are all within the range,
    the products added and removed per bucket sum to those of the rows,
    and the visitors per bucket sum to the number of rows. *)
Theorem supplied_range_sums (now : Z) (startDate endDate : option string)
    (bucket : string) (s e : Z) (fuel : nat) (plan : Plan) :
  toUTCDateOnly Number startDate = Some (At s) ->
  toUTCDateOnly Number endDate = Some (At e) ->
  modern s -> modern e ->
  buildBuckets Number fuel now startDate endDate bucket = Some plan ->
  exists rs re,
    rangeStart plan = At rs /\ rangeEnd plan = At re
    /\ (forall trends, Forall (fun t => rs <= date t <= re) trends ->
         sumZ (map tb_productsAdded
                 (forwardFill None (trendByBucket (buckets plan) trends)))
         = sumZ (map productsAdded trends)
         /\ sumZ (map tb_productsRemoved
                    (forwardFill None (trendByBucket (buckets plan) trends)))
            = sumZ (map productsRemoved trends))
    /\ (forall logs, Forall (fun l => rs <= visitedAt l <= re) logs ->
         sumZ (map vb_visitors (visitorsByBucket (buckets plan) logs))
         = Z.of_nat (List.length logs)).
Proof.
  intros Hs He Hms Hme Hplan.
  destruct (supplied_plan_tiled now startDate endDate bucket s e Hs He Hms Hme)
    as (rs & re & mk & adv & Hb & Htile).
  exists rs, re.
  destruct (Z.le_gt_cases rs re) as [Hle | Hgt].
  - destruct (Htile Hle) as (fuel0 & bs & Hall & _ & Ht).
    pose proof (buildBuckets_more_fuel now startDate endDate bucket fuel
                  (Nat.max fuel fuel0) plan Hplan (Nat.le_max_l _ _)) as H1.
    rewrite (Hall (Nat.max fuel fuel0) (Nat.le_max_r _ _)) in H1.
    injection H1 as <-. cbn [rangeStart rangeEnd buckets].
    split; auto. split; auto. apply (tiled_sums bs rs re Ht).
  - unfold buildBuckets in Hplan. rewrite Hb in Hplan.
    destruct fuel as [|fuel]; [discriminate|]. cbn [enumerate Date_leb] in Hplan.
    destruct (Z.leb_spec rs re); [lia|]. injection Hplan as <-.
    cbn [rangeStart rangeEnd buckets]. split; auto. split; auto. split.
    + intros trends Hall. destruct trends as [|t trends]; [split; reflexivity|].
      inversion Hall; subst. lia.
    + intros logs Hall. destruct logs as [|l logs]; [reflexivity|].
      inversion Hall; subst. lia.
Qed.

(** X3.  On the instants of the years 101 to 275759 each of the six
    normalising helpers gives, applied to its own result, that result
    again. *)
Theorem helpers_idempotent_modern (t : Z) :
  modern t ->
  startOfDayUTC (startOfDayUTC (At t)) = startOfDayUTC (At t)
  /\ endOfDayUTC (endOfDayUTC (At t)) = endOfDayUTC (At t)
  /\ startOfISOWeekUTC (startOfISOWeekUTC (At t)) = startOfISOWeekUTC (At t)
  /\ endOfISOWeekUTC (endOfISOWeekUTC (At t)) = endOfISOWeekUTC (At t)
  /\ startOfMonthUTC (startOfMonthUTC (At t)) = startOfMonthUTC (At t)
  /\ endOfMonthUTC (endOfMonthUTC (At t)) = endOfMonthUTC (At t).
Proof.
  intros Hm. pose proof (modern_Day t Hm) as Hd.
  change (DayFromYear 101) with (-682638) in Hd.
  change (DayFromYear 275760) with 99999744 in Hd.
  assert (Hok : okDay (Day t))
    by (unfold okDay; change (DayFromYear 100) with (-683003); lia).
  pose proof (isoMonday_le (Day t)) as Hmon.
  assert (Hokm : okDay (isoMonday (Day t)))
    by (unfold okDay; change (DayFromYear 100) with (-683003); lia).
  destruct (snapDay_bounds t Hok) as (r1 & r1' & E1 & _ & _ & I1).
  destruct (snapWeek_bounds t) as (r2 & r2' & E2 & _ & _ & I2).
  { unfold okDay in *. change (DayFromYear 100) with (-683003) in *. lia. }
  { lia. }
  destruct (snapMonth_bounds t Hok) as (r3 & r3' & E3 & _ & _ & I3).
  { change (DayFromYear 275760) with 99999744. lia. }
  rewrite E1, E2, E3, I1, I2, I3.
  split; auto. split; [|split; auto; split; [|split; auto]].
  - rewrite endOfDayUTC_ok by auto.
    assert (Day (Day t * msPerDay + 86399999) = Day t)
      by (apply Day_mul_add; unfold msPerDay; lia).
    rewrite endOfDayUTC_ok; now rewrite H.
  - rewrite endOfISOWeekUTC_ok by (auto; lia).
    assert (Day ((isoMonday (Day t) + 7) * msPerDay - 1) = isoMonday (Day t) + 6).
    { replace ((isoMonday (Day t) + 7) * msPerDay - 1)
        with ((isoMonday (Day t) + 6) * msPerDay + 86399999) by (unfold msPerDay; lia).
      apply Day_mul_add. unfold msPerDay. lia. }
    rewrite endOfISOWeekUTC_ok; rewrite H, isoMonday_week by lia; auto. lia.
  - pose proof (endOfMonth_in_range (Day t)
                  ltac:(change (DayFromYear 275760) with 99999744; lia)) as Hhi.
    pose proof (month_of_day (Day t)) as Hin.
    pose proof (MonthFromDay_range (Day t)) as Hr.
    pose proof (firstOfMonth_step (YearFromDay (Day t)) (MonthFromDay (Day t))) as Hst.
    rewrite endOfMonthUTC_ok by auto.
    unfold YearFromTime, MonthFromTime.
    set (F := firstOfMonth (YearFromDay (Day t)) (MonthFromDay (Day t) + 1)) in *.
    assert (HD : Day (F * msPerDay - 1) = F - 1).
    { replace (F * msPerDay - 1) with ((F - 1) * msPerDay + 86399999)
        by (unfold msPerDay; lia).
      apply Day_mul_add. unfold msPerDay. lia. }
    destruct (in_month (F - 1) (YearFromDay (Day t)) (MonthFromDay (Day t)) Hr
                ltac:(fold F; lia)) as (Hy & Hmo & _).
    rewrite endOfMonthUTC_ok; unfold YearFromTime, MonthFromTime;
      rewrite HD, ?Hy, ?Hmo; fold F; auto.
    unfold okDay in *. lia.
Qed.

(** X5.  With no dates and [bucket=week], while the clock is between the
    epoch and the last week that fits among the time values, the plan
    has exactly twelve buckets: the ISO weeks from eleven weeks before
    the current one to the current one, which contains [now]. *)
Theorem default_week_window (now : Z) (fuel : nat) :
  0 <= now < TimeFromYear 275760 -> (13 <= fuel)%nat ->
  let w := (Day now + 3) / 7 in
  buildBuckets Number fuel now None None "week"
  = Some {| rangeStart := At (weekEdge (w - 11) * msPerDay);
            rangeEnd := At (weekEdge (w + 1) * msPerDay - 1);
            buckets := map (edgeBucket weekEdge)
                         [w - 11; w - 10; w - 9; w - 8; w - 7; w - 6;
                          w - 5; w - 4; w - 3; w - 2; w - 1; w] |}
  /\ weekEdge w * msPerDay <= now <= weekEdge (w + 1) * msPerDay - 1.
Proof.
  intros Hnow Hfuel w.
  assert (Hd : 0 <= Day now < 99999744).
  { unfold TimeFromYear, Day, msPerDay in *.
    change (DayFromYear 275760) with 99999744 in Hnow. divlia. }
  set (n := Day now) in *.
  assert (Hmon : isoMonday n = weekEdge w) by apply isoMonday_is_edge.
  pose proof (isoMonday_le n) as Hle.
  split.
  2:{ pose proof (Day_decompose now). pose proof (TimeWithinDay_range now).
      fold n in H. unfold weekEdge, msPerDay in *. lia. }
  assert (Hok : forall k, 0 <= k <= 100 -> okDay (n - k)).
  { intros k Hk. unfold okDay. change (DayFromYear 100) with (-683003). lia. }
  unfold buildBuckets, boundaries.
  cbn [toUTCDateOnly String.eqb Ascii.eqb Bool.eqb].
  rewrite (startOfDayUTC_ok now) by (fold n; rewrite <- (Z.sub_0_r n); apply Hok; lia).
  fold n. rewrite setUTCDate_minus.
  replace (n * msPerDay - 7 * 11 * msPerDay) with ((n - 77) * msPerDay) by lia.
  rewrite TimeClip_inRange by (apply okDay_inRange0, Hok; lia).
  assert (Hm77 : isoMonday (n - 77) = weekEdge (w - 11)).
  { rewrite isoMonday_is_edge. subst w. unfold weekEdge. divlia. }
  rewrite (startOfISOWeekUTC_ok ((n - 77) * msPerDay))
    by (rewrite Day_mul, ?Hm77; try lia;
        unfold okDay, weekEdge in *; change (DayFromYear 100) with (-683003); lia).
  rewrite Day_mul, Hm77.
  assert (Hedges : forall i, w - 11 <= i <= w ->
            {| start := startOfISOWeekUTC (At (weekEdge i * msPerDay));
               end_ := endOfISOWeekUTC (At (weekEdge i * msPerDay)) |}
            = edgeBucket weekEdge i
            /\ addDaysUTC (At (weekEdge i * msPerDay)) 7
               = TimeClip (Some (weekEdge (i + 1) * msPerDay))
            /\ weekEdge i < weekEdge (i + 1) /\ inRange (weekEdge i * msPerDay)).
  { intros i Hi. apply week_edges.
    - unfold okDay, weekEdge in *. change (DayFromYear 100) with (-683003). lia.
    - unfold weekEdge in *. lia. }
  destruct (Hedges (w - 11) ltac:(lia)) as (Hmk & _ & _ & _).
  injection Hmk as Hs11 _. rewrite Hs11.
  rewrite (endOfISOWeekUTC_ok (n * msPerDay))
    by (rewrite Day_mul, Hmon; unfold okDay, weekEdge in *;
        change (DayFromYear 100) with (-683003); lia).
  rewrite Day_mul, Hmon.
  replace (weekEdge w + 7) with (weekEdge (w + 1)) by (unfold weekEdge; lia).
  assert (Hen :
    enumerate fuel
      (fun d => {| start := startOfISOWeekUTC d; end_ := endOfISOWeekUTC d |})
      (fun d => addDaysUTC d 7)
      (At (weekEdge (w + 1) * msPerDay - 1))
      (At (weekEdge (w - 11) * msPerDay)) []
    = Some (map (edgeBucket weekEdge)
              [w - 11; w - 10; w - 9; w - 8; w - 7; w - 6;
               w - 5; w - 4; w - 3; w - 2; w - 1; w])).
  { rewrite <- (TimeClip_inRange (weekEdge (w - 11) * msPerDay))
      by (apply (Hedges (w - 11)); lia).
    replace (w + 1) with (w - 11 + Z.of_nat 12) by lia.
    rewrite (enumerate_edges weekEdge _ _ 12 (w - 11) [] fuel); try lia.
    - cbn [app daysFrom]. do 2 f_equal. repeat (f_equal; try lia).
    - intros i Hi. apply Hedges. lia. }
  now rewrite Hen.
Qed.

(** X4.  With no dates and [bucket=month], on a day of the month from 1 to
    28 of the years 101 to 275759, the plan has exactly six buckets, the
    calendar months from five months before the current one to the
    current one, which contains [now]. *)
Theorem default_month_window (now : Z) (fuel : nat) :
  modern now -> DateFromTime now <= 28 -> (7 <= fuel)%nat ->
  let idx := 12 * YearFromTime now + MonthFromTime now in
  buildBuckets Number fuel now None None "month"
  = Some {| rangeStart := At (monthEdge (idx - 5) * msPerDay);
            rangeEnd := At (monthEdge (idx + 1) * msPerDay - 1);
            buckets := map (edgeBucket monthEdge)
                         [idx - 5; idx - 4; idx - 3; idx - 2; idx - 1; idx] |}
  /\ monthEdge idx * msPerDay <= now <= monthEdge (idx + 1) * msPerDay - 1.
Proof.
  intros Hm Hd28 Hfuel idx.
  pose proof (modern_Day now Hm) as Hd.
  change (DayFromYear 101) with (-682638) in Hd.
  change (DayFromYear 275760) with 99999744 in Hd.
  set (n := Day now) in *.
  assert (Hok : okDay n)
    by (unfold okDay; change (DayFromYear 100) with (-683003); lia).
  pose proof (month_of_day n) as Hin.
  pose proof (DateFromDay_range n) as Hdr.
  pose proof (endOfMonth_in_range n
                ltac:(change (DayFromYear 275760) with 99999744; lia)) as Hhi.
  rewrite (firstOfMonth_is_edge (YearFromDay n) (MonthFromDay n + 1)) in Hin, Hhi.
  rewrite (firstOfMonth_is_edge (YearFromDay n) (MonthFromDay n)) in Hin.
  replace (12 * YearFromDay n + (MonthFromDay n + 1)) with (idx + 1) in Hin, Hhi
    by (subst idx; unfold YearFromTime, MonthFromTime; fold n; lia).
  replace (12 * YearFromDay n + MonthFromDay n) with idx in Hin
    by (subst idx; unfold YearFromTime, MonthFromTime; fold n; lia).
  split.
  2:{ pose proof (Day_decompose now). pose proof (TimeWithinDay_range now).
      fold n in H. unfold msPerDay in *. lia. }
  pose proof (monthEdge_step (idx - 5)) as S5.
  pose proof (monthEdge_step (idx - 4)) as S4.
  pose proof (monthEdge_step (idx - 3)) as S3.
  pose proof (monthEdge_step (idx - 2)) as S2.
  pose proof (monthEdge_step (idx - 1)) as S1.
  pose proof (monthEdge_step idx) as S0.
  replace (idx - 5 + 1) with (idx - 4) in S5 by lia.
  replace (idx - 4 + 1) with (idx - 3) in S4 by lia.
  replace (idx - 3 + 1) with (idx - 2) in S3 by lia.
  replace (idx - 2 + 1) with (idx - 1) in S2 by lia.
  replace (idx - 1 + 1) with idx in S1 by lia.
  (* the day [setUTCMonth] lands on: same day of the month, five months back *)
  set (td := monthEdge (idx - 5) + DateFromDay n - 1).
  assert (Hidx : idx - 5 = 12 * YearFromDay n + (MonthFromDay n - 5))
    by (subst idx; unfold YearFromTime, MonthFromTime; fold n; lia).
  assert (Etd : MakeDayZ (YearFromDay n) (MonthFromDay n - 5) (DateFromDay n) = td).
  { subst td. rewrite Hidx, <- firstOfMonth_is_edge.
    unfold firstOfMonth, MakeDayZ. lia. }
  assert (Hdate : DateFromDay n = n - monthEdge idx + 1).
  { pose proof (MakeDayZ_getters n 0) as G. rewrite !Z.add_0_r in G.
    pose proof (firstOfMonth_is_edge (YearFromDay n) (MonthFromDay n)) as Ei.
    replace (12 * YearFromDay n + MonthFromDay n) with idx in Ei
      by (subst idx; unfold YearFromTime, MonthFromTime; fold n; lia).
    unfold firstOfMonth, MakeDayZ in *. lia. }
  assert (Hoktd : okDay td).
  { subst td. unfold okDay in *. change (DayFromYear 100) with (-683003) in *.
    unfold DateFromTime in Hd28. fold n in Hd28. lia. }
  unfold buildBuckets, boundaries.
  cbn [toUTCDateOnly String.eqb Ascii.eqb Bool.eqb].
  rewrite (startOfDayUTC_ok now) by auto. fold n.
  rewrite setUTCMonth_back5.
  unfold YearFromTime, MonthFromTime, DateFromTime.
  rewrite Day_mul, TimeWithinDay_mul, Z.add_0_r, Etd.
  rewrite TimeClip_inRange by (apply okDay_inRange0; auto).
  (* the month of that day is the month [idx - 5] *)
  assert (Hmonth : YearFromDay td = (idx - 5) / 12
                   /\ MonthFromDay td = (idx - 5) mod 12).
  { unfold monthEdge in *.
    destruct (in_month_any td 0 (idx - 5)) as (Hy & Hmo & _).
    - subst td. replace (idx - 5 + 1) with (idx - 4) by lia.
      unfold DateFromTime in Hd28. fold n in Hd28. lia.
    - split; [rewrite Hy; lia | exact Hmo]. }
  destruct Hmonth as (Hy & Hmo).
  assert (Efirst : firstOfMonth ((idx - 5) / 12) ((idx - 5) mod 12) = monthEdge (idx - 5)).
  { rewrite firstOfMonth_is_edge. f_equal. divlia. }
  rewrite (startOfMonthUTC_ok (td * msPerDay)) by (rewrite Day_mul; auto).
  unfold YearFromTime, MonthFromTime. rewrite Day_mul, Hy, Hmo, Efirst.
  assert (Hedges : forall i, idx - 5 <= i <= idx ->
            {| start := startOfMonthUTC (At (monthEdge i * msPerDay));
               end_ := endOfMonthUTC (At (monthEdge i * msPerDay)) |}
            = edgeBucket monthEdge i
            /\ addMonthsUTC (At (monthEdge i * msPerDay)) 1
               = TimeClip (Some (monthEdge (i + 1) * msPerDay))
            /\ monthEdge i < monthEdge (i + 1) /\ inRange (monthEdge i * msPerDay)).
  { intros i Hi. apply month_edges.
    - assert (monthEdge (idx - 5) <= monthEdge i).
      { destruct (Z.eq_dec (idx - 5) i) as [-> | Hne]; [lia|].
        pose proof (monthEdge_lt (idx - 5) i). lia. }
      unfold okDay in *. change (DayFromYear 100) with (-683003) in *.
      assert (monthEdge i <= monthEdge idx).
      { destruct (Z.eq_dec i idx) as [-> | Hne]; [lia|].
        pose proof (monthEdge_lt i idx). lia. }
      lia.
    - destruct (Z.eq_dec (i + 1) (idx + 1)) as [-> | Hne]; [lia|].
      pose proof (monthEdge_lt (i + 1) (idx + 1)). lia. }
  destruct (Hedges (idx - 5) ltac:(lia)) as (Hmk5 & _ & _ & _).
  injection Hmk5 as Hs5 _. rewrite Hs5.
  rewrite (endOfMonthUTC_ok (n * msPerDay))
    by (unfold YearFromTime, MonthFromTime; rewrite Day_mul; auto;
        rewrite firstOfMonth_is_edge;
        replace (12 * YearFromDay n + (MonthFromDay n + 1)) with (idx + 1)
          by (subst idx; unfold YearFromTime, MonthFromTime; fold n; lia);
        lia).
  unfold YearFromTime, MonthFromTime. rewrite Day_mul.
  rewrite (firstOfMonth_is_edge (YearFromDay n) (MonthFromDay n + 1)).
  replace (12 * YearFromDay n + (MonthFromDay n + 1)) with (idx + 1)
    by (subst idx; unfold YearFromTime, MonthFromTime; fold n; lia).
  assert (Hen :
    enumerate fuel
      (fun d => {| start := startOfMonthUTC d; end_ := endOfMonthUTC d |})
      (fun d => addMonthsUTC d 1)
      (At (monthEdge (idx + 1) * msPerDay - 1))
      (At (monthEdge (idx - 5) * msPerDay)) []
    = Some (map (edgeBucket monthEdge)
              [idx - 5; idx - 4; idx - 3; idx - 2; idx - 1; idx])).
  { rewrite <- (TimeClip_inRange (monthEdge (idx - 5) * msPerDay))
      by (apply (Hedges (idx - 5)); lia).
    replace (idx + 1) with (idx - 5 + Z.of_nat 6) by lia.
    rewrite (enumerate_edges monthEdge _ _ 6 (idx - 5) [] fuel); try lia.
    - cbn [app daysFrom]. do 2 f_equal. repeat (f_equal; try lia).
    - intros i Hi. apply Hedges. lia. }
  now rewrite Hen.
Qed.

End Planner.

(** ** Concrete requests *)

Section Requests.
Import Calendar JS Controller.
Open Scope string_scope.

(** C1 (the code departs from it).  [startDate=0100-01-01],
    [endDate=2000-01-09], [bucket=week].  1 January 100 is a Friday; the
    Monday of its week is 28 December 99, which [startOfDayUTC] hands to
    [Date.UTC] as year 99, that is 1999.  [rangeStart] is Tuesday 28
    December 1999, and the first bucket starts the day before it. *)
Theorem week_plan_from_year_100 :
  buildBuckets NumberOfDigits 3 0 (Some "0100-01-01") (Some "2000-01-09") "week"
  = Some {| rangeStart := At 946339200000;
            rangeEnd := At 947462399999;
            buckets := [ {| start := At 946252800000; end_ := At 946857599999 |};
                         {| start := At 946857600000; end_ := At 947462399999 |} ] |}
  /\ fmt (At 946339200000) = "1999-12-28"
  /\ fmt (At 946252800000) = "1999-12-27"
  /\ Date_leb (At 946339200000) (At 946252800000) = false.
Proof. repeat split; vm_compute; reflexivity. Qed.

(** C3 (the code departs from it).  At noon on 31 July 2025, with no
    dates and [bucket=month]: [setUTCMonth] moves 31 July to "31
    February", which is 3 March, so [rangeStart] is 1 March 2025 and the
    plan has five buckets, not six. *)
Theorem default_month_window_on_31_july :
  fmt (At 1753963200000) = "2025-07-31"
  /\ buildBuckets NumberOfDigits 6 1753963200000 None None "month"
     = Some {| rangeStart := At 1740787200000;
               rangeEnd := At 1754006399999;
               buckets := [ {| start := At 1740787200000; end_ := At 1743465599999 |};
                            {| start := At 1743465600000; end_ := At 1746057599999 |};
                            {| start := At 1746057600000; end_ := At 1748735999999 |};
                            {| start := At 1748736000000; end_ := At 1751327999999 |};
                            {| start := At 1751328000000; end_ := At 1754006399999 |} ] |}
  /\ fmt (At 1740787200000) = "2025-03-01"
  /\ fmt (At 1754006399999) = "2025-07-31".
Proof. repeat split; vm_compute; reflexivity. Qed.

(** C4 (counterexample).  "2025-13-45" is not a calendar date, and
    [toUTCDateOnly] returns a date for it: 14 February 2026. *)
Lemma toUTCDateOnly_accepts_month_13 :
  isCalendarDate "2025-13-45" = false
  /\ toUTCDateOnly NumberOfDigits (Some "2025-13-45") = Some (At 1771027200000)
  /\ fmt (At 1771027200000) = "2026-02-14".
Proof. repeat split; vm_compute; reflexivity. Qed.

(** C5 (counterexample).  [startDate=2025-09-10], [endDate=2025-09-01]:
    the plan has its [rangeStart] after its [rangeEnd]. *)
Lemma later_start_inverts_range :
  buildBuckets NumberOfDigits 1 0 (Some "2025-09-10") (Some "2025-09-01") "day"
  = Some {| rangeStart := At 1757462400000;
            rangeEnd := At 1756771199999;
            buckets := [] |}
  /\ Date_leb (At 1757462400000) (At 1756771199999) = false.
Proof. repeat split; vm_compute; reflexivity. Qed.

(** C6 (the code departs from it).  [startDate=0100-01-01],
    [endDate=0100-01-02], [bucket=week]: the range runs from 28 December
    1999 to the end of 3 January 2000, and the only bucket ends on 2
    January.  A row dated 3 January 2000 is in the range and in no
    bucket: the buckets add up to 0 products added and 0 visitors, the
    rows to 1. *)
Theorem week_sums_miss_a_row :
  let row := {| date := 946857600000; totalProducts := 10;
                productsAdded := 1; productsRemoved := 0 |} in
  let q := {| q_startDate := Some "0100-01-01"; q_endDate := Some "0100-01-02";
              q_bucket := Some "week" |} in
  buildBuckets NumberOfDigits 2 0 (q_startDate q) (q_endDate q) (bucketOf q)
  = Some {| rangeStart := At 946339200000;
            rangeEnd := At 946943999999;
            buckets := [ {| start := At 946252800000; end_ := At 946857599999 |} ] |}
  /\ Date_geb (At (date row)) (At 946339200000)
     && Date_leb (At (date row)) (At 946943999999) = true
  /\ getDashboardProductsHandler NumberOfDigits 2 0 q
       (fun _ _ => Some [row]) (Some 10)
     = Some (Json {| currentTotal := 10;
                     trend := [ {| tb_startDate := "1999-12-27";
                                   tb_endDate := "2000-01-02";
                                   tb_totalProducts := Some 0;
                                   tb_productsAdded := 0;
                                   tb_productsRemoved := 0 |} ] |})
  /\ getDashboardVisitorsHandler NumberOfDigits 2 0 q
       (fun _ _ => Some [ {| visitedAt := 946857600000 |} ])
     = Some (Json {| totalVisitors := 1;
                     visitorsByBucket_ := [ {| vb_startDate := "1999-12-27";
                                               vb_endDate := "2000-01-02";
                                               vb_visitors := 0 |} ] |}).
Proof. cbv zeta. repeat split; vm_compute; reflexivity. Qed.

(** C7 (the code departs from it).  The instant that [startDate=0100-01-01]
    denotes, midnight of Friday 1 January 100: [startOfISOWeekUTC] sends
    it to Tuesday 28 December 1999, and that one to Monday 27 December
    1999. *)
Theorem startOfISOWeekUTC_twice_from_year_100 :
  toUTCDateOnly NumberOfDigits (Some "0100-01-01") = Some (At (-59011459200000))
  /\ startOfISOWeekUTC (At (-59011459200000)) = At 946339200000
  /\ startOfISOWeekUTC (At 946339200000) = At 946252800000
  /\ endOfISOWeekUTC (At (-59011459200000)) = At 946943999999
  /\ endOfISOWeekUTC (At 946943999999) = At 947462399999
  /\ fmt (At (-59011459200000)) = "100-01-01"
  /\ fmt (At 946339200000) = "1999-12-28"
  /\ fmt (At 946252800000) = "1999-12-27".
Proof. repeat split; vm_compute; reflexivity. Qed.

(** The forward fill of the specification's example: totals 10 on the
    first day, none on the second, 15 on the third; and the same without
    the first record. *)
Example forward_fill_gap :
  let days := map dayBucket [20332; 20333; 20334] in
  let r1 := {| date := 20332 * msPerDay; totalProducts := 10;
               productsAdded := 2; productsRemoved := 0 |} in
  let r3 := {| date := 20334 * msPerDay + 3600000; totalProducts := 15;
               productsAdded := 6; productsRemoved := 1 |} in
  map tb_totalProducts (forwardFill None (trendByBucket days [r1; r3]))
  = [Some 10; Some 10; Some 15]
  /\ map tb_totalProducts (forwardFill None (trendByBucket days [r3]))
     = [Some 0; Some 0; Some 15].
Proof. cbv zeta. split; vm_compute; reflexivity. Qed.

(** The three requests of the specification's examples. *)
Example three_days :
  option_map (fun p => map (fun b => (fmt (start b), fmt (end_ b))) (buckets p))
    (buildBuckets NumberOfDigits 4 0 (Some "2025-09-01") (Some "2025-09-03") "day")
  = Some [("2025-09-01", "2025-09-01"); ("2025-09-02", "2025-09-02");
          ("2025-09-03", "2025-09-03")].
Proof. vm_compute. reflexivity. Qed.

Example wednesday_snaps_to_monday :
  option_map (fun p => fmt (rangeStart p))
    (buildBuckets NumberOfDigits 4 0 (Some "2025-09-03") (Some "2025-09-03") "week")
  = Some "2025-09-01".
Proof. vm_compute. reflexivity. Qed.

Example february_is_one_bucket :
  option_map (fun p => map (fun b => (fmt (start b), fmt (end_ b))) (buckets p))
    (buildBuckets NumberOfDigits 4 0 (Some "2025-02-01") (Some "2025-02-28") "month")
  = Some [("2025-02-01", "2025-02-28")].
Proof. vm_compute. reflexivity. Qed.

(** The default window on 31 July 2025 at noon. *)
Lemma default_day_window_witness :
  clockValue 1753963200000
  /\ exists p,
      buildBuckets NumberOfDigits 8 1753963200000 None None "day" = Some p
      /\ map (fun b => fmt (start b)) (buckets p)
         = ["2025-07-25"; "2025-07-26"; "2025-07-27"; "2025-07-28";
            "2025-07-29"; "2025-07-30"; "2025-07-31"].
Proof.
  assert (Hc : clockValue 1753963200000) by (unfold clockValue, maxTime; lia).
  split; [exact Hc|].
  destruct (default_day_window NumberOfDigits 1753963200000
              {| q_startDate := None; q_endDate := None; q_bucket := None |} 8%nat
              Hc eq_refl eq_refl eq_refl (Nat.le_refl 8)) as [H _].
  eexists. split; [exact H|]. vm_compute. reflexivity.
Defined.

(** An inverted range, through [buildBuckets] and both handlers. *)
Lemma inverted_range_is_empty_witness :
  1756771199999 < 1757462400000
  /\ buildBuckets NumberOfDigits 1 0 (Some "2025-09-10") (Some "2025-09-01") "day"
     = Some {| rangeStart := At 1757462400000;
               rangeEnd := At 1756771199999;
               buckets := [] |}
  /\ getDashboardProductsHandler NumberOfDigits 1 0
       {| q_startDate := Some "2025-09-10"; q_endDate := Some "2025-09-01";
          q_bucket := None |}
       (fun _ _ => Some []) (Some 42)
     = Some (Json {| currentTotal := 42; trend := [] |})
  /\ getDashboardVisitorsHandler NumberOfDigits 1 0
       {| q_startDate := Some "2025-09-10"; q_endDate := Some "2025-09-01";
          q_bucket := None |}
       (fun _ _ => Some [])
     = Some (Json {| totalVisitors := 0; visitorsByBucket_ := [] |}).
Proof.
  assert (Hlt : 1756771199999 < 1757462400000) by lia.
  split; [exact Hlt|].
  destruct (inverted_range_is_empty NumberOfDigits 0
              (Some "2025-09-10") (Some "2025-09-01") "day"
              1757462400000 1756771199999
              (fun d => {| start := startOfDayUTC d; end_ := endOfDayUTC d |})
              (fun d => addDaysUTC d 1) 0%nat eq_refl Hlt) as (Hp & Hprod & Hvis).
  split; [exact Hp|]. split.
  - exact (Hprod {| q_startDate := Some "2025-09-10"; q_endDate := Some "2025-09-01";
                    q_bucket := None |}
                 (fun _ _ => Some []) (Some 42) [] 42
                 eq_refl eq_refl eq_refl eq_refl eq_refl).
  - exact (Hvis {| q_startDate := Some "2025-09-10"; q_endDate := Some "2025-09-01";
                   q_bucket := None |}
                (fun _ _ => Some []) [] eq_refl eq_refl eq_refl eq_refl).
Defined.

(** [startDate=2025-09-03] and [endDate=2025-09-01] by week: the start
    date is the later one, both are in the week of 1 September, and the
    range is ordered. *)
Lemma range_ordered_witness :
  modern 1756684800000 /\ modern 1756857600000
  /\ exists plan,
      buildBuckets NumberOfDigits 2 0 (Some "2025-09-03") (Some "2025-09-01") "week"
      = Some plan
      /\ fmt (rangeStart plan) = "2025-09-01" /\ fmt (rangeEnd plan) = "2025-09-07"
      /\ exists rs re,
          rangeStart plan = At rs /\ rangeEnd plan = At re
          /\ (toUTCDateOnly NumberOfDigits (Some "2025-09-03") = None -> rs <= re)
          /\ (forall s,
                toUTCDateOnly NumberOfDigits (Some "2025-09-03") = Some (At s) ->
                (rs <= re <-> edgeIndex "week" s <= edgeIndex "week" 1756684800000)
                /\ (s <= 1756684800000 -> rs <= re)
                /\ (edgeIndex "week" 1756684800000 < edgeIndex "week" s -> re < rs)).
Proof.
  assert (He : modern 1756684800000).
  { unfold modern. vm_compute. split; [discriminate | reflexivity]. }
  assert (Hs : modern 1756857600000).
  { unfold modern. vm_compute. split; [discriminate | reflexivity]. }
  split; [exact He|]. split; [exact Hs|].
  destruct (buildBuckets NumberOfDigits 2 0 (Some "2025-09-03") (Some "2025-09-01") "week")
    as [plan|] eqn:Hplan; [|vm_compute in Hplan; discriminate].
  exists plan. split; [reflexivity|].
  split; [vm_compute in Hplan; injection Hplan as <-; vm_compute; reflexivity|].
  split; [vm_compute in Hplan; injection Hplan as <-; vm_compute; reflexivity|].
  exact (proj2 (range_ordered NumberOfDigits 0 (Some "2025-09-03") (Some "2025-09-01")
                  "week" 1756684800000 eq_refl He
                  (or_intror (ex_intro _ 1756857600000 (conj eq_refl Hs))))
           2%nat plan Hplan).
Defined.

(** Three days of September 2025, tiled and summed. *)
Lemma supplied_range_is_tiled_witness :
  modern 1756684800000 /\ modern 1756857600000
  /\ exists rs re mk adv,
      boundaries NumberOfDigits 0 (Some "2025-09-01") (Some "2025-09-03") "day"
      = (At rs, At re, mk, adv)
      /\ (rs <= re ->
          exists fuel bs,
            (forall fuel', (fuel <= fuel')%nat ->
               buildBuckets NumberOfDigits fuel' 0
                 (Some "2025-09-01") (Some "2025-09-03") "day"
               = Some {| rangeStart := At rs; rangeEnd := At re; buckets := bs |})
            /\ bs <> [] /\ tiles rs bs re).
Proof.
  assert (Hs : modern 1756684800000).
  { unfold modern. vm_compute. split; [discriminate | reflexivity]. }
  assert (He : modern 1756857600000).
  { unfold modern. vm_compute. split; [discriminate | reflexivity]. }
  split; [exact Hs|]. split; [exact He|].
  exact (supplied_range_is_tiled NumberOfDigits 0
           (Some "2025-09-01") (Some "2025-09-03") "day"
           1756684800000 1756857600000 eq_refl eq_refl Hs He).
Defined.

Lemma supplied_range_sums_witness :
  modern 1756684800000 /\ modern 1756857600000
  /\ exists plan rs re,
      buildBuckets NumberOfDigits 4 0 (Some "2025-09-01") (Some "2025-09-03") "day"
      = Some plan
      /\ rangeStart plan = At rs /\ rangeEnd plan = At re
      /\ (forall trends, Forall (fun t => rs <= date t <= re) trends ->
           sumZ (map tb_productsAdded
                   (forwardFill None (trendByBucket (buckets plan) trends)))
           = sumZ (map productsAdded trends)
           /\ sumZ (map tb_productsRemoved
                      (forwardFill None (trendByBucket (buckets plan) trends)))
              = sumZ (map productsRemoved trends))
      /\ (forall logs, Forall (fun l => rs <= visitedAt l <= re) logs ->
           sumZ (map vb_visitors (visitorsByBucket (buckets plan) logs))
           = Z.of_nat (List.length logs)).
Proof.
  assert (Hs : modern 1756684800000).
  { unfold modern. vm_compute. split; [discriminate | reflexivity]. }
  assert (He : modern 1756857600000).
  { unfold modern. vm_compute. split; [discriminate | reflexivity]. }
  split; [exact Hs|]. split; [exact He|].
  destruct (buildBuckets NumberOfDigits 4 0 (Some "2025-09-01") (Some "2025-09-03") "day")
    as [plan|] eqn:Hplan; [|vm_compute in Hplan; discriminate].
  destruct (supplied_range_sums NumberOfDigits 0
              (Some "2025-09-01") (Some "2025-09-03") "day"
              1756684800000 1756857600000 4%nat plan eq_refl eq_refl Hs He Hplan)
    as (rs & re & H).
  exists plan, rs, re. split; [reflexivity | exact H].
Defined.

(** Midnight of 1 September 2025 through the six helpers. *)
Lemma helpers_idempotent_modern_witness :
  modern 1756684800000
  /\ startOfISOWeekUTC (startOfISOWeekUTC (At 1756684800000))
     = startOfISOWeekUTC (At 1756684800000)
  /\ endOfISOWeekUTC (endOfISOWeekUTC (At 1756684800000))
     = endOfISOWeekUTC (At 1756684800000).
Proof.
  assert (Hm : modern 1756684800000).
  { unfold modern. vm_compute. split; [discriminate | reflexivity]. }
  split; [exact Hm|].
  destruct (helpers_idempotent_modern 1756684800000 Hm)
    as (_ & _ & Hw & Hw' & _ & _).
  split; [exact Hw | exact Hw'].
Defined.

(** The default months on 15 July 2025: February to July. *)
Lemma default_month_window_witness :
  modern 1752537600000 /\ DateFromTime 1752537600000 <= 28
  /\ exists p,
      buildBuckets NumberOfDigits 7 1752537600000 None None "month" = Some p
      /\ map (fun b => (fmt (start b), fmt (end_ b))) (buckets p)
         = [("2025-02-01", "2025-02-28"); ("2025-03-01", "2025-03-31");
            ("2025-04-01", "2025-04-30"); ("2025-05-01", "2025-05-31");
            ("2025-06-01", "2025-06-30"); ("2025-07-01", "2025-07-31")].
Proof.
  assert (Hm : modern 1752537600000).
  { unfold modern. vm_compute. split; [discriminate | reflexivity]. }
  assert (Hd : DateFromTime 1752537600000 <= 28) by (vm_compute; discriminate).
  split; [exact Hm|]. split; [exact Hd|].
  destruct (default_month_window NumberOfDigits 1752537600000 7%nat Hm Hd
              (Nat.le_refl 7)) as [H _].
  eexists. split; [exact H|]. vm_compute. reflexivity.
Defined.

(** The default weeks at noon on 31 July 2025: from the week of 12 May
    to the week of 28 July. *)
Lemma default_week_window_witness :
  0 <= 1753963200000 < TimeFromYear 275760
  /\ exists p,
      buildBuckets NumberOfDigits 13 1753963200000 None None "week" = Some p
      /\ List.length (buckets p) = 12%nat
      /\ fmt (rangeStart p) = "2025-05-12" /\ fmt (rangeEnd p) = "2025-08-03".
Proof.
  assert (Hc : 0 <= 1753963200000 < TimeFromYear 275760).
  { vm_compute. split; [discriminate | reflexivity]. }
  split; [exact Hc|].
  destruct (default_week_window NumberOfDigits 1753963200000 13%nat Hc
              (Nat.le_refl 13)) as [H _].
  eexists. split; [exact H|]. repeat split; vm_compute; reflexivity.
Defined.

End Requests.

(** * Further properties *)

(** ** Decimal digits *)

Module DigitFacts.
Import Calendar JS Controller.

Lemma Some_eq (A : Type) (a b : A) : Some a = Some b -> a = b.
Proof. congruence. Qed.

Lemma uintValue_pos (u : Decimal.uint) :
  forall acc : positive, uintValue (Zpos acc) u = Zpos (Pos.of_uint_acc u acc).
Proof.
  induction u; intros acc; cbn [uintValue Pos.of_uint_acc]; auto;
    rewrite <- IHu; f_equal; lia.
Qed.

Lemma uintValue_of_uint (u : Decimal.uint) : uintValue 0 u = Z.of_uint u.
Proof.
  unfold Z.of_uint.
  induction u; cbn [uintValue Pos.of_uint]; auto;
    change (10 * 0 + 1) with 1; change (10 * 0 + 2) with 2; change (10 * 0 + 3) with 3;
    change (10 * 0 + 4) with 4; change (10 * 0 + 5) with 5; change (10 * 0 + 6) with 6;
    change (10 * 0 + 7) with 7; change (10 * 0 + 8) with 8; change (10 * 0 + 9) with 9;
    now rewrite uintValue_pos.
Qed.

(** [digitsValue] reads what the library's [uint_of_string] reads. *)
Lemma digitsValue_uint (s : string) :
  forall (u : Decimal.uint) (acc : Z),
    NilEmpty.uint_of_string s = Some u -> digitsValue acc s = Some (uintValue acc u).
Proof.
  induction s as [|c s IH]; intros u acc H.
  - injection H as <-. reflexivity.
  - cbn [NilEmpty.uint_of_string] in H.
    destruct (NilEmpty.uint_of_string s) as [u0|] eqn:E; [|discriminate].
    cbn [digitsValue].
    destruct c as [[] [] [] [] [] [] [] []]; try discriminate H;
      injection H as <-; cbn [uintValue];
      match goal with
      | |- context [digitOf ?c] =>
          let v := eval vm_compute in (digitOf c) in change (digitOf c) with v
      end; cbv iota beta;
      rewrite (IH u0 _ eq_refl); f_equal; f_equal; lia.
Qed.

Lemma uint_of_digits (s : string) :
  forall (acc n : Z), digitsValue acc s = Some n ->
    exists u, NilEmpty.uint_of_string s = Some u.
Proof.
  induction s as [|c s IH]; intros acc n H.
  - exists Decimal.Nil. reflexivity.
  - cbn [digitsValue] in H. destruct (digitOf c) as [v|] eqn:Ec; [|discriminate].
    destruct (IH _ _ H) as (u0 & Hu0).
    cbn [NilEmpty.uint_of_string]. rewrite Hu0.
    destruct c as [[] [] [] [] [] [] [] []]; try (vm_compute in Ec; discriminate Ec);
      eexists; reflexivity.
Qed.

Lemma digitsValue_string_of_uint (u : Decimal.uint) :
  digitsValue 0 (NilZero.string_of_uint u) = Some (Z.of_uint u).
Proof.
  destruct u; try reflexivity;
    unfold NilZero.string_of_uint;
    rewrite (digitsValue_uint _ _ 0 (NilEmpty.usu _));
    now rewrite uintValue_of_uint.
Qed.

(** The digits [String] prints for a natural number read back as that
    number. *)
Lemma digitsValue_toString (y : Z) :
  0 <= y -> digitsValue 0 (num_toString (ofZ y)) = Some y.
Proof.
  intros Hy. unfold num_toString, ofZ, inject_Z. cbn [Qnum Qden].
  rewrite Z.quot_1_r. destruct y as [|p|p]; [reflexivity| |lia].
  cbn [Z.to_int NilZero.string_of_int].
  rewrite digitsValue_string_of_uint. unfold Z.of_uint.
  now rewrite DecimalPos.Unsigned.of_to.
Qed.

Lemma digitsValue_padStart2 (s : string) :
  digitsValue 0 (padStart2 s) = digitsValue 0 s.
Proof. destruct s as [|c [|c' s]]; reflexivity. Qed.

Lemma digit_not_dash (c : ascii) (v : Z) :
  digitOf c = Some v -> Ascii.eqb c "-" = false.
Proof.
  intros H. destruct (Ascii.eqb_spec c "-") as [-> | ]; auto.
  vm_compute in H. discriminate.
Qed.

(** A string of digits is one field, and the first field of what
    follows it with a dash. *)
Lemma split_digits (s : string) :
  forall acc n, digitsValue acc s = Some n ->
    split "-" s = [s]
    /\ forall rest, split "-" (s ++ String "-" rest) = s :: split "-" rest.
Proof.
  induction s as [|c s IH]; intros acc n H.
  - split; reflexivity.
  - cbn [digitsValue] in H. destruct (digitOf c) as [v|] eqn:Ec; [|discriminate].
    destruct (IH _ _ H) as (H1 & H2).
    cbn [split String.append]. rewrite (digit_not_dash c v Ec), H1.
    split; [reflexivity|]. intros rest. now rewrite H2.
Qed.

Lemma digitOf_inv (c : ascii) (v : Z) :
  digitOf c = Some v -> 0 <= v <= 9 /\ c = ascii_of_nat (Z.to_nat (48 + v)).
Proof.
  unfold digitOf. intros H.
  destruct ((48 <=? Z.of_nat (nat_of_ascii c)) && (Z.of_nat (nat_of_ascii c) <=? 57))
    eqn:E; [|discriminate].
  injection H as <-. apply andb_true_iff in E. destruct E as [E1 E2].
  apply Z.leb_le in E1, E2. split; [lia|].
  replace (Z.to_nat (48 + (Z.of_nat (nat_of_ascii c) - 48))) with (nat_of_ascii c) by lia.
  now rewrite ascii_nat_embedding.
Qed.

Ltac digit_cases v :=
  let H := fresh in
  assert (H : v = 0 \/ v = 1 \/ v = 2 \/ v = 3 \/ v = 4 \/ v = 5 \/ v = 6
              \/ v = 7 \/ v = 8 \/ v = 9) by lia;
  repeat (destruct H as [H | H]); subst v.

(** Two digits that are not both 0 are what [padStart(2, '0')] makes of
    their value. *)
Lemma two_digits_toString (s : string) (v : Z) :
  String.length s = 2%nat -> digitsValue 0 s = Some v -> 1 <= v ->
  padStart2 (num_toString (ofZ v)) = s.
Proof.
  destruct s as [|c1 [|c2 [|c3 s]]]; try discriminate. intros _ H Hv.
  cbn [digitsValue] in H.
  destruct (digitOf c1) as [k1|] eqn:E1; [|discriminate].
  destruct (digitOf c2) as [k2|] eqn:E2; [|discriminate].
  injection H as <-.
  destruct (digitOf_inv _ _ E1) as (R1 & ->). destruct (digitOf_inv _ _ E2) as (R2 & ->).
  clear E1 E2.
  digit_cases k1; digit_cases k2; try lia; vm_compute; reflexivity.
Qed.

Lemma split_nonempty (s : string) : split "-" s <> [].
Proof.
  destruct s as [|c s]; [discriminate|]. cbn [split].
  destruct (Ascii.eqb c "-"); [discriminate|]. destruct (split "-" s); discriminate.
Qed.

(** Joining the fields with dashes gives the string back. *)
Lemma split_join (s : string) : String.concat "-" (split "-" s) = s.
Proof.
  induction s as [|c s IH]; [reflexivity|].
  cbn [split]. pose proof (split_nonempty s) as Hne.
  destruct (split "-" s) as [|p ps]; [congruence|].
  destruct (Ascii.eqb_spec c "-") as [-> | Hc].
  - change (String "-" (String.concat "-" (p :: ps)) = String "-" s). now rewrite IH.
  - destruct ps as [|q qs].
    + cbn in IH. cbn. now subst.
    + change (String c (p ++ "-" ++ String.concat "-" (q :: qs)) = String c s).
      f_equal. exact IH.
Qed.

Lemma digitsValue_cons (acc : Z) (c : ascii) (s : string) (n : Z) :
  digitsValue acc (String c s) = Some n ->
  exists v, 0 <= v <= 9 /\ digitsValue (10 * acc + v) s = Some n.
Proof.
  intros H. change (match digitOf c with
                    | Some v => digitsValue (10 * acc + v) s
                    | None => None
                    end = Some n) in H.
  destruct (digitOf c) as [v|] eqn:E; [|discriminate].
  exists v. split; [apply (digitOf_inv _ _ E) | exact H].
Qed.

Lemma three_digits_bound (s : string) (n : Z) :
  String.length s = 3%nat -> digitsValue 0 s = Some n -> 0 <= n <= 999.
Proof.
  destruct s as [|c1 [|c2 [|c3 [|c4 s]]]]; try discriminate. intros _ H.
  apply digitsValue_cons in H. destruct H as (k1 & R1 & H).
  apply digitsValue_cons in H. destruct H as (k2 & R2 & H).
  apply digitsValue_cons in H. destruct H as (k3 & R3 & H).
  change (Some (10 * (10 * (10 * 0 + k1) + k2) + k3) = Some n) in H.
  apply Some_eq in H. lia.
Qed.

Lemma four_digits_bound (s : string) (n : Z) :
  String.length s = 4%nat -> digitsValue 0 s = Some n -> 0 <= n <= 9999.
Proof.
  destruct s as [|c1 s]; try discriminate. intros Hl H.
  apply digitsValue_cons in H. destruct H as (k1 & R1 & H).
  destruct s as [|c2 [|c3 [|c4 [|c5 s]]]]; try discriminate.
  apply digitsValue_cons in H. destruct H as (k2 & R2 & H).
  apply digitsValue_cons in H. destruct H as (k3 & R3 & H).
  apply digitsValue_cons in H. destruct H as (k4 & R4 & H).
  change (Some (10 * (10 * (10 * (10 * 0 + k1) + k2) + k3) + k4) = Some n) in H.
  apply Some_eq in H. lia.
Qed.

(** Four digits of value 1000 or more are what [String] prints for
    that value. *)
Lemma four_digits_toString (s : string) (n : Z) :
  String.length s = 4%nat -> digitsValue 0 s = Some n -> 1000 <= n ->
  num_toString (ofZ n) = s.
Proof.
  intros Hl H Hn.
  destruct (uint_of_digits s 0 n H) as (u & Hu).
  pose proof (digitsValue_uint s u 0 Hu) as Hv. rewrite H in Hv. injection Hv as Hv.
  rewrite uintValue_of_uint in Hv.
  assert (Hnorm : Decimal.unorm u = u /\ u <> Decimal.Nil).
  { destruct s as [|c1 s']; [discriminate|].
    cbn [NilEmpty.uint_of_string] in Hu.
    destruct (NilEmpty.uint_of_string s') as [u'|] eqn:Eu'; [|discriminate].
    change (match digitOf c1 with
            | Some v => digitsValue (10 * 0 + v) s'
            | None => None
            end = Some n) in H.
    destruct (digitOf c1) as [k1|] eqn:E1; [|discriminate].
    destruct (digitOf_inv _ _ E1) as (R1 & ->).
    assert (k1 <> 0).
    { intros ->. change (10 * 0 + 0) with 0 in H.
      assert (String.length s' = 3%nat) by (cbn [String.length] in Hl; lia).
      pose proof (three_digits_bound s' n ltac:(assumption) H). lia. }
    clear E1 H.
    digit_cases k1; try lia; vm_compute in Hu; injection Hu as <-;
      (split; [reflexivity | discriminate]). }
  destruct Hnorm as (Hnorm & Hnil).
  unfold num_toString, ofZ, inject_Z. cbn [Qnum Qden]. rewrite Z.quot_1_r.
  subst n. change (Z.of_uint u) with (Z.of_int (Decimal.Pos u)).
  rewrite DecimalZ.to_of. cbn [Decimal.norm]. rewrite Hnorm.
  cbn [NilZero.string_of_int]. unfold NilZero.string_of_uint.
  destruct u; [congruence| ..]; now apply NilEmpty.sus.
Qed.

Lemma NumberOfDigits_exact (s : string) (n : Z) :
  digitsValue 0 s = Some n -> n <= 9007199254740992 -> NumberOfDigits s = ofZ n.
Proof. intros H _. unfold NumberOfDigits. now rewrite H. Qed.

End DigitFacts.

(** ** The helpers on the instants of the years 101 to 275759 *)

Section HelperSpecs.
Import Calendar JS Controller CalendarFacts JSFacts HelperFacts.

Lemma modern_okDay (t : Z) (k : Z) :
  modern t -> 0 <= k <= 300 -> okDay (Day t - k) /\ Day t + 200 < 100000000.
Proof.
  intros Hm Hk. pose proof (modern_Day t Hm) as Hd.
  change (DayFromYear 101) with (-682638) in Hd.
  change (DayFromYear 275760) with 99999744 in Hd.
  unfold okDay. change (DayFromYear 100) with (-683003). lia.
Qed.

Lemma modern_okDay0 (t : Z) : modern t -> okDay (Day t).
Proof.
  intros Hm. destruct (modern_okDay t 0 Hm ltac:(lia)) as [Hok _].
  now rewrite Z.sub_0_r in Hok.
Qed.

Lemma modern_midnight (t : Z) : modern t -> modern (Day t * msPerDay).
Proof. unfold modern, TimeFromYear, Day, msPerDay. intros H. divlia. Qed.

Lemma MakeDayZ_first (y m d : Z) : MakeDayZ y m d = firstOfMonth y m + (d - 1).
Proof. unfold firstOfMonth, MakeDayZ. lia. Qed.

Lemma date_from_month_start (n : Z) :
  DateFromDay n = n - firstOfMonth (YearFromDay n) (MonthFromDay n) + 1.
Proof.
  pose proof (MakeDayZ_getters n 0) as G. rewrite !Z.add_0_r in G.
  rewrite MakeDayZ_first in G. lia.
Qed.

Lemma Day_last_ms (n : Z) : Day (n * msPerDay - 1) = n - 1.
Proof.
  replace (n * msPerDay - 1) with ((n - 1) * msPerDay + 86399999)
    by (unfold msPerDay; lia).
  apply Day_mul_add. unfold msPerDay. lia.
Qed.

(** X11.  On an instant of the years 101 to 275759 [startOfDayUTC] and
    [endOfDayUTC] return the first and the last millisecond of its UTC
    day: they bracket the instant, the first is a midnight, the second
    comes one day minus one millisecond later, and [fmt] gives the
    three of them the same label. *)
Theorem day_helpers_bracket (t : Z) :
  modern t ->
  exists a b,
    startOfDayUTC (At t) = At a /\ endOfDayUTC (At t) = At b
    /\ a <= t <= b
    /\ TimeWithinDay a = 0 /\ b = a + msPerDay - 1
    /\ fmt (At a) = fmt (At t) /\ fmt (At b) = fmt (At t).
Proof.
  intros Hm. pose proof (modern_okDay0 t Hm) as Hok.
  exists (Day t * msPerDay), (Day t * msPerDay + 86399999).
  rewrite startOfDayUTC_ok, endOfDayUTC_ok by auto.
  pose proof (Day_decompose t). pose proof (TimeWithinDay_range t).
  repeat split; try (unfold msPerDay in *; lia).
  - apply TimeWithinDay_mul.
  - unfold fmt, getUTCFullYear, getUTCMonth, getUTCDate,
      YearFromTime, MonthFromTime, DateFromTime. now rewrite Day_mul.
  - unfold fmt, getUTCFullYear, getUTCMonth, getUTCDate,
      YearFromTime, MonthFromTime, DateFromTime.
    rewrite Day_mul_add; [reflexivity | unfold msPerDay; lia].
Qed.

(** X12.  On an instant of the years 101 to 275759 [startOfISOWeekUTC]
    returns the midnight of a Monday and [endOfISOWeekUTC] the last
    millisecond of the Sunday that follows it, seven days minus one
    millisecond later; the two bracket the instant. *)
Theorem week_helpers_bracket (t : Z) :
  modern t ->
  exists a b,
    startOfISOWeekUTC (At t) = At a /\ endOfISOWeekUTC (At t) = At b
    /\ a <= t <= b
    /\ TimeWithinDay a = 0 /\ WeekDay a = 1
    /\ b = a + 7 * msPerDay - 1 /\ WeekDay b = 0.
Proof.
  intros Hm. destruct (modern_okDay t 6 Hm ltac:(lia)) as [Hok Hhi].
  pose proof (isoMonday_le (Day t)) as Hle.
  assert (Hokm : okDay (isoMonday (Day t))) by (unfold okDay in *; lia).
  exists (isoMonday (Day t) * msPerDay), ((isoMonday (Day t) + 7) * msPerDay - 1).
  rewrite startOfISOWeekUTC_ok, endOfISOWeekUTC_ok by (auto; lia).
  pose proof (Day_decompose t). pose proof (TimeWithinDay_range t).
  repeat split; try (unfold msPerDay in *; lia).
  - apply TimeWithinDay_mul.
  - unfold WeekDay, WeekDayOfDay. rewrite Day_mul. unfold isoMonday. divlia.
  - unfold WeekDay, WeekDayOfDay. rewrite Day_last_ms. unfold isoMonday. divlia.
Qed.

(** X13.  On an instant of the years 101 to 275759 [startOfMonthUTC]
    returns the midnight of day 1 of the instant's month and
    [endOfMonthUTC] the last millisecond of that month: both are in the
    year and month of the instant, they bracket it, and the millisecond
    after the second is the midnight of a day 1. *)
Theorem month_helpers_bracket (t : Z) :
  modern t ->
  exists a b,
    startOfMonthUTC (At t) = At a /\ endOfMonthUTC (At t) = At b
    /\ a <= t <= b
    /\ TimeWithinDay a = 0 /\ DateFromTime a = 1
    /\ YearFromTime a = YearFromTime t /\ MonthFromTime a = MonthFromTime t
    /\ YearFromTime b = YearFromTime t /\ MonthFromTime b = MonthFromTime t
    /\ TimeWithinDay (b + 1) = 0 /\ DateFromTime (b + 1) = 1.
Proof.
  intros Hm. pose proof (modern_okDay0 t Hm) as Hok.
  pose proof (modern_Day t Hm) as Hd.
  pose proof (endOfMonth_in_range (Day t) ltac:(lia)) as Hhi.
  pose proof (month_of_day (Day t)) as Hin.
  pose proof (MonthFromDay_range (Day t)) as Hr.
  pose proof (firstOfMonth_step (YearFromDay (Day t)) (MonthFromDay (Day t))) as Hst.
  exists (firstOfMonth (YearFromTime t) (MonthFromTime t) * msPerDay),
         (firstOfMonth (YearFromTime t) (MonthFromTime t + 1) * msPerDay - 1).
  rewrite startOfMonthUTC_ok, endOfMonthUTC_ok by auto.
  unfold YearFromTime, MonthFromTime, DateFromTime.
  set (y := YearFromDay (Day t)) in *. set (m := MonthFromDay (Day t)) in *.
  rewrite Z.sub_add, !Day_mul, Day_last_ms.
  pose proof (Day_decompose t). pose proof (TimeWithinDay_range t).
  destruct (in_month (firstOfMonth y m) y m Hr ltac:(lia)) as (Hy1 & Hm1 & Hd1).
  destruct (in_month (firstOfMonth y (m + 1) - 1) y m Hr ltac:(lia)) as (Hy2 & Hm2 & _).
  destruct (in_month_any (firstOfMonth y (m + 1)) y (m + 1)) as (_ & _ & Hd3).
  { pose proof (firstOfMonth_step y (m + 1)). lia. }
  rewrite !TimeWithinDay_mul.
  repeat split; auto; try (unfold msPerDay in *; lia).
Qed.

(** X14.  [addDaysUTC(d, a)] moves a date by exactly [a] days of
    86,400,000 ms whenever the result is a time value: the time of day
    is kept, adding [a] and then [b] days is adding [a + b] days, and
    adding [-a] days afterwards gives the date back. *)
Theorem addDaysUTC_whole_days (t a b : Z) :
  inRange (t + a * msPerDay) ->
  addDaysUTC (At t) a = At (t + a * msPerDay)
  /\ TimeWithinDay (t + a * msPerDay) = TimeWithinDay t
  /\ Day (t + a * msPerDay) = Day t + a
  /\ addDaysUTC (addDaysUTC (At t) a) b = addDaysUTC (At t) (a + b)
  /\ (inRange t -> addDaysUTC (addDaysUTC (At t) a) (- a) = At t).
Proof.
  intros Hr. rewrite !addDaysUTC_At, (TimeClip_inRange _ Hr), !addDaysUTC_At.
  repeat split.
  - unfold TimeWithinDay. apply Z.mod_add. unfold msPerDay. lia.
  - unfold Day. apply Z.div_add. unfold msPerDay. lia.
  - f_equal. f_equal. lia.
  - intros Ht. replace (t + a * msPerDay + - a * msPerDay) with t by lia.
    now apply TimeClip_inRange.
Qed.

(** X15.  [addMonthsUTC(d, k)], for a date from 1 January 100 on, drops
    the time of day and lands on the day of the month of [d], counted
    from the first day of the month [k] months later.  When that month
    has such a day the result is that day of that month; when it is
    shorter the result spills into the month after it.  The result is
    invalid when it is not a time value. *)
Theorem addMonthsUTC_spills (t k : Z) :
  okDay (Day t) ->
  let y := YearFromTime t in
  let m := MonthFromTime t in
  let d := DateFromTime t in
  let len := firstOfMonth y (m + k + 1) - firstOfMonth y (m + k) in
  let n := firstOfMonth y (m + k) + d - 1 in
  addMonthsUTC (At t) k = TimeClip (Some (n * msPerDay))
  /\ (d <= len ->
      YearFromDay n = y + (m + k) / 12 /\ MonthFromDay n = (m + k) mod 12
      /\ DateFromDay n = d)
  /\ (len < d ->
      YearFromDay n = y + (m + k + 1) / 12 /\ MonthFromDay n = (m + k + 1) mod 12
      /\ DateFromDay n = d - len).
Proof.
  intros Hok y m d len n.
  pose proof (DateFromDay_range (Day t)) as Hd. fold (DateFromTime t) in Hd. fold d in Hd.
  pose proof (firstOfMonth_step y (m + k)) as S1.
  pose proof (firstOfMonth_step y (m + k + 1)) as S2.
  split; [|split].
  - rewrite addMonthsUTC_ok by auto. fold y m d. do 3 f_equal.
    subst n. rewrite MakeDayZ_first. lia.
  - intros Hle. destruct (in_month_any n y (m + k)) as (Hy & Hm & Hdt).
    + subst n len. lia.
    + rewrite Hy, Hm, Hdt. subst n. repeat split; lia.
  - intros Hlt. destruct (in_month_any n y (m + k + 1)) as (Hy & Hm & Hdt).
    + subst n len. lia.
    + rewrite Hy, Hm, Hdt. subst n len. repeat split; lia.
Qed.

End HelperSpecs.

(** ** The aggregators, continued *)

Section MoreAggregators.
Import Calendar JS Controller.

Lemma forwardFill_filled (l : list TrendBucket) :
  Forall (fun o => exists v, tb_totalProducts o = Some v) l ->
  forall lastTotal, forwardFill lastTotal l = l.
Proof.
  induction 1 as [|o l (v & Hv) _ IH]; intros lastTotal; [reflexivity|].
  cbn [forwardFill]. rewrite Hv. now rewrite IH.
Qed.

Lemma forwardFill_labels (l : list TrendBucket) :
  forall lastTotal,
    map (fun o => (tb_startDate o, tb_endDate o)) (forwardFill lastTotal l)
    = map (fun o => (tb_startDate o, tb_endDate o)) l.
Proof.
  induction l as [|o l IH]; intros lastTotal; [reflexivity|].
  cbn [forwardFill]. destruct (tb_totalProducts o); cbn [map]; now rewrite IH.
Qed.

(** X16.  The forward fill changes nothing but the [null] totals: the
    labels and the sums of every bucket are kept, in order, a bucket that
    has a total keeps its record as it is, and filling a filled list
    again, from any starting total, changes nothing. *)
Theorem forwardFill_idempotent (l : list TrendBucket) (first again : option Z) :
  forwardFill again (forwardFill first l) = forwardFill first l
  /\ map (fun o => (tb_startDate o, tb_endDate o, tb_productsAdded o,
                    tb_productsRemoved o))
         (forwardFill first l)
     = map (fun o => (tb_startDate o, tb_endDate o, tb_productsAdded o,
                      tb_productsRemoved o))
           l
  /\ (forall i o v, nth_error l i = Some o -> tb_totalProducts o = Some v ->
        nth_error (forwardFill first l) i = Some o).
Proof.
  split; [|split].
  - apply forwardFill_filled, forwardFill_known.
  - revert first. induction l as [|o l IH]; intros first; [reflexivity|].
    cbn [forwardFill]. destruct (tb_totalProducts o); cbn [map]; now rewrite IH.
  - revert first. induction l as [|o' l IH]; intros first i o v Hn Hv.
    + destruct i; discriminate.
    + cbn [forwardFill]. destruct i as [|i]; cbn [nth_error] in *.
      * injection Hn as ->. now rewrite Hv.
      * destruct (tb_totalProducts o'); cbn [nth_error]; eapply IH; eauto.
Qed.

Lemma sumZ_Permutation (l l' : list Z) : Permutation l l' -> sumZ l = sumZ l'.
Proof.
  induction 1; cbn [sumZ fold_right] in *; try lia.
  unfold sumZ in *. lia.
Qed.

Lemma filter_Permutation (A : Type) (P : A -> bool) (l l' : list A) :
  Permutation l l' -> Permutation (filter P l) (filter P l').
Proof.
  induction 1 as [|x l l' _ IH|x y l|l l' l'' _ IH1 _ IH2]; cbn [filter].
  - constructor.
  - destruct (P x); auto.
  - destruct (P x), (P y); auto. apply perm_swap.
  - eapply perm_trans; eauto.
Qed.

(** X17.  The per-bucket figures other than the totals do not depend on
    the order of the rows: permuting the visitor logs leaves
    [visitorsByBucket] unchanged, and permuting the trend rows leaves
    every bucket's products added and removed unchanged.  Each bucket's
    visitor count lies between 0 and the number of logs. *)
Theorem sums_ignore_row_order (bs : list Bucket) :
  (forall logs logs', Permutation logs logs' ->
     visitorsByBucket bs logs = visitorsByBucket bs logs')
  /\ (forall trends trends', Permutation trends trends' ->
        map (fun o => (tb_productsAdded o, tb_productsRemoved o))
            (forwardFill None (trendByBucket bs trends))
        = map (fun o => (tb_productsAdded o, tb_productsRemoved o))
              (forwardFill None (trendByBucket bs trends')))
  /\ (forall logs,
        Forall (fun o => 0 <= vb_visitors o <= Z.of_nat (List.length logs))
               (visitorsByBucket bs logs)).
Proof.
  split; [|split].
  - intros logs logs' HP. unfold visitorsByBucket. apply map_ext. intros b.
    f_equal.
    rewrite !(count_as_sum VisitorLog
                (fun l => Date_geb (At (visitedAt l)) (start b)
                          && Date_leb (At (visitedAt l)) (end_ b))).
    rewrite !sumZ_ones. f_equal. apply Permutation_length.
    now apply filter_Permutation.
  - intros trends trends' HP.
    assert (Hpair : forall l : list TrendBucket,
              map (fun o => (tb_productsAdded o, tb_productsRemoved o)) l
              = combine (map tb_productsAdded l) (map tb_productsRemoved l)).
    { induction l as [|o l IH]; [reflexivity|]. cbn [map combine]. now rewrite IH. }
    rewrite !Hpair.
    destruct (forwardFill_added (trendByBucket bs trends) None) as [-> ->].
    destruct (forwardFill_added (trendByBucket bs trends') None) as [-> ->].
    unfold trendByBucket. rewrite !map_map. cbn [tb_productsAdded tb_productsRemoved].
    f_equal; apply map_ext; intros b; rewrite !reduceSum_sumZ;
      apply sumZ_Permutation, Permutation_map; unfold itemsOf;
      now apply filter_Permutation.
  - intros logs. unfold visitorsByBucket. apply Forall_forall.
    intros o Hin. apply in_map_iff in Hin. destruct Hin as (b & <- & _).
    cbn [vb_visitors].
    rewrite (count_as_sum VisitorLog
               (fun l => Date_geb (At (visitedAt l)) (start b)
                         && Date_leb (At (visitedAt l)) (end_ b))).
    rewrite sumZ_ones.
    pose proof (filter_length_le
                  (fun l => Date_geb (At (visitedAt l)) (start b)
                            && Date_leb (At (visitedAt l)) (end_ b)) logs).
    lia.
Qed.

End MoreAggregators.

(** ** The planner and the handlers, continued *)

Section MorePlanner.
Import Calendar JS Controller CalendarFacts JSFacts HelperFacts.

Variable Number : string -> num.

Lemma enumerate_extends (mk : Date -> Bucket) (adv : Date -> Date) (re : Date) :
  forall (fuel : nat) (cursor : Date) (acc bs : list Bucket),
    enumerate fuel mk adv re cursor acc = Some bs -> exists more, bs = acc ++ more.
Proof.
  induction fuel as [|fuel IH]; intros cursor acc bs H; [discriminate|].
  cbn [enumerate] in H. destruct (Date_leb cursor re).
  - destruct (IH _ _ _ H) as (more & ->). exists (mk cursor :: more).
    now rewrite <- app_assoc.
  - injection H as <-. exists []. now rewrite app_nil_r.
Qed.

(** X8.  Whatever the request, a plan that [buildBuckets] returns has no
    bucket exactly when its [rangeStart <= rangeEnd] is false, which
    includes every plan with an invalid boundary; otherwise its first
    bucket is the one [makeBucket] makes of [rangeStart]. *)
Theorem no_buckets_iff_not_ordered (fuel : nat) (now : Z)
    (startDate endDate : option string) (bucket : string) (plan : Plan) :
  buildBuckets Number fuel now startDate endDate bucket = Some plan ->
  (buckets plan = [] <-> Date_leb (rangeStart plan) (rangeEnd plan) = false)
  /\ (Date_leb (rangeStart plan) (rangeEnd plan) = true ->
      hd_error (buckets plan)
      = Some (snd (fst (boundaries Number now startDate endDate bucket))
                (rangeStart plan)))
  /\ (rangeStart plan = Invalid \/ rangeEnd plan = Invalid -> buckets plan = []).
Proof.
  unfold buildBuckets.
  destruct (boundaries Number now startDate endDate bucket) as [[[rs re] mk] adv].
  destruct (enumerate fuel mk adv re rs []) as [bs|] eqn:E; [|discriminate].
  intros H. injection H as <-. cbn [rangeStart rangeEnd buckets fst snd].
  destruct fuel as [|fuel]; [discriminate|]. cbn [enumerate] in E.
  destruct (Date_leb rs re) eqn:L.
  - destruct (enumerate_extends _ _ _ _ _ _ _ E) as (more & ->).
    cbn [app hd_error]. repeat split; try discriminate; auto.
    intros [-> | ->]; [discriminate|]. destruct rs; discriminate.
  - injection E as <-. repeat split; auto. discriminate.
Qed.

Lemma daysFrom_length (len : nat) : forall a, List.length (daysFrom a len) = len.
Proof. induction len as [|len IH]; intros a; cbn [daysFrom List.length]; auto. Qed.

Lemma supplied_boundaries (now : Z) (startDate endDate : option string)
    (bucket : string) (s e : Z) :
  toUTCDateOnly Number startDate = Some (At s) ->
  toUTCDateOnly Number endDate = Some (At e) ->
  modern s -> modern e ->
  let E := edgesOf bucket in
  let a := edgeIndex bucket s in
  let b := edgeIndex bucket e in
  (forall i j, i < j -> E i < E j)
  /\ exists mk adv,
       boundaries Number now startDate endDate bucket
       = (At (E a * msPerDay), At (E (b + 1) * msPerDay - 1), mk, adv)
       /\ forall i, a <= i <= b ->
            mk (At (E i * msPerDay)) = edgeBucket E i
            /\ adv (At (E i * msPerDay)) = TimeClip (Some (E (i + 1) * msPerDay))
            /\ E i < E (i + 1) /\ inRange (E i * msPerDay).
Proof.
  intros Hs He Hms Hme.
  pose proof (modern_Day s Hms) as Hds. pose proof (modern_Day e Hme) as Hde.
  change (DayFromYear 101) with (-682638) in Hds, Hde.
  change (DayFromYear 275760) with 99999744 in Hds, Hde.
  assert (Hoks : okDay (Day s))
    by (unfold okDay; change (DayFromYear 100) with (-683003); lia).
  assert (Hoke : okDay (Day e))
    by (unfold okDay; change (DayFromYear 100) with (-683003); lia).
  unfold edgesOf, edgeIndex, boundaries. rewrite Hs, He.
  destruct (String.eqb bucket "month") eqn:Em;
    [|destruct (String.eqb bucket "week") eqn:Ew]; cbv zeta.
  - split; [apply monthEdge_lt|]. do 2 eexists. split.
    + rewrite startOfMonthUTC_ok by auto.
      rewrite endOfMonthUTC_ok
        by (auto; apply endOfMonth_in_range;
            change (DayFromYear 275760) with 99999744; lia).
      rewrite !firstOfMonth_is_edge.
      replace (12 * YearFromTime e + (MonthFromTime e + 1))
        with (12 * YearFromTime e + MonthFromTime e + 1) by lia.
      reflexivity.
    + intros i Hi.
      pose proof (firstOfMonth_okDay (Day s) Hoks) as Hlo.
      pose proof (endOfMonth_in_range (Day e)
                    ltac:(change (DayFromYear 275760) with 99999744; lia)) as Hhi.
      rewrite firstOfMonth_is_edge in Hlo, Hhi.
      fold (YearFromTime s) (MonthFromTime s) in Hlo.
      fold (YearFromTime e) (MonthFromTime e) in Hhi.
      replace (12 * YearFromTime e + (MonthFromTime e + 1))
        with (12 * YearFromTime e + MonthFromTime e + 1) in Hhi by lia.
      assert (monthEdge (12 * YearFromTime s + MonthFromTime s) <= monthEdge i).
      { destruct (Z.eq_dec (12 * YearFromTime s + MonthFromTime s) i) as [-> | Hne];
          [lia|].
        pose proof (monthEdge_lt (12 * YearFromTime s + MonthFromTime s) i). lia. }
      assert (monthEdge (i + 1)
              <= monthEdge (12 * YearFromTime e + MonthFromTime e + 1)).
      { destruct (Z.eq_dec (i + 1) (12 * YearFromTime e + MonthFromTime e + 1))
          as [-> | Hne]; [lia|].
        pose proof (monthEdge_lt (i + 1) (12 * YearFromTime e + MonthFromTime e + 1)).
        lia. }
      pose proof (monthEdge_step i).
      apply month_edges; [|lia]. unfold okDay in *. lia.
  - split; [intros i j Hij; unfold weekEdge; lia|]. do 2 eexists. split.
    + pose proof (isoMonday_le (Day s)). pose proof (isoMonday_le (Day e)).
      rewrite startOfISOWeekUTC_ok
        by (try lia; unfold okDay; change (DayFromYear 100) with (-683003); lia).
      rewrite endOfISOWeekUTC_ok
        by (try lia; unfold okDay; change (DayFromYear 100) with (-683003); lia).
      rewrite !isoMonday_is_edge.
      replace (weekEdge ((Day e + 3) / 7) + 7) with (weekEdge ((Day e + 3) / 7 + 1))
        by (unfold weekEdge; lia).
      reflexivity.
    + intros i Hi.
      pose proof (isoMonday_le (Day s)) as H1. pose proof (isoMonday_le (Day e)) as H2.
      rewrite isoMonday_is_edge in H1, H2.
      apply week_edges.
      * unfold okDay, weekEdge in *. change (DayFromYear 100) with (-683003) in *. lia.
      * unfold weekEdge in *. lia.
  - split; [intros i j Hij; unfold dayEdge; lia|]. do 2 eexists. split.
    + rewrite startOfDayUTC_ok, endOfDayUTC_ok by auto.
      unfold dayEdge.
      replace (Day e * msPerDay + 86399999) with ((Day e + 1) * msPerDay - 1)
        by (unfold msPerDay; lia).
      reflexivity.
    + intros i Hi. apply day_edges.
      unfold okDay, dayEdge in *. lia.
Qed.

Lemma supplied_plan_explicit (now : Z) (startDate endDate : option string)
    (bucket : string) (s e : Z) (fuel : nat) :
  toUTCDateOnly Number startDate = Some (At s) ->
  toUTCDateOnly Number endDate = Some (At e) ->
  modern s -> modern e ->
  let E := edgesOf bucket in
  let a := edgeIndex bucket s in
  let b := edgeIndex bucket e in
  (Z.to_nat (b + 1 - a) < fuel)%nat ->
  buildBuckets Number fuel now startDate endDate bucket
  = Some {| rangeStart := At (E a * msPerDay);
            rangeEnd := At (E (b + 1) * msPerDay - 1);
            buckets := map (edgeBucket E) (daysFrom a (Z.to_nat (b + 1 - a))) |}.
Proof.
  intros Hs He Hms Hme E a b Hfuel.
  destruct (supplied_boundaries now startDate endDate bucket s e Hs He Hms Hme)
    as (Hmono & mk & adv & Hb & Hedges).
  fold E a b in Hmono, Hb, Hedges.
  unfold buildBuckets. rewrite Hb.
  destruct (Z_le_gt_dec a b) as [Hab | Hab].
  - assert (Hen : enumerate fuel mk adv (At (E (b + 1) * msPerDay - 1))
                    (At (E a * msPerDay)) []
                  = Some (map (edgeBucket E) (daysFrom a (Z.to_nat (b + 1 - a))))).
    { rewrite <- (TimeClip_inRange (E a * msPerDay)) by (apply Hedges; lia).
      replace (b + 1) with (a + Z.of_nat (Z.to_nat (b + 1 - a))) at 1 by lia.
      rewrite (enumerate_edges E mk adv (Z.to_nat (b + 1 - a)) a [] fuel); auto.
      intros i Hi. apply Hedges. lia. }
    now rewrite Hen.
  - destruct fuel as [|fuel]; [lia|]. cbn [enumerate Date_leb].
    assert (E (b + 1) <= E a).
    { destruct (Z.eq_dec (b + 1) a) as [-> | Hne]; [lia|].
      pose proof (Hmono (b + 1) a). lia. }
    destruct (Z.leb_spec (E a * msPerDay) (E (b + 1) * msPerDay - 1));
      [unfold msPerDay in *; lia|].
    replace (Z.to_nat (b + 1 - a)) with 0%nat by lia. reflexivity.
Qed.

(** X9.  When both dates are supplied and read as instants of the years
    101 to 275759, the plan is the run of buckets from the one that
    contains the start date to the one that contains the end date:
    [rangeStart] is the first edge, [rangeEnd] the millisecond before the
    edge after the last bucket, and bucket number [i] of the granularity
    runs from its edge to the millisecond before the next edge.  The
    number of buckets is the number of bucket indices from the start's to
    the end's, and none when the end's comes first. *)
Theorem supplied_range_plan (now : Z) (startDate endDate : option string)
    (bucket : string) (s e : Z) (fuel : nat) :
  toUTCDateOnly Number startDate = Some (At s) ->
  toUTCDateOnly Number endDate = Some (At e) ->
  modern s -> modern e ->
  let E := edgesOf bucket in
  let a := edgeIndex bucket s in
  let b := edgeIndex bucket e in
  let expected :=
    {| rangeStart := At (E a * msPerDay);
       rangeEnd := At (E (b + 1) * msPerDay - 1);
       buckets := map (edgeBucket E) (daysFrom a (Z.to_nat (b + 1 - a))) |} in
  ((Z.to_nat (b + 1 - a) < fuel)%nat ->
   buildBuckets Number fuel now startDate endDate bucket = Some expected)
  /\ (forall plan,
        buildBuckets Number fuel now startDate endDate bucket = Some plan ->
        plan = expected
        /\ Z.of_nat (List.length (buckets plan)) = Z.max 0 (b + 1 - a)).
Proof.
  intros Hs He Hms Hme E a b expected. split.
  - intros Hfuel.
    apply (supplied_plan_explicit now startDate endDate bucket s e fuel Hs He Hms Hme
             Hfuel).
  - intros plan Hplan.
    set (fuel' := Nat.max fuel (S (Z.to_nat (b + 1 - a)))).
    pose proof (buildBuckets_more_fuel Number now startDate endDate bucket fuel fuel'
                  plan Hplan (Nat.le_max_l _ _)) as H1.
    rewrite (supplied_plan_explicit now startDate endDate bucket s e fuel' Hs He Hms Hme)
      in H1 by (subst fuel' a b; lia).
    injection H1 as <-. split; [reflexivity|].
    subst expected. cbn [buckets]. rewrite length_map, daysFrom_length. lia.
Qed.

Lemma monthEdge_length (y m : Z) :
  0 <= m <= 11 ->
  monthEdge (12 * y + m + 1) - monthEdge (12 * y + m)
  = monthStart (InLeapYear_of_year y) (m + 1) - monthStart (InLeapYear_of_year y) m.
Proof.
  intros Hm.
  replace (12 * y + m + 1) with (12 * y + (m + 1)) by lia.
  rewrite <- !firstOfMonth_is_edge.
  rewrite firstOfMonth_next, firstOfMonth_norm by auto. lia.
Qed.

Ltac eval_months :=
  repeat match goal with
         | |- context [monthStart ?L ?e] =>
             lazymatch e with
             | Z0 => fail
             | Zpos _ => fail
             | _ => let v := eval compute in e in
                    change (monthStart L e) with (monthStart L v)
             end
         | H : context [monthStart ?L ?e] |- _ =>
             lazymatch e with
             | Z0 => fail
             | Zpos _ => fail
             | _ => let v := eval compute in e in
                    change (monthStart L e) with (monthStart L v) in H
             end
         end;
  cbn [monthStart] in *.

(** The month five months before month [m] of year [y] is shorter than
    the day [d] of that month only when the month is July and [d] is
    beyond the end of February. *)
Lemma short_target_month (y m d : Z) :
  0 <= m <= 11 ->
  1 <= d <= monthEdge (12 * y + m + 1) - monthEdge (12 * y + m) ->
  (monthEdge (12 * y + m - 4) - monthEdge (12 * y + m - 5) < d
   <-> m = 6 /\ 28 + InLeapYear_of_year y < d).
Proof.
  intros Hm Hd. rewrite monthEdge_length in Hd by auto.
  destruct (Z_lt_le_dec m 5) as [Hlt | Hge].
  - replace (12 * y + m - 4) with (12 * (y - 1) + (m + 7) + 1) by lia.
    replace (12 * y + m - 5) with (12 * (y - 1) + (m + 7)) by lia.
    rewrite monthEdge_length by lia.
    destruct (InLeapYear_01 y) as [L | L], (InLeapYear_01 (y - 1)) as [L' | L'];
      rewrite L in *; rewrite L';
      month_cases m; try lia; eval_months; lia.
  - replace (12 * y + m - 4) with (12 * y + (m - 5) + 1) by lia.
    replace (12 * y + m - 5) with (12 * y + (m - 5)) by lia.
    rewrite monthEdge_length by lia.
    destruct (InLeapYear_01 y) as [L | L]; rewrite L in *;
      month_cases m; try lia; eval_months; lia.
Qed.

(** X10.  With no dates and [bucket=month], at any instant of the years
    101 to 275759: the plan ends with the current month and has six
    buckets, from five months back, except on the days of July that
    February does not have (30 and 31 July, and 29 July when February
    has 28 days), when [setUTCMonth] lands in March and the plan has five
    buckets, from March to July. *)
Theorem default_month_window_any_day (now : Z) (fuel : nat) :
  modern now -> (7 <= fuel)%nat ->
  let idx := 12 * YearFromTime now + MonthFromTime now in
  let late := (MonthFromTime now =? 6)
              && (28 + InLeapYear_of_year (YearFromTime now) <? DateFromTime now) in
  buildBuckets Number fuel now None None "month"
  = Some {| rangeStart := At (monthEdge (if late then idx - 4 else idx - 5) * msPerDay);
            rangeEnd := At (monthEdge (idx + 1) * msPerDay - 1);
            buckets := map (edgeBucket monthEdge)
                         (if late then [idx - 4; idx - 3; idx - 2; idx - 1; idx]
                          else [idx - 5; idx - 4; idx - 3; idx - 2; idx - 1; idx]) |}.
Proof.
  intros Hm Hfuel idx late.
  pose proof (modern_Day now Hm) as Hd.
  change (DayFromYear 101) with (-682638) in Hd.
  change (DayFromYear 275760) with 99999744 in Hd.
  unfold YearFromTime, MonthFromTime, DateFromTime in idx, late.
  set (n := Day now) in *.
  assert (Hok : okDay n)
    by (unfold okDay; change (DayFromYear 100) with (-683003); lia).
  pose proof (month_of_day n) as Hin.
  pose proof (DateFromDay_range n) as Hdr.
  pose proof (MonthFromDay_range n) as Hmr.
  pose proof (endOfMonth_in_range n
                ltac:(change (DayFromYear 275760) with 99999744; lia)) as Hhi.
  rewrite (firstOfMonth_is_edge (YearFromDay n) (MonthFromDay n + 1)) in Hin, Hhi.
  rewrite (firstOfMonth_is_edge (YearFromDay n) (MonthFromDay n)) in Hin.
  replace (12 * YearFromDay n + (MonthFromDay n + 1)) with (idx + 1) in Hin, Hhi
    by (subst idx; lia).
  fold idx in Hin.
  pose proof (monthEdge_step (idx - 5)) as S5.
  pose proof (monthEdge_step (idx - 4)) as S4.
  pose proof (monthEdge_step (idx - 3)) as S3.
  pose proof (monthEdge_step (idx - 2)) as S2.
  pose proof (monthEdge_step (idx - 1)) as S1.
  pose proof (monthEdge_step idx) as S0.
  replace (idx - 5 + 1) with (idx - 4) in S5 by lia.
  replace (idx - 4 + 1) with (idx - 3) in S4 by lia.
  replace (idx - 3 + 1) with (idx - 2) in S3 by lia.
  replace (idx - 2 + 1) with (idx - 1) in S2 by lia.
  replace (idx - 1 + 1) with idx in S1 by lia.
  (* the day [setUTCMonth] lands on: same day of the month, five months back *)
  set (td := monthEdge (idx - 5) + DateFromDay n - 1).
  assert (Hidx : idx - 5 = 12 * YearFromDay n + (MonthFromDay n - 5))
    by (subst idx; lia).
  assert (Etd : MakeDayZ (YearFromDay n) (MonthFromDay n - 5) (DateFromDay n) = td).
  { subst td. rewrite Hidx, <- firstOfMonth_is_edge, MakeDayZ_first. lia. }
  assert (Hdate : DateFromDay n = n - monthEdge idx + 1).
  { rewrite (date_from_month_start n), firstOfMonth_is_edge. reflexivity. }
  assert (Hoktd : okDay td).
  { subst td. unfold okDay in *. change (DayFromYear 100) with (-683003) in *. lia. }
  (* whether that day is still in the month five months back *)
  pose proof (short_target_month (YearFromDay n) (MonthFromDay n) (DateFromDay n) Hmr)
    as Hshort.
  replace (12 * YearFromDay n + MonthFromDay n + 1) with (idx + 1) in Hshort
    by (subst idx; lia).
  fold idx in Hshort. specialize (Hshort ltac:(lia)).
  set (first := if late then idx - 4 else idx - 5).
  assert (Hfirst : (first = idx - 5 \/ first = idx - 4)
                   /\ monthEdge first <= td < monthEdge (first + 1)).
  { subst first late.
    destruct (Z.eqb_spec (MonthFromDay n) 6) as [E6 | N6]; cbn [andb].
    - destruct (Z.ltb_spec (28 + InLeapYear_of_year (YearFromDay n)) (DateFromDay n))
        as [Hl | Hl].
      + split; [auto|]. replace (idx - 4 + 1) with (idx - 3) by lia.
        assert (monthEdge (idx - 4) - monthEdge (idx - 5) < DateFromDay n)
          by (apply Hshort; auto).
        subst td. lia.
      + split; [auto|]. replace (idx - 5 + 1) with (idx - 4) by lia.
        assert (~ monthEdge (idx - 4) - monthEdge (idx - 5) < DateFromDay n)
          by (rewrite Hshort; lia).
        subst td. lia.
    - split; [auto|]. replace (idx - 5 + 1) with (idx - 4) by lia.
      assert (~ monthEdge (idx - 4) - monthEdge (idx - 5) < DateFromDay n)
        by (rewrite Hshort; lia).
      subst td. lia. }
  destruct Hfirst as (Hcase & Htd).
  unfold buildBuckets, boundaries.
  cbn [toUTCDateOnly String.eqb Ascii.eqb Bool.eqb].
  rewrite (startOfDayUTC_ok now) by auto. fold n.
  rewrite setUTCMonth_back5.
  unfold YearFromTime, MonthFromTime, DateFromTime.
  rewrite Day_mul, TimeWithinDay_mul, Z.add_0_r, Etd.
  rewrite TimeClip_inRange by (apply okDay_inRange0; auto).
  assert (Hmonth : YearFromDay td = first / 12 /\ MonthFromDay td = first mod 12).
  { unfold monthEdge in Htd.
    destruct (in_month_any td 0 first Htd) as (Hy & Hmo & _).
    split; [rewrite Hy; lia | exact Hmo]. }
  destruct Hmonth as (Hy & Hmo).
  assert (Efirst : firstOfMonth (first / 12) (first mod 12) = monthEdge first).
  { rewrite firstOfMonth_is_edge. f_equal. divlia. }
  rewrite (startOfMonthUTC_ok (td * msPerDay)) by (rewrite Day_mul; auto).
  unfold YearFromTime, MonthFromTime. rewrite Day_mul, Hy, Hmo, Efirst.
  assert (Hedges : forall i, idx - 5 <= i <= idx ->
            {| start := startOfMonthUTC (At (monthEdge i * msPerDay));
               end_ := endOfMonthUTC (At (monthEdge i * msPerDay)) |}
            = edgeBucket monthEdge i
            /\ addMonthsUTC (At (monthEdge i * msPerDay)) 1
               = TimeClip (Some (monthEdge (i + 1) * msPerDay))
            /\ monthEdge i < monthEdge (i + 1) /\ inRange (monthEdge i * msPerDay)).
  { intros i Hi. apply month_edges.
    - assert (monthEdge (idx - 5) <= monthEdge i).
      { destruct (Z.eq_dec (idx - 5) i) as [-> | Hne]; [lia|].
        pose proof (monthEdge_lt (idx - 5) i). lia. }
      unfold okDay in *. change (DayFromYear 100) with (-683003) in *.
      assert (monthEdge i <= monthEdge idx).
      { destruct (Z.eq_dec i idx) as [-> | Hne]; [lia|].
        pose proof (monthEdge_lt i idx). lia. }
      lia.
    - destruct (Z.eq_dec (i + 1) (idx + 1)) as [-> | Hne]; [lia|].
      pose proof (monthEdge_lt (i + 1) (idx + 1)). lia. }
  assert (Hs5 : startOfMonthUTC (At (monthEdge first * msPerDay))
                = At (monthEdge first * msPerDay)).
  { assert (Hokf : okDay (monthEdge first)).
    { unfold okDay in *. change (DayFromYear 100) with (-683003) in *.
      destruct Hcase as [-> | ->]; lia. }
    rewrite startOfMonthUTC_ok by (rewrite Day_mul; exact Hokf).
    unfold YearFromTime, MonthFromTime. rewrite Day_mul.
    destruct (monthEdge_date first) as (Hy1 & Hm1 & _). rewrite Hy1, Hm1.
    now rewrite Efirst. }
  rewrite Hs5.
  rewrite (endOfMonthUTC_ok (n * msPerDay))
    by (unfold YearFromTime, MonthFromTime; rewrite Day_mul; auto;
        rewrite firstOfMonth_is_edge;
        replace (12 * YearFromDay n + (MonthFromDay n + 1)) with (idx + 1)
          by (subst idx; lia);
        lia).
  unfold YearFromTime, MonthFromTime. rewrite Day_mul.
  rewrite (firstOfMonth_is_edge (YearFromDay n) (MonthFromDay n + 1)).
  replace (12 * YearFromDay n + (MonthFromDay n + 1)) with (idx + 1)
    by (subst idx; lia).
  assert (Hen :
    enumerate fuel
      (fun d => {| start := startOfMonthUTC d; end_ := endOfMonthUTC d |})
      (fun d => addMonthsUTC d 1)
      (At (monthEdge (idx + 1) * msPerDay - 1))
      (At (monthEdge first * msPerDay)) []
    = Some (map (edgeBucket monthEdge)
              (if late then [idx - 4; idx - 3; idx - 2; idx - 1; idx]
               else [idx - 5; idx - 4; idx - 3; idx - 2; idx - 1; idx]))).
  { rewrite <- (TimeClip_inRange (monthEdge first * msPerDay))
      by (apply (Hedges first); lia).
    subst first. destruct late.
    - replace (idx + 1) with (idx - 4 + Z.of_nat 5) by lia.
      rewrite (enumerate_edges monthEdge _ _ 5 (idx - 4) [] fuel); try lia.
      + cbn [app daysFrom]. do 2 f_equal. repeat (f_equal; try lia).
      + intros i Hi. apply Hedges. lia.
    - replace (idx + 1) with (idx - 5 + Z.of_nat 6) by lia.
      rewrite (enumerate_edges monthEdge _ _ 6 (idx - 5) [] fuel); try lia.
      + cbn [app daysFrom]. do 2 f_equal. repeat (f_equal; try lia).
      + intros i Hi. apply Hedges. lia. }
  now rewrite Hen.
Qed.

(** X18.  The products handler answers every request whose parameters
    are strings or absent: it queries the storage with exactly the
    plan's range, sends status 500 exactly when that query or the count
    of products is rejected, and otherwise sends the count as
    [currentTotal] and one [trend] entry per bucket of the plan, in
    order, labelled with [fmt] of the bucket's start and end, none with a
    [null] total. *)
Theorem products_handler_answers (now : Z) (q : Query) :
  exists fuel plan,
    forall fuel', (fuel <= fuel')%nat ->
      buildBuckets Number fuel' now (q_startDate q) (q_endDate q) (bucketOf q)
      = Some plan
      /\ forall findMany count,
           exists r,
             getDashboardProductsHandler Number fuel' now q findMany count = Some r
             /\ (r = InternalServerError
                 <-> findMany (rangeStart plan) (rangeEnd plan) = None \/ count = None)
             /\ forall body, r = Json body ->
                  count = Some (currentTotal body)
                  /\ map (fun o => (tb_startDate o, tb_endDate o)) (trend body)
                     = map (fun b => (fmt (start b), fmt (end_ b))) (buckets plan)
                  /\ Forall (fun o => exists v, tb_totalProducts o = Some v)
                            (trend body).
Proof.
  destruct (buildBuckets_returns Number now (q_startDate q) (q_endDate q) (bucketOf q))
    as (fuel & plan & Hp).
  exists fuel, plan. intros fuel' Hf. split; [now apply Hp|].
  intros findMany count. unfold getDashboardProductsHandler. rewrite (Hp fuel' Hf).
  destruct (findMany (rangeStart plan) (rangeEnd plan)) as [trends|].
  - destruct count as [c|].
    + eexists. split; [reflexivity|]. split.
      * split; [discriminate | intros [H | H]; discriminate].
      * intros body Hb. injection Hb as <-. cbn [currentTotal trend].
        split; [reflexivity|]. split.
        -- rewrite forwardFill_labels. unfold trendByBucket. now rewrite map_map.
        -- apply forwardFill_known.
    + eexists. split; [reflexivity|]. split; [split; auto | discriminate].
  - eexists. split; [reflexivity|]. split; [split; auto | discriminate].
Qed.

(** X19.  The visitors handler answers every request whose parameters
    are strings or absent: it queries the storage with exactly the
    plan's range, sends status 500 exactly when that query is rejected,
    and otherwise sends the number of logs returned as [totalVisitors]
    and one entry per bucket of the plan, in order, labelled with [fmt]
    of the bucket's start and end, whose count is the number of logs
    within the bucket. *)
Theorem visitors_handler_answers (now : Z) (q : Query) :
  exists fuel plan,
    forall fuel', (fuel <= fuel')%nat ->
      buildBuckets Number fuel' now (q_startDate q) (q_endDate q) (bucketOf q)
      = Some plan
      /\ forall findMany,
           exists r,
             getDashboardVisitorsHandler Number fuel' now q findMany = Some r
             /\ (r = InternalServerError
                 <-> findMany (rangeStart plan) (rangeEnd plan) = None)
             /\ forall body, r = Json body ->
                  exists logs,
                    findMany (rangeStart plan) (rangeEnd plan) = Some logs
                    /\ totalVisitors body = Z.of_nat (List.length logs)
                    /\ map (fun o => (vb_startDate o, vb_endDate o))
                           (visitorsByBucket_ body)
                       = map (fun b => (fmt (start b), fmt (end_ b))) (buckets plan)
                    /\ map vb_visitors (visitorsByBucket_ body)
                       = map (fun b => Z.of_nat (List.length
                                (filter (fun l => inBucket b (visitedAt l)) logs)))
                             (buckets plan).
Proof.
  destruct (buildBuckets_returns Number now (q_startDate q) (q_endDate q) (bucketOf q))
    as (fuel & plan & Hp).
  exists fuel, plan. intros fuel' Hf. split; [now apply Hp|].
  intros findMany. unfold getDashboardVisitorsHandler. rewrite (Hp fuel' Hf).
  destruct (findMany (rangeStart plan) (rangeEnd plan)) as [logs|].
  - eexists. split; [reflexivity|]. split; [split; discriminate|].
    intros body Hb. injection Hb as <-. cbn [totalVisitors visitorsByBucket_].
    exists logs. split; [reflexivity|]. split; [reflexivity|].
    unfold visitorsByBucket. rewrite !map_map. cbn [vb_startDate vb_endDate vb_visitors].
    split; [reflexivity|]. apply map_ext. intros b.
    rewrite (count_as_sum VisitorLog
               (fun l => Date_geb (At (visitedAt l)) (start b)
                         && Date_leb (At (visitedAt l)) (end_ b))).
    now rewrite sumZ_ones.
  - eexists. split; [reflexivity|]. split; [split; auto | discriminate].
Qed.

End MorePlanner.

(** ** Reading dates and writing labels *)

Section Parsing.
Import Calendar JS Controller CalendarFacts JSFacts HelperFacts DigitFacts.

Variable Number : string -> num.

(** StringToNumber is exact on a string of decimal digits whose value is
    at most 2^53; the empty string is 0. *)
Hypothesis Number_digits :
  forall s n, digitsValue 0 s = Some n -> n <= 9007199254740992 -> Number s = ofZ n.

Lemma toUTCDateOnly_fields (s ys ms ds : string) (rest : list string) (Y M D : Z) :
  split "-" s = ys :: ms :: ds :: rest ->
  Number ys = ofZ Y -> Number ms = ofZ M -> Number ds = ofZ D ->
  Y <> 0 -> M <> 0 -> D <> 0 ->
  toUTCDateOnly Number (Some s) = Some (Date_UTC (ofZ Y) (ofZ (M - 1)) (ofZ D)).
Proof.
  intros Hsp HY HM HD Y0 M0 D0.
  destruct s as [|c s]; [discriminate|].
  unfold toUTCDateOnly. rewrite Hsp. cbn [map nth_error]. rewrite HY, HM, HD.
  cbn [truthy_elem]. rewrite !truthy_ofZ.
  destruct (Z.eqb_spec Y 0), (Z.eqb_spec M 0), (Z.eqb_spec D 0); try contradiction.
  cbn [negb orb]. now rewrite num_sub_ofZ.
Qed.

Lemma toUTCDateOnly_value (s ys ms ds : string) (rest : list string) (Y M D : Z) :
  split "-" s = ys :: ms :: ds :: rest ->
  digitsValue 0 ys = Some Y -> digitsValue 0 ms = Some M -> digitsValue 0 ds = Some D ->
  1 <= Y <= 9007199254740992 -> 1 <= M <= 9007199254740992 ->
  1 <= D <= 9007199254740992 ->
  toUTCDateOnly Number (Some s)
  = Some (TimeClip (Some ((firstOfMonth (fullYear Y) (M - 1) + (D - 1)) * msPerDay))).
Proof.
  intros Hsp HY HM HD RY RM RD.
  rewrite (toUTCDateOnly_fields s ys ms ds rest Y M D Hsp)
    by (try apply Number_digits; auto; lia).
  rewrite Date_UTC_fullYear, MakeDayZ_first. reflexivity.
Qed.

(** X20.  When the first three fields of the parameter are digits with
    values [Y], [M] and [D] from 1 to 2^53, [toUTCDateOnly] returns the
    midnight that lies [D - 1] days after the first day of the month
    that lies [M - 1] months after January of the year [Date.UTC] takes
    for [Y] (1900 + [Y] up to 99): months beyond 12 run into the
    following years, days beyond the end of the month into the following
    months, whatever follows the third field is ignored, and the date is
    invalid when that midnight is not a time value. *)
Theorem toUTCDateOnly_rolls_over (s ys ms ds : string) (rest : list string)
    (Y M D : Z) :
  split "-" s = ys :: ms :: ds :: rest ->
  digitsValue 0 ys = Some Y -> digitsValue 0 ms = Some M -> digitsValue 0 ds = Some D ->
  1 <= Y <= 9007199254740992 -> 1 <= M <= 9007199254740992 ->
  1 <= D <= 9007199254740992 ->
  toUTCDateOnly Number (Some s)
  = Some (TimeClip (Some ((firstOfMonth (fullYear Y) (M - 1) + (D - 1)) * msPerDay))).
Proof. apply toUTCDateOnly_value. Qed.

Lemma calendar_day (Y M D : Z) :
  1 <= M <= 12 -> 1 <= D <= daysInMonth Y M ->
  let n := firstOfMonth Y (M - 1) + (D - 1) in
  YearFromDay n = Y /\ MonthFromDay n = M - 1 /\ DateFromDay n = D.
Proof.
  intros HM HDm n. unfold daysInMonth in HDm.
  destruct (in_month n Y (M - 1) ltac:(lia)) as (Hy & Hm & Hd).
  - subst n. rewrite firstOfMonth_next, firstOfMonth_norm by lia.
    replace (M - 1 + 1) with M by lia. lia.
  - rewrite Hy, Hm, Hd. subst n. repeat split; lia.
Qed.

(** X21.  A literal YYYY-MM-DD calendar date of a year from 0100 on is
    read as the UTC midnight of that date: the year, the month and the
    day of the result are the ones written.  From the year 1000 on [fmt]
    writes the result as the string that was read. *)
Theorem toUTCDateOnly_calendar_date (s ys ms ds : string) (Y M D : Z) :
  isCalendarDate s = true ->
  split "-" s = [ys; ms; ds] ->
  digitsValue 0 ys = Some Y -> digitsValue 0 ms = Some M -> digitsValue 0 ds = Some D ->
  100 <= Y ->
  exists t,
    toUTCDateOnly Number (Some s) = Some (At t)
    /\ TimeWithinDay t = 0
    /\ YearFromTime t = Y /\ MonthFromTime t = M - 1 /\ DateFromTime t = D
    /\ (1000 <= Y -> fmt (At t) = s).
Proof.
  intros Hcal Hsp HY HM HD RY.
  unfold isCalendarDate in Hcal. rewrite Hsp, HY, HM, HD in Hcal.
  repeat (apply andb_true_iff in Hcal; destruct Hcal as [Hcal ?]).
  repeat match goal with
         | H : (_ =? _)%nat = true |- _ => apply Nat.eqb_eq in H
         | H : (_ <=? _) = true |- _ => apply Z.leb_le in H
         end.
  pose proof (four_digits_bound ys Y ltac:(assumption) HY) as BY.
  assert (RM : 1 <= M <= 12) by lia.
  assert (RD : 1 <= D <= daysInMonth Y M) by lia.
  destruct (calendar_day Y M D RM RD) as (Hy & Hm & Hd).
  set (n := firstOfMonth Y (M - 1) + (D - 1)) in *.
  assert (RD31 : D <= 31) by (pose proof (DateFromDay_range n); lia).
  assert (Hn : -683003 <= n < 2932897).
  { pose proof (YearFromDay_spec n) as Sp. rewrite Hy in Sp.
    unfold DayFromYear in Sp. divlia. }
  exists (n * msPerDay).
  rewrite (toUTCDateOnly_value s ys ms ds [] Y M D Hsp HY HM HD) by lia.
  assert (fullYear Y = Y) as ->.
  { unfold fullYear. destruct (Z.leb_spec Y 99); [lia|]. now rewrite andb_false_r. }
  fold n. rewrite TimeClip_inRange
    by (unfold inRange, maxTime, msPerDay; lia).
  unfold YearFromTime, MonthFromTime, DateFromTime. rewrite Day_mul, TimeWithinDay_mul.
  repeat split; auto.
  intros HY1000. unfold fmt, getUTCFullYear, getUTCMonth, getUTCDate.
  unfold YearFromTime, MonthFromTime, DateFromTime. rewrite Day_mul, Hy, Hm, Hd.
  rewrite num_add_ofZ. replace (M - 1 + 1) with M by lia.
  rewrite (four_digits_toString ys Y) by auto.
  rewrite (two_digits_toString ms M), (two_digits_toString ds D) by (auto; lia).
  pose proof (split_join s) as J. rewrite Hsp in J. exact J.
Qed.

Lemma toUTCDateOnly_fmt (t : Z) :
  okDay (Day t) ->
  toUTCDateOnly Number (Some (fmt (At t))) = Some (startOfDayUTC (At t))
  /\ startOfDayUTC (At t) = At (Day t * msPerDay).
Proof.
  intros Hok. split; [|now apply startOfDayUTC_ok].
  pose proof (okDay_plainYear _ Hok) as Hplain.
  assert (HY : 100 <= YearFromDay (Day t) <= 275760).
  { unfold okDay in Hok. split.
    - apply YearFromDay_ge. lia.
    - assert (YearFromDay (Day t) < 275761); [|lia].
      apply YearFromDay_lt. change (DayFromYear 275761) with 100000110. lia. }
  pose proof (MonthFromDay_range (Day t)) as HM.
  pose proof (DateFromDay_range (Day t)) as HD.
  set (ys := num_toString (ofZ (YearFromDay (Day t)))).
  set (ms := padStart2 (num_toString (ofZ (MonthFromDay (Day t) + 1)))).
  set (ds := padStart2 (num_toString (ofZ (DateFromDay (Day t))))).
  assert (Ey : digitsValue 0 ys = Some (YearFromDay (Day t)))
    by (apply digitsValue_toString; lia).
  assert (Em : digitsValue 0 ms = Some (MonthFromDay (Day t) + 1))
    by (subst ms; rewrite digitsValue_padStart2; apply digitsValue_toString; lia).
  assert (Ed : digitsValue 0 ds = Some (DateFromDay (Day t)))
    by (subst ds; rewrite digitsValue_padStart2; apply digitsValue_toString; lia).
  assert (Efmt : fmt (At t) = (ys ++ String "-" (ms ++ String "-" ds))%string).
  { unfold fmt, getUTCFullYear, getUTCMonth, getUTCDate,
      YearFromTime, MonthFromTime, DateFromTime.
    rewrite num_add_ofZ. reflexivity. }
  rewrite Efmt.
  assert (Hsp : split "-" (ys ++ String "-" (ms ++ String "-" ds)) = [ys; ms; ds]).
  { rewrite (proj2 (split_digits ys 0 _ Ey)), (proj2 (split_digits ms 0 _ Em)).
    now rewrite (proj1 (split_digits ds 0 _ Ed)). }
  rewrite (toUTCDateOnly_fields _ ys ms ds [] (YearFromDay (Day t))
             (MonthFromDay (Day t) + 1) (DateFromDay (Day t)) Hsp)
    by (try apply Number_digits; auto; lia).
  f_equal. unfold startOfDayUTC, getUTCFullYear, getUTCMonth, getUTCDate,
    YearFromTime, MonthFromTime, DateFromTime.
  do 2 f_equal. lia.
Qed.

(** X22.  What [fmt] writes for a date from 1 January 100 on,
    [toUTCDateOnly] reads as the start of that date's UTC day: reading a
    label gives back the midnight of the day it names. *)
Theorem toUTCDateOnly_reads_fmt (t : Z) :
  okDay (Day t) ->
  toUTCDateOnly Number (Some (fmt (At t))) = Some (startOfDayUTC (At t))
  /\ startOfDayUTC (At t) = At (Day t * msPerDay).
Proof. apply toUTCDateOnly_fmt. Qed.

Lemma edgeIndex_edges (bucket : string) (i : Z) :
  edgeIndex bucket (edgesOf bucket i * msPerDay) = i
  /\ edgeIndex bucket ((edgesOf bucket (i + 1) - 1) * msPerDay) = i.
Proof.
  unfold edgeIndex, edgesOf.
  destruct (String.eqb bucket "month"); [|destruct (String.eqb bucket "week")].
  - unfold YearFromTime, MonthFromTime. rewrite !Day_mul.
    destruct (monthEdge_date i) as (Hy & Hm & _).
    pose proof (monthEdge_step i).
    destruct (in_month_any (monthEdge (i + 1) - 1) 0 i) as (Hy' & Hm' & _).
    { unfold monthEdge in *. lia. }
    rewrite Hy, Hm, Hy', Hm'. split; divlia.
  - rewrite !Day_mul. unfold weekEdge. split; divlia.
  - rewrite !Day_mul. unfold dayEdge. split; lia.
Qed.

(** X23.  The labels of a bucket select that bucket: for a day, a week
    or a month that lies in the years 101 to 275759, the request whose
    [startDate] and [endDate] are the bucket's two labels, with the same
    granularity, is planned as exactly that one bucket, and its range
    is the bucket's. *)
Theorem bucket_labels_select_bucket (bucket : string) (i : Z) (now : Z) (fuel : nat) :
  let E := edgesOf bucket in
  let b := edgeBucket E i in
  modern (E i * msPerDay) -> modern (E (i + 1) * msPerDay - 1) ->
  (2 <= fuel)%nat ->
  buildBuckets Number fuel now (Some (fmt (start b))) (Some (fmt (end_ b))) bucket
  = Some {| rangeStart := start b; rangeEnd := end_ b; buckets := [b] |}.
Proof.
  intros E b Hs He Hfuel.
  destruct (toUTCDateOnly_fmt _ (modern_okDay0 _ Hs)) as (Ps & Ps').
  destruct (toUTCDateOnly_fmt _ (modern_okDay0 _ He)) as (Pe & Pe').
  rewrite Ps' in Ps. rewrite Pe' in Pe.
  rewrite Day_mul in Ps. rewrite Day_last_ms in Pe.
  destruct (edgeIndex_edges bucket i) as (Ia & Ib). fold E in Ia, Ib.
  pose proof (modern_midnight _ He) as He'. rewrite Day_last_ms in He'.
  pose proof (supplied_plan_explicit Number now (Some (fmt (start b)))
                (Some (fmt (end_ b))) bucket _ _ fuel Ps Pe Hs He') as Hplan.
  cbv zeta in Hplan. fold E in Hplan. rewrite Ia, Ib in Hplan.
  replace (i + 1 - i) with 1 in Hplan by lia.
  apply Hplan. change (Z.to_nat 1) with 1%nat. lia.
Qed.

End Parsing.

(** ** Concrete requests, continued *)

Section MoreRequests.
Import Calendar JS Controller DigitFacts.
Open Scope string_scope.

(** Three days of September 2025: an ordered plan, whose first bucket
    is the one of its start. *)
Lemma no_buckets_iff_not_ordered_witness :
  exists plan,
    buildBuckets NumberOfDigits 4 0 (Some "2025-09-01") (Some "2025-09-03") "day"
    = Some plan
    /\ (buckets plan = [] <-> Date_leb (rangeStart plan) (rangeEnd plan) = false)
    /\ (Date_leb (rangeStart plan) (rangeEnd plan) = true ->
        hd_error (buckets plan)
        = Some (snd (fst (boundaries NumberOfDigits 0
                            (Some "2025-09-01") (Some "2025-09-03") "day"))
                  (rangeStart plan)))
    /\ (rangeStart plan = Invalid \/ rangeEnd plan = Invalid -> buckets plan = []).
Proof.
  destruct (buildBuckets NumberOfDigits 4 0 (Some "2025-09-01") (Some "2025-09-03") "day")
    as [plan|] eqn:Hplan; [|vm_compute in Hplan; discriminate].
  exists plan. split; [reflexivity|].
  exact (no_buckets_iff_not_ordered NumberOfDigits 4 0
           (Some "2025-09-01") (Some "2025-09-03") "day" plan Hplan).
Defined.

(** From 30 January to 2 March 2025, by week: five weeks. *)
Lemma supplied_range_plan_witness :
  modern 1738195200000 /\ modern 1740873600000
  /\ buildBuckets NumberOfDigits 7 0 (Some "2025-01-30") (Some "2025-03-02") "week"
     = Some {| rangeStart := At (weekEdge 2874 * msPerDay);
               rangeEnd := At (weekEdge 2879 * msPerDay - 1);
               buckets := map (edgeBucket weekEdge)
                            [2874; 2875; 2876; 2877; 2878] |}.
Proof.
  assert (Hs : modern 1738195200000).
  { unfold modern. vm_compute. split; [discriminate | reflexivity]. }
  assert (He : modern 1740873600000).
  { unfold modern. vm_compute. split; [discriminate | reflexivity]. }
  split; [exact Hs|]. split; [exact He|].
  exact (proj1 (supplied_range_plan NumberOfDigits 0
                  (Some "2025-01-30") (Some "2025-03-02") "week"
                  1738195200000 1740873600000 7%nat eq_refl eq_refl Hs He)
           ltac:(vm_compute; lia)).
Defined.

(** The default months at noon on 31 July 2025: March to July. *)
Lemma default_month_window_any_day_witness :
  modern 1753963200000
  /\ exists p,
      buildBuckets NumberOfDigits 7 1753963200000 None None "month" = Some p
      /\ map (fun b => (fmt (start b), fmt (end_ b))) (buckets p)
         = [("2025-03-01", "2025-03-31"); ("2025-04-01", "2025-04-30");
            ("2025-05-01", "2025-05-31"); ("2025-06-01", "2025-06-30");
            ("2025-07-01", "2025-07-31")].
Proof.
  assert (Hm : modern 1753963200000).
  { unfold modern. vm_compute. split; [discriminate | reflexivity]. }
  split; [exact Hm|].
  pose proof (default_month_window_any_day NumberOfDigits 1753963200000 7%nat Hm
                (Nat.le_refl 7)) as H.
  eexists. split; [exact H|]. vm_compute. reflexivity.
Defined.

(** Noon of Wednesday 3 September 2025 through the helpers. *)
Lemma day_helpers_bracket_witness :
  modern 1756900800000
  /\ exists a b,
      startOfDayUTC (At 1756900800000) = At a /\ endOfDayUTC (At 1756900800000) = At b
      /\ a <= 1756900800000 <= b
      /\ TimeWithinDay a = 0 /\ b = a + msPerDay - 1
      /\ fmt (At a) = fmt (At 1756900800000) /\ fmt (At b) = fmt (At 1756900800000).
Proof.
  assert (Hm : modern 1756900800000).
  { unfold modern. vm_compute. split; [discriminate | reflexivity]. }
  split; [exact Hm|]. exact (day_helpers_bracket 1756900800000 Hm).
Defined.

Lemma week_helpers_bracket_witness :
  modern 1756900800000
  /\ exists a b,
      startOfISOWeekUTC (At 1756900800000) = At a
      /\ endOfISOWeekUTC (At 1756900800000) = At b
      /\ a <= 1756900800000 <= b
      /\ TimeWithinDay a = 0 /\ WeekDay a = 1
      /\ b = a + 7 * msPerDay - 1 /\ WeekDay b = 0.
Proof.
  assert (Hm : modern 1756900800000).
  { unfold modern. vm_compute. split; [discriminate | reflexivity]. }
  split; [exact Hm|]. exact (week_helpers_bracket 1756900800000 Hm).
Defined.

Lemma month_helpers_bracket_witness :
  modern 1756900800000
  /\ exists a b,
      startOfMonthUTC (At 1756900800000) = At a
      /\ endOfMonthUTC (At 1756900800000) = At b
      /\ a <= 1756900800000 <= b
      /\ TimeWithinDay a = 0 /\ DateFromTime a = 1
      /\ YearFromTime a = YearFromTime 1756900800000
      /\ MonthFromTime a = MonthFromTime 1756900800000
      /\ YearFromTime b = YearFromTime 1756900800000
      /\ MonthFromTime b = MonthFromTime 1756900800000
      /\ TimeWithinDay (b + 1) = 0 /\ DateFromTime (b + 1) = 1.
Proof.
  assert (Hm : modern 1756900800000).
  { unfold modern. vm_compute. split; [discriminate | reflexivity]. }
  split; [exact Hm|]. exact (month_helpers_bracket 1756900800000 Hm).
Defined.

(** Ten days after noon of 3 September 2025, then three more. *)
Lemma addDaysUTC_whole_days_witness :
  inRange (1756900800000 + 10 * msPerDay)
  /\ addDaysUTC (At 1756900800000) 10 = At (1756900800000 + 10 * msPerDay)
  /\ addDaysUTC (addDaysUTC (At 1756900800000) 10) 3
     = addDaysUTC (At 1756900800000) (10 + 3).
Proof.
  assert (Hr : inRange (1756900800000 + 10 * msPerDay))
    by (unfold inRange, maxTime, msPerDay; lia).
  split; [exact Hr|].
  destruct (addDaysUTC_whole_days 1756900800000 10 3 Hr) as (H1 & _ & _ & H2 & _).
  split; [exact H1 | exact H2].
Defined.

(** One month after noon of 31 January 2025: 3 March 2025. *)
Lemma addMonthsUTC_spills_witness :
  okDay (Day 1738324800000)
  /\ fmt (At 1738324800000) = "2025-01-31"
  /\ addMonthsUTC (At 1738324800000) 1 = At 1740960000000
  /\ fmt (At 1740960000000) = "2025-03-03".
Proof.
  assert (Hok : okDay (Day 1738324800000)).
  { unfold okDay. vm_compute. split; [discriminate | reflexivity]. }
  split; [exact Hok|]. split; [vm_compute; reflexivity|].
  destruct (addMonthsUTC_spills 1738324800000 1 Hok) as (H & _).
  split; [rewrite H; vm_compute; reflexivity | vm_compute; reflexivity].
Defined.

(** Month 13 and day 45 of 2025: 14 February 2026. *)
Lemma toUTCDateOnly_rolls_over_witness :
  (forall s n, digitsValue 0 s = Some n -> n <= 9007199254740992 ->
               NumberOfDigits s = ofZ n)
  /\ toUTCDateOnly NumberOfDigits (Some "2025-13-45")
     = Some (TimeClip (Some ((firstOfMonth (fullYear 2025) (13 - 1) + (45 - 1))
                             * msPerDay)))
  /\ TimeClip (Some ((firstOfMonth (fullYear 2025) (13 - 1) + (45 - 1)) * msPerDay))
     = At 1771027200000.
Proof.
  split; [exact NumberOfDigits_exact|]. split; [|vm_compute; reflexivity].
  apply (toUTCDateOnly_rolls_over NumberOfDigits NumberOfDigits_exact
           "2025-13-45" "2025" "13" "45" [] 2025 13 45);
    try reflexivity; lia.
Defined.

(** 29 February 2024. *)
Lemma toUTCDateOnly_calendar_date_witness :
  (forall s n, digitsValue 0 s = Some n -> n <= 9007199254740992 ->
               NumberOfDigits s = ofZ n)
  /\ isCalendarDate "2024-02-29" = true
  /\ exists t,
      toUTCDateOnly NumberOfDigits (Some "2024-02-29") = Some (At t)
      /\ TimeWithinDay t = 0
      /\ YearFromTime t = 2024 /\ MonthFromTime t = 2 - 1 /\ DateFromTime t = 29
      /\ (1000 <= 2024 -> fmt (At t) = "2024-02-29").
Proof.
  split; [exact NumberOfDigits_exact|]. split; [reflexivity|].
  apply (toUTCDateOnly_calendar_date NumberOfDigits NumberOfDigits_exact
           "2024-02-29" "2024" "02" "29" 2024 2 29);
    try reflexivity; lia.
Defined.

(** The label of noon of 3 September 2025, read back. *)
Lemma toUTCDateOnly_reads_fmt_witness :
  (forall s n, digitsValue 0 s = Some n -> n <= 9007199254740992 ->
               NumberOfDigits s = ofZ n)
  /\ okDay (Day 1756900800000)
  /\ fmt (At 1756900800000) = "2025-09-03"
  /\ toUTCDateOnly NumberOfDigits (Some (fmt (At 1756900800000)))
     = Some (startOfDayUTC (At 1756900800000))
  /\ startOfDayUTC (At 1756900800000) = At (Day 1756900800000 * msPerDay).
Proof.
  assert (Hok : okDay (Day 1756900800000)).
  { unfold okDay. vm_compute. split; [discriminate | reflexivity]. }
  split; [exact NumberOfDigits_exact|]. split; [exact Hok|].
  split; [vm_compute; reflexivity|].
  exact (toUTCDateOnly_reads_fmt NumberOfDigits NumberOfDigits_exact 1756900800000 Hok).
Defined.

(** The week of Monday 1 September 2025, selected by its labels. *)
Lemma bucket_labels_select_bucket_witness :
  (forall s n, digitsValue 0 s = Some n -> n <= 9007199254740992 ->
               NumberOfDigits s = ofZ n)
  /\ modern (edgesOf "week" 2905 * msPerDay)
  /\ modern (edgesOf "week" (2905 + 1) * msPerDay - 1)
  /\ fmt (start (edgeBucket (edgesOf "week") 2905)) = "2025-09-01"
  /\ fmt (end_ (edgeBucket (edgesOf "week") 2905)) = "2025-09-07"
  /\ buildBuckets NumberOfDigits 2 0
       (Some (fmt (start (edgeBucket (edgesOf "week") 2905))))
       (Some (fmt (end_ (edgeBucket (edgesOf "week") 2905)))) "week"
     = Some {| rangeStart := start (edgeBucket (edgesOf "week") 2905);
               rangeEnd := end_ (edgeBucket (edgesOf "week") 2905);
               buckets := [edgeBucket (edgesOf "week") 2905] |}.
Proof.
  assert (Hs : modern (edgesOf "week" 2905 * msPerDay)).
  { unfold modern. vm_compute. split; [discriminate | reflexivity]. }
  assert (He : modern (edgesOf "week" (2905 + 1) * msPerDay - 1)).
  { unfold modern. vm_compute. split; [discriminate | reflexivity]. }
  split; [exact NumberOfDigits_exact|]. split; [exact Hs|]. split; [exact He|].
  split; [vm_compute; reflexivity|]. split; [vm_compute; reflexivity|].
  exact (bucket_labels_select_bucket NumberOfDigits NumberOfDigits_exact
           "week" 2905 0 2%nat Hs He (Nat.le_refl 2)).
Defined.

End MoreRequests.
